(** * Analytics aggregation of ai-marketing-agent

    A shallow embedding of the analytics routes of the application:

    - [/api/settings/analytics] (GET overview, POST record event, with the
      helper [updatePostAnalytics]);
    - [/api/settings/analytics/top-posts] (GET ranking);

    together with the two tables they read and write, [analytics_events] and
    [post_analytics], as the migration declares them; and, after them, of
    the platform settings routes ([/api/settings/platforms/oauth-url],
    [/connect] and [/credentials]) over [platform_credentials].

    Conventions of the embedding.

    - A table is the list of its rows, in insertion order.
    - A JavaScript [number] is an IEEE-754 double, given by its exact value
      (a rational, [Q]); every operation rounds its exact result to the
      nearest double, ties to even ([JsNumber.double]).  The exponent range
      of doubles is left out: the numbers of these routes, built from
      INTEGER and DECIMAL(5,2) columns, are far from both of its ends.
    - An [INTEGER] column holds an integer from [-2^31] to [2^31 - 1], a
      [DECIMAL(5,2)] column its integer number of hundredths, below
      [100000] in magnitude.  An update of [post_analytics] that would
      leave these ranges is refused by the store.
    - The calendar date of ingestion ([new Date()]) is an input of the
      functions that read it; dates are ISO strings ([YYYY-MM-DD]), which
      the lexicographic order compares as the calendar does.
    - The storage engine is a collaborator: its row-level security and
      foreign keys are not modelled and its operations succeed, except
      where [updatePostAnalytics], which looks at no result, would go on
      after a refusal: the [UNIQUE] constraint of [post_analytics] and the
      ranges of its columns.  A statement that needs the store to take a
      write says so in a hypothesis.  The triggers of [platform_credentials] (the
      [updated_at] stamp and the audit log of each change) are the
      database's too and are not modelled: nothing below speaks of
      [updated_at] or of [audit_logs] after a change of credentials. *)

From Stdlib Require Import ZArith QArith Qround Qabs Qpower List String
  Ascii Bool Lia Lqa Permutation Sorted.
Import ListNotations.
Local Open Scope string_scope.
Local Open Scope list_scope.
Local Open Scope Z_scope.

(* ================================================================== *)
(** * JavaScript numbers *)

Module JsNumber.

(** [2^e] *)
Definition pow2 (e : Z) : Q := (2 # 1) ^ e.

(** The integer nearest to [y], the even one of two that are as near. *)
Definition nearest_even (y : Q) : Z :=
  let f := Qfloor y in
  match (y - inject_Z f ?= 1 # 2)%Q with
  | Lt => f
  | Gt => f + 1
  | Eq => if Z.even f then f else f + 1
  end.

(** The exponent [e] of the last of the 53 bits of a positive [x]:
    [2^52 <= x / 2^e < 2^53].  The two logarithms place [x / 2^e] between
    [2^52] and [2^54]; the test settles which half it is in. *)
Definition ulp_exponent (x : Q) : Z :=
  let e := Z.log2 (Qnum x) - Z.log2 (Zpos (Qden x)) - 53 in
  if Qle_bool (pow2 53) (x / pow2 e) then e + 1 else e.

Definition double_pos (x : Q) : Q :=
  let e := ulp_exponent x in
  inject_Z (nearest_even (x / pow2 e)) * pow2 e.

(** The double nearest to [x], the one with an even last bit of two that
    are as near: what an arithmetic operation, or [JSON.parse] on a number,
    makes of its exact result [x]. *)
Definition double (x : Q) : Q :=
  match Qnum x with
  | Z0 => 0
  | Zpos _ => double_pos x
  | Zneg _ => - double_pos (- x)
  end.

(** [a + b], [a / b] and [a * b] on doubles. *)
Definition add (a b : Q) : Q := double (a + b).
Definition div (a b : Q) : Q := double (a / b).
Definition mul (a b : Q) : Q := double (a * b).

(** [a + b] on doubles that are integers: the sum is an integer again. *)
Definition plus (a b : Z) : Z := Qfloor (double (inject_Z (a + b))).

(** [Number(x.toFixed(2))] of a double [x], in hundredths.  [toFixed]
    works on the exact value of [x]: it strips the sign, takes the integer
    [n] with [n / 100 - x] closest to zero, the larger one when two are as
    close, and puts the sign back. *)
Definition toFixed2 (x : Q) : Z :=
  if Qle_bool 0 x
  then Qfloor (x * 100 + (1 # 2))%Q
  else - Qfloor ((- x) * 100 + (1 # 2))%Q.

(** The number a [DECIMAL(5,2)] column of [h] hundredths reads back as:
    the double nearest to [h / 100]. *)
Definition of_decimal (h : Z) : Q := double (inject_Z h / 100).

(** [x || 0] on a number that may be missing. *)
Definition or0 (x : option Z) : Z :=
  match x with
  | Some n => if n =? 0 then 0 else n
  | None => 0
  end.

End JsNumber.

(* ================================================================== *)
(** * Request bodies *)

(** A parsed JSON value.  Numbers are the integers. *)
#[warnings="-register-all"]
Inductive json :=
| JNull
| JBool (b : bool)
| JNum (n : Z)
| JStr (s : string)
| JArr (items : list json)
| JObj (fields : list (string * json)).

Module Zod.

(** Property access on a parsed object: the last binding of the name,
    [undefined] ([None]) when there is none. *)
Definition prop (name : string) (fields : list (string * json))
  : option json :=
  fold_left
    (fun found kv => if (fst kv =? name)%string then Some (snd kv) else found)
    fields None.

Definition is_hex (c : ascii) : bool :=
  let n := nat_of_ascii c in
  ((48 <=? n) && (n <=? 57) || (65 <=? n) && (n <=? 70)
   || (97 <=? n) && (n <=? 102))%nat.

(** [n] hexadecimal digits, then the rest. *)
Fixpoint hex_run (n : nat) (s : string) : option string :=
  match n with
  | O => Some s
  | S n =>
      match s with
      | String c s => if is_hex c then hex_run n s else None
      | EmptyString => None
      end
  end.

Definition dash (s : string) : option string :=
  match s with
  | String "-"%char s => Some s
  | _ => None
  end.

Definition and_then {A B} (x : option A) (f : A -> option B) : option B :=
  match x with Some a => f a | None => None end.

(** [z.string().uuid()]: the 8-4-4-4-12 layout of hexadecimal digits. *)
Definition is_uuid (s : string) : bool :=
  match
    and_then (and_then (and_then (and_then (and_then (and_then (and_then
      (and_then (hex_run 8 s) dash) (hex_run 4)) dash) (hex_run 4)) dash)
      (hex_run 4)) dash) (hex_run 12)
  with
  | Some EmptyString => true
  | _ => false
  end.

(** A schema reads a property that may be absent and either accepts it,
    with a value, or fails. *)
Definition schema (A : Type) : Type := option json -> option A.

Definition string_ : schema string :=
  fun v => match v with Some (JStr s) => Some s | _ => None end.

Definition uuid : schema string :=
  fun v =>
    match v with
    | Some (JStr s) => if is_uuid s then Some s else None
    | _ => None
    end.

Definition optional {A} (inner : schema A) : schema (option A) :=
  fun v =>
    match v with
    | None => Some None
    | Some _ => option_map Some (inner v)
    end.

Definition number_default (d : Z) : schema Z :=
  fun v =>
    match v with
    | None => Some d
    | Some (JNum n) => Some n
    | _ => None
    end.

Definition record_any : schema (list (string * json)) :=
  fun v => match v with Some (JObj fields) => Some fields | _ => None end.

End Zod.

(* ================================================================== *)
(** * Tables *)

Definition option_eqb {A} (eqb : A -> A -> bool) (x y : option A) : bool :=
  match x, y with
  | Some a, Some b => eqb a b
  | None, None => true
  | _, _ => false
  end.

(** PostgREST's [.single()]: the row when exactly one row was selected,
    [null] otherwise. *)
Definition single {A} (rows : list A) : option A :=
  match rows with
  | [r] => Some r
  | _ => None
  end.

(** [event_type]: the closed enum of [eventSchema]. *)
Inductive EventType := view | like | comment | share | click | impression.

Module TenantUser.
Record t := { tenant_id : string; user_id : string; role : string }.
End TenantUser.

Module ContentItem.
Record t := {
  id : string;
  type : string;
  text_content : option string;
  platform : option string;
  created_at : string
}.
End ContentItem.

Module ScheduledPost.
Record t := {
  id : string;
  content_item_id : option string;
  scheduled_at : string;
  published_at : option string;
  status : string
}.
End ScheduledPost.

Module AnalyticsEvent.
Record t := {
  id : nat;
  tenant_id : string;
  content_item_id : option string;
  scheduled_post_id : option string;
  event_type : EventType;
  platform : string;
  event_value : Z;
  event_metadata : list (string * json);
  external_event_id : option string
}.
End AnalyticsEvent.

(** What an [INTEGER] column holds. *)
Definition fits_integer (n : Z) : bool :=
  (- 2147483648 <=? n) && (n <=? 2147483647).

(** What a [DECIMAL(5,2)] column holds, in hundredths: up to 999.99 in
    magnitude. *)
Definition fits_decimal_5_2 (h : Z) : bool := Z.abs h <? 100000.

(** A row of [post_analytics].  The counters are the INTEGER columns, the
    two rates the DECIMAL(5,2) columns (in hundredths); [columns] says that
    the fields are values of their columns, which the store sees to on
    every write. *)
Record PostAnalytics := {
  id : nat;
  tenant_id : string;
  content_item_id : option string;
  scheduled_post_id : option string;
  platform : string;
  views : Z;
  likes : Z;
  comments : Z;
  shares : Z;
  clicks : Z;
  impressions : Z;
  engagement_rate : Z;
  click_through_rate : Z;
  unique_viewers : Z;
  reach : Z;
  date : string
}.

Definition columns (r : PostAnalytics) : bool :=
  fits_integer (views r) && fits_integer (likes r)
  && fits_integer (comments r) && fits_integer (shares r)
  && fits_integer (clicks r) && fits_integer (impressions r)
  && fits_decimal_5_2 (engagement_rate r)
  && fits_decimal_5_2 (click_through_rate r)
  && fits_integer (unique_viewers r) && fits_integer (reach r).

Record Database := {
  tenant_users : list TenantUser.t;
  content_items : list ContentItem.t;
  scheduled_posts : list ScheduledPost.t;
  analytics_events : list AnalyticsEvent.t;
  post_analytics : list PostAnalytics
}.

Definition with_post_analytics (db : Database) (rows : list PostAnalytics)
  : Database :=
  {| tenant_users := tenant_users db;
     content_items := content_items db;
     scheduled_posts := scheduled_posts db;
     analytics_events := analytics_events db;
     post_analytics := rows |}.

Definition with_analytics_events (db : Database)
  (rows : list AnalyticsEvent.t) : Database :=
  {| tenant_users := tenant_users db;
     content_items := content_items db;
     scheduled_posts := scheduled_posts db;
     analytics_events := rows;
     post_analytics := post_analytics db |}.

(** The columns an [update] or an [insert] of [post_analytics] may carry:
    the object [updates] of [updatePostAnalytics]. *)
Record Updates := {
  u_views : option Z;
  u_likes : option Z;
  u_comments : option Z;
  u_shares : option Z;
  u_clicks : option Z;
  u_impressions : option Z;
  u_engagement_rate : option Z;
  u_click_through_rate : option Z
}.

Definition or_else {A} (x : option A) (d : A) : A :=
  match x with Some a => a | None => d end.

(** [{ ...existing, ...updates }], which is also what [update(updates)]
    leaves in the updated row. *)
Definition spread (existing : PostAnalytics) (u : Updates) : PostAnalytics :=
  {| id := id existing;
     tenant_id := tenant_id existing;
     content_item_id := content_item_id existing;
     scheduled_post_id := scheduled_post_id existing;
     platform := platform existing;
     views := or_else (u_views u) (views existing);
     likes := or_else (u_likes u) (likes existing);
     comments := or_else (u_comments u) (comments existing);
     shares := or_else (u_shares u) (shares existing);
     clicks := or_else (u_clicks u) (clicks existing);
     impressions := or_else (u_impressions u) (impressions existing);
     engagement_rate := or_else (u_engagement_rate u) (engagement_rate existing);
     click_through_rate :=
       or_else (u_click_through_rate u) (click_through_rate existing);
     unique_viewers := unique_viewers existing;
     reach := reach existing;
     date := date existing |}.

(** A value an object gives for a column, against the range of the
    column. *)
Definition fits (range : Z -> bool) (x : option Z) : bool :=
  match x with
  | Some v => range v
  | None => true
  end.

(** The store takes [updates] when every value in it is within the range
    of its column. *)
Definition accepts (u : Updates) : bool :=
  fits fits_integer (u_views u) && fits fits_integer (u_likes u)
  && fits fits_integer (u_comments u) && fits fits_integer (u_shares u)
  && fits fits_integer (u_clicks u) && fits fits_integer (u_impressions u)
  && fits fits_decimal_5_2 (u_engagement_rate u)
  && fits fits_decimal_5_2 (u_click_through_rate u).

(** [.update(updates).eq('id', i)].  A value out of the range of its column
    (integer out of range, numeric field overflow) makes the store refuse
    the statement; the caller does not look at the result, so the table is
    then simply left as it was. *)
Definition update_eq_id (rows : list PostAnalytics) (u : Updates) (i : nat)
  : list PostAnalytics :=
  if accepts u
  then map (fun r => if Nat.eqb (id r) i then spread r u else r) rows
  else rows.

(** The natural key [UNIQUE(tenant_id, scheduled_post_id, platform, date)]. *)
Definition key_eqb (tenantId scheduledPostId platform_ today : string)
  (r : PostAnalytics) : bool :=
  (tenant_id r =? tenantId)%string
  && option_eqb String.eqb (scheduled_post_id r) (Some scheduledPostId)
  && (platform r =? platform_)%string
  && (date r =? today)%string.

Definition fresh_id (rows : list PostAnalytics) : nat :=
  S (fold_right Nat.max O (map id rows)).

(** [.insert({ tenant_id, content_item_id, scheduled_post_id, platform,
    date, ...updates, engagement_rate: 0, click_through_rate: 0 })].
    Columns the object leaves out take the DEFAULT 0 of the table.  The
    UNIQUE constraint refuses a second row for the natural key; the caller
    does not look at the error, so the table is then simply left as it
    was.  The other constraints are met already: the handler has just
    stored the event with the same tenant, post, platform and value, under
    the same foreign keys and in columns of the same types, and the only
    counter the object gives is that value. *)
Definition insert_post_analytics (rows : list PostAnalytics)
  (tenantId : string) (contentItemId : option string)
  (scheduledPostId platform_ today : string) (u : Updates)
  : list PostAnalytics :=
  if existsb (key_eqb tenantId scheduledPostId platform_ today) rows
  then rows
  else rows ++
    [ {| id := fresh_id rows;
         tenant_id := tenantId;
         content_item_id := contentItemId;
         scheduled_post_id := Some scheduledPostId;
         platform := platform_;
         views := or_else (u_views u) 0;
         likes := or_else (u_likes u) 0;
         comments := or_else (u_comments u) 0;
         shares := or_else (u_shares u) 0;
         clicks := or_else (u_clicks u) 0;
         impressions := or_else (u_impressions u) 0;
         engagement_rate := 0;
         click_through_rate := 0;
         unique_viewers := 0;
         reach := 0;
         date := today |} ].

(** What a handler answers: a payload, or a status with a message. *)
Inductive Response (A : Type) :=
| Ok (data : A)
| Error (status : nat) (message : string).
Arguments Ok {A} data.
Arguments Error {A} status message.

(** [.order(col, { ascending: false })]: the rows by decreasing [col], rows
    that tie staying in the order they had. *)
Fixpoint insert_desc {A} (leb : A -> A -> bool) (x : A) (l : list A)
  : list A :=
  match l with
  | [] => [x]
  | y :: l' => if leb y x then x :: l else y :: insert_desc leb x l'
  end.

Definition order_desc {A} (leb : A -> A -> bool) (l : list A) : list A :=
  fold_right (insert_desc leb) [] l.

(** The tenant-membership check every handler makes:
    [tenant_users] filtered by tenant and user, [.single()]. *)
Definition tenantUser (db : Database) (tenantId userId : string)
  : option TenantUser.t :=
  single
    (filter
       (fun tu => (TenantUser.tenant_id tu =? tenantId)%string
                  && (TenantUser.user_id tu =? userId)%string)
       (tenant_users db)).

(** A non-empty string is truthy. *)
Definition truthy (s : option string) : option string :=
  match s with
  | Some EmptyString => None
  | _ => s
  end.

(* ================================================================== *)
(** * [/api/settings/analytics] *)

Module AnalyticsRoute.

(** The first round trip of [updatePostAnalytics]: the current row of
    the natural key, [.single()]. *)
Definition read_existing (db : Database)
  (today tenantId scheduledPostId platform_ : string)
  : option PostAnalytics :=
  single (filter (key_eqb tenantId scheduledPostId platform_ today)
                 (post_analytics db)).

(** The [switch (eventType)]: the one counter of the event, incremented
    from what was read ([+] on doubles). *)
Definition increment (existing : option PostAnalytics)
  (eventType : EventType) (eventValue : Z) : Updates :=
  let cur (col : PostAnalytics -> Z) :=
    JsNumber.or0 (option_map col existing) in
  match eventType with
  | view =>
      {| u_views := Some (JsNumber.plus (cur views) eventValue); u_likes := None;
         u_comments := None; u_shares := None; u_clicks := None;
         u_impressions := None; u_engagement_rate := None;
         u_click_through_rate := None |}
  | like =>
      {| u_views := None; u_likes := Some (JsNumber.plus (cur likes) eventValue);
         u_comments := None; u_shares := None; u_clicks := None;
         u_impressions := None; u_engagement_rate := None;
         u_click_through_rate := None |}
  | comment =>
      {| u_views := None; u_likes := None;
         u_comments := Some (JsNumber.plus (cur comments) eventValue);
         u_shares := None; u_clicks := None;
         u_impressions := None; u_engagement_rate := None;
         u_click_through_rate := None |}
  | share =>
      {| u_views := None; u_likes := None; u_comments := None;
         u_shares := Some (JsNumber.plus (cur shares) eventValue); u_clicks := None;
         u_impressions := None; u_engagement_rate := None;
         u_click_through_rate := None |}
  | click =>
      {| u_views := None; u_likes := None; u_comments := None;
         u_shares := None; u_clicks := Some (JsNumber.plus (cur clicks) eventValue);
         u_impressions := None; u_engagement_rate := None;
         u_click_through_rate := None |}
  | impression =>
      {| u_views := None; u_likes := None; u_comments := None;
         u_shares := None; u_clicks := None;
         u_impressions := Some (JsNumber.plus (cur impressions) eventValue);
         u_engagement_rate := None; u_click_through_rate := None |}
  end.

(** [updates.engagement_rate = ...; updates.click_through_rate = ...] *)
Definition with_rates (u : Updates) (er ctr : Z) : Updates :=
  {| u_views := u_views u; u_likes := u_likes u;
     u_comments := u_comments u; u_shares := u_shares u;
     u_clicks := u_clicks u; u_impressions := u_impressions u;
     u_engagement_rate := Some er; u_click_through_rate := Some ctr |}.

(** The first half of the [if (existing)] branch: the two rates recomputed
    from [{ ...existing, ...updates }] and added to [updates]. *)
Definition with_recomputed_rates (existing : PostAnalytics) (updates : Updates)
  : Updates :=
  let newTotals := spread existing updates in
  let totalEngagement :=
    JsNumber.plus (JsNumber.plus (likes newTotals) (comments newTotals))
                  (shares newTotals) in
  let engagementRate : Q :=
    if 0 <? impressions newTotals
    then JsNumber.mul
           (JsNumber.div (inject_Z totalEngagement)
                         (inject_Z (impressions newTotals)))
           100
    else 0%Q in
  let ctr : Q :=
    if 0 <? impressions newTotals
    then JsNumber.mul
           (JsNumber.div (inject_Z (clicks newTotals))
                         (inject_Z (impressions newTotals)))
           100
    else 0%Q in
  with_rates updates (JsNumber.toFixed2 engagementRate)
             (JsNumber.toFixed2 ctr).

(** The rest of [updatePostAnalytics], from the row that was read: the
    [if (existing) ... else ...]. *)
Definition write_back (db : Database)
  (today tenantId scheduledPostId platform_ : string)
  (eventType : EventType) (eventValue : Z)
  (existing : option PostAnalytics) : Database :=
  let updates := increment existing eventType eventValue in
  match existing with
  | Some existing =>
      let updates := with_recomputed_rates existing updates in
      with_post_analytics db
        (update_eq_id (post_analytics db) updates (id existing))
  | None =>
      let scheduledPost :=
        single (filter (fun p => (ScheduledPost.id p =? scheduledPostId)%string)
                       (scheduled_posts db)) in
      let contentItemId :=
        match scheduledPost with
        | Some p => ScheduledPost.content_item_id p
        | None => None
        end in
      with_post_analytics db
        (insert_post_analytics (post_analytics db) tenantId contentItemId
           scheduledPostId platform_ today updates)
  end.

Definition updatePostAnalytics (db : Database)
  (today tenantId scheduledPostId platform_ : string)
  (eventType : EventType) (eventValue : Z) : Database :=
  write_back db today tenantId scheduledPostId platform_ eventType
    eventValue
    (read_existing db today tenantId scheduledPostId platform_).

(** *** POST: record an event *)

(** [validation.data]: what [eventSchema] yields on a body it accepts. *)
Module Body.
Record t := {
  tenantId : string;
  contentItemId : option string;
  scheduledPostId : option string;
  eventType : EventType;
  platform : string;
  eventValue : Z;
  eventMetadata : option (list (string * json));
  externalEventId : option string
}.
End Body.

(** [z.enum(['view', 'like', 'comment', 'share', 'click', 'impression'])] *)
Definition eventType_enum : Zod.schema EventType :=
  fun v =>
    match v with
    | Some (JStr s) =>
        if (s =? "view")%string then Some view
        else if (s =? "like")%string then Some like
        else if (s =? "comment")%string then Some comment
        else if (s =? "share")%string then Some share
        else if (s =? "click")%string then Some click
        else if (s =? "impression")%string then Some impression
        else None
    | _ => None
    end.

(** [eventSchema.safeParse(body)]: [None] is the failure that the handler
    answers with status 400. *)
Definition eventSchema (body : json) : option Body.t :=
  match body with
  | JObj fields =>
      Zod.and_then (Zod.uuid (Zod.prop "tenantId" fields)) (fun tenantId =>
      Zod.and_then (Zod.optional Zod.uuid (Zod.prop "contentItemId" fields))
        (fun contentItemId =>
      Zod.and_then
        (Zod.optional Zod.uuid (Zod.prop "scheduledPostId" fields))
        (fun scheduledPostId =>
      Zod.and_then (eventType_enum (Zod.prop "eventType" fields))
        (fun eventType =>
      Zod.and_then (Zod.string_ (Zod.prop "platform" fields))
        (fun platform_ =>
      Zod.and_then (Zod.number_default 1 (Zod.prop "eventValue" fields))
        (fun eventValue =>
      Zod.and_then
        (Zod.optional Zod.record_any (Zod.prop "eventMetadata" fields))
        (fun eventMetadata =>
      Zod.and_then
        (Zod.optional Zod.string_ (Zod.prop "externalEventId" fields))
        (fun externalEventId =>
      Some {| Body.tenantId := tenantId;
              Body.contentItemId := contentItemId;
              Body.scheduledPostId := scheduledPostId;
              Body.eventType := eventType;
              Body.platform := platform_;
              Body.eventValue := eventValue;
              Body.eventMetadata := eventMetadata;
              Body.externalEventId := externalEventId |}))))))))
  | _ => None
  end.

(** [POST(request)].  [user] is what [auth.getUser()] gave, [body] the
    parsed request body, [today] the calendar date of the call.  The
    answer comes with the database as the call leaves it. *)
Definition POST (db : Database) (user : option string) (body : json)
  (today : string) : Response AnalyticsEvent.t * Database :=
  match user with
  | None => (Error 401 "Unauthorized", db)
  | Some userId =>
      match eventSchema body with
      | None => (Error 400 "Invalid request", db)
      | Some data =>
          match tenantUser db (Body.tenantId data) userId with
          | None => (Error 403 "Access denied", db)
          | Some _ =>
              let event :=
                {| AnalyticsEvent.id :=
                     S (List.length (analytics_events db));
                   AnalyticsEvent.tenant_id := Body.tenantId data;
                   AnalyticsEvent.content_item_id :=
                     Body.contentItemId data;
                   AnalyticsEvent.scheduled_post_id :=
                     Body.scheduledPostId data;
                   AnalyticsEvent.event_type := Body.eventType data;
                   AnalyticsEvent.platform := Body.platform data;
                   AnalyticsEvent.event_value := Body.eventValue data;
                   AnalyticsEvent.event_metadata :=
                     or_else (Body.eventMetadata data) [];
                   AnalyticsEvent.external_event_id :=
                     Body.externalEventId data |} in
              let db :=
                with_analytics_events db (analytics_events db ++ [event]) in
              let db :=
                match truthy (Body.scheduledPostId data) with
                | Some scheduledPostId =>
                    updatePostAnalytics db today (Body.tenantId data)
                      scheduledPostId (Body.platform data)
                      (Body.eventType data) (Body.eventValue data)
                | None => db
                end in
              (Ok event, db)
          end
      end
  end.

(** *** GET: overview *)

Record Query := {
  q_tenantId : option string;
  q_startDate : option string;
  q_endDate : option string;
  q_platform : option string
}.

Module Totals.
Record t := {
  views : Z; likes : Z; comments : Z; shares : Z; clicks : Z;
  impressions : Z; reach : Z
}.
End Totals.

Module PlatformTotals.
Record t := {
  platform : string;
  views : Z; likes : Z; comments : Z; shares : Z; clicks : Z;
  impressions : Z; posts_count : Z
}.
End PlatformTotals.

Module Overview.
Record t := {
  totals : Totals.t;
  averages_engagement_rate : Z;
  averages_click_through_rate : Z;
  by_platform : list PlatformTotals.t;
  records : list PostAnalytics
}.
End Overview.

(** The query both read handlers build: tenant, then the optional
    filters that were given. *)
Definition select_post_analytics (db : Database) (tenantId : string)
  (startDate endDate platform_ : option string) : list PostAnalytics :=
  let query :=
    filter (fun r => (tenant_id r =? tenantId)%string) (post_analytics db) in
  let query :=
    match truthy startDate with
    | Some startDate => filter (fun r => String.leb startDate (date r)) query
    | None => query
    end in
  let query :=
    match truthy endDate with
    | Some endDate => filter (fun r => String.leb (date r) endDate) query
    | None => query
    end in
  match truthy platform_ with
  | Some platform_ => filter (fun r => (platform r =? platform_)%string) query
  | None => query
  end.

Definition zero_totals : Totals.t :=
  {| Totals.views := 0; Totals.likes := 0; Totals.comments := 0;
     Totals.shares := 0; Totals.clicks := 0; Totals.impressions := 0;
     Totals.reach := 0 |}.

Definition add_totals (acc : Totals.t) (record : PostAnalytics) : Totals.t :=
  {| Totals.views := Totals.views acc + JsNumber.or0 (Some (views record));
     Totals.likes := Totals.likes acc + JsNumber.or0 (Some (likes record));
     Totals.comments :=
       Totals.comments acc + JsNumber.or0 (Some (comments record));
     Totals.shares := Totals.shares acc + JsNumber.or0 (Some (shares record));
     Totals.clicks := Totals.clicks acc + JsNumber.or0 (Some (clicks record));
     Totals.impressions :=
       Totals.impressions acc + JsNumber.or0 (Some (impressions record));
     Totals.reach := Totals.reach acc + JsNumber.or0 (Some (reach record)) |}.

(** [analytics.reduce((sum, record) => sum + (record.col || 0), 0)
    / analytics.length] when there are rows, [0] otherwise; [col] is a
    DECIMAL(5,2) column, read as a double. *)
Definition average (col : PostAnalytics -> Z) (analytics : list PostAnalytics)
  : Q :=
  if (0 <? List.length analytics)%nat
  then JsNumber.div
         (fold_left
            (fun sum record =>
               JsNumber.add sum
                 (JsNumber.of_decimal (JsNumber.or0 (Some (col record)))))
            analytics 0%Q)
         (inject_Z (Z.of_nat (List.length analytics)))
  else 0%Q.

(** One step of the grouping [reduce]: the group of the record's platform
    is created with zeros when it is not there yet, then receives the
    record.  The groups are kept in the order they were created in, which
    is the order [Object.values] lists them in (platform names are not
    array indices, nor names of [Object.prototype]). *)
Fixpoint add_to_group (acc : list PlatformTotals.t) (record : PostAnalytics)
  : list PlatformTotals.t :=
  let add (g : PlatformTotals.t) :=
    {| PlatformTotals.platform := PlatformTotals.platform g;
       PlatformTotals.views :=
         PlatformTotals.views g + JsNumber.or0 (Some (views record));
       PlatformTotals.likes :=
         PlatformTotals.likes g + JsNumber.or0 (Some (likes record));
       PlatformTotals.comments :=
         PlatformTotals.comments g + JsNumber.or0 (Some (comments record));
       PlatformTotals.shares :=
         PlatformTotals.shares g + JsNumber.or0 (Some (shares record));
       PlatformTotals.clicks :=
         PlatformTotals.clicks g + JsNumber.or0 (Some (clicks record));
       PlatformTotals.impressions :=
         PlatformTotals.impressions g
         + JsNumber.or0 (Some (impressions record));
       PlatformTotals.posts_count := PlatformTotals.posts_count g + 1 |} in
  match acc with
  | [] =>
      [ add {| PlatformTotals.platform := platform record;
               PlatformTotals.views := 0; PlatformTotals.likes := 0;
               PlatformTotals.comments := 0; PlatformTotals.shares := 0;
               PlatformTotals.clicks := 0; PlatformTotals.impressions := 0;
               PlatformTotals.posts_count := 0 |} ]
  | g :: acc =>
      if (PlatformTotals.platform g =? platform record)%string
      then add g :: acc
      else g :: add_to_group acc record
  end.

(** [GET(request)], the overview. *)
Definition GET (db : Database) (user : option string) (q : Query)
  : Response Overview.t :=
  match user with
  | None => Error 401 "Unauthorized"
  | Some userId =>
      match truthy (q_tenantId q) with
      | None => Error 400 "Tenant ID is required"
      | Some tenantId =>
          match tenantUser db tenantId userId with
          | None => Error 403 "Access denied"
          | Some _ =>
              let analytics :=
                order_desc (fun a b => String.leb (date a) (date b))
                  (select_post_analytics db tenantId (q_startDate q)
                     (q_endDate q) (q_platform q)) in
              let totals := fold_left add_totals analytics zero_totals in
              let avgEngagementRate := average engagement_rate analytics in
              let avgCTR := average click_through_rate analytics in
              let byPlatform := fold_left add_to_group analytics [] in
              Ok {| Overview.totals := totals;
                    Overview.averages_engagement_rate :=
                      JsNumber.toFixed2 avgEngagementRate;
                    Overview.averages_click_through_rate :=
                      JsNumber.toFixed2 avgCTR;
                    Overview.by_platform := byPlatform;
                    Overview.records := analytics |}
          end
      end
  end.

End AnalyticsRoute.

(* ================================================================== *)
(** * [/api/settings/analytics/top-posts] *)

Module TopPostsRoute.

(** The search parameters.  [q_limit] is the integer [parseInt] reads
    from the [limit] parameter, [None] when the parameter is absent or
    empty. *)
Record Query := {
  q_tenantId : option string;
  q_metric : option string;
  q_limit : option nat;
  q_platform : option string;
  q_startDate : option string;
  q_endDate : option string
}.

Definition validMetrics : list string :=
  [ "views"; "likes"; "comments"; "shares"; "clicks"; "impressions";
    "engagement_rate"; "click_through_rate" ].

Definition includes (l : list string) (s : string) : bool :=
  existsb (String.eqb s) l.

(** The column of [post_analytics] a valid metric names. *)
Definition column (name : string) (r : PostAnalytics) : Z :=
  if (name =? "views")%string then views r
  else if (name =? "likes")%string then likes r
  else if (name =? "comments")%string then comments r
  else if (name =? "shares")%string then shares r
  else if (name =? "clicks")%string then clicks r
  else if (name =? "impressions")%string then impressions r
  else if (name =? "click_through_rate")%string then click_through_rate r
  else engagement_rate r.

Module Metrics.
Record t := {
  views : Z; likes : Z; comments : Z; shares : Z; clicks : Z;
  impressions : Z; engagement_rate : Z; click_through_rate : Z;
  reach : Z
}.
End Metrics.

Module Content.
Record t := {
  type : string;
  text_content : option string;
  platform : option string;
  created_at : string
}.
End Content.

Module ScheduleInfo.
Record t := {
  scheduled_at : string;
  published_at : option string;
  status : string
}.
End ScheduleInfo.

Module TopPost.
Record t := {
  id : nat;
  content_item_id : option string;
  scheduled_post_id : option string;
  platform : string;
  date : string;
  metrics : Metrics.t;
  content : option Content.t;
  schedule_info : option ScheduleInfo.t
}.
End TopPost.

(** The embedded resource [content_items (...)] of a row. *)
Definition content_of (db : Database) (post : PostAnalytics)
  : option ContentItem.t :=
  match content_item_id post with
  | Some cid =>
      find (fun c => (ContentItem.id c =? cid)%string) (content_items db)
  | None => None
  end.

(** The embedded resource [scheduled_posts (...)] of a row. *)
Definition schedule_of (db : Database) (post : PostAnalytics)
  : option ScheduledPost.t :=
  match scheduled_post_id post with
  | Some pid =>
      find (fun p => (ScheduledPost.id p =? pid)%string) (scheduled_posts db)
  | None => None
  end.

(** One element of [formattedPosts]. *)
Definition format (db : Database) (post : PostAnalytics) : TopPost.t :=
  {| TopPost.id := id post;
     TopPost.content_item_id := content_item_id post;
     TopPost.scheduled_post_id := scheduled_post_id post;
     TopPost.platform := platform post;
     TopPost.date := date post;
     TopPost.metrics :=
       {| Metrics.views := views post;
          Metrics.likes := likes post;
          Metrics.comments := comments post;
          Metrics.shares := shares post;
          Metrics.clicks := clicks post;
          Metrics.impressions := impressions post;
          Metrics.engagement_rate := engagement_rate post;
          Metrics.click_through_rate := click_through_rate post;
          Metrics.reach := reach post |};
     TopPost.content :=
       option_map
         (fun c =>
            {| Content.type := ContentItem.type c;
               Content.text_content := ContentItem.text_content c;
               Content.platform := ContentItem.platform c;
               Content.created_at := ContentItem.created_at c |})
         (content_of db post);
     TopPost.schedule_info :=
       option_map
         (fun p =>
            {| ScheduleInfo.scheduled_at := ScheduledPost.scheduled_at p;
               ScheduleInfo.published_at := ScheduledPost.published_at p;
               ScheduleInfo.status := ScheduledPost.status p |})
         (schedule_of db post) |}.

(** The rows the query selects, before they are ordered. *)
Definition select_post_analytics (db : Database) (tenantId : string)
  (platform_ startDate endDate : option string) : list PostAnalytics :=
  let query :=
    filter (fun r => (tenant_id r =? tenantId)%string) (post_analytics db) in
  let query :=
    match truthy platform_ with
    | Some platform_ =>
        filter (fun r => (platform r =? platform_)%string) query
    | None => query
    end in
  let query :=
    match truthy startDate with
    | Some startDate => filter (fun r => String.leb startDate (date r)) query
    | None => query
    end in
  match truthy endDate with
  | Some endDate => filter (fun r => String.leb (date r) endDate) query
  | None => query
  end.

(** [validMetrics.includes(metric) ? metric : 'engagement_rate'] *)
Definition orderBy (q : Query) : string :=
  let metric := or_else (truthy (q_metric q)) "engagement_rate" in
  if includes validMetrics metric then metric else "engagement_rate".

(** [query.order(orderBy, { ascending: false }).limit(limit)] *)
Definition topPosts (db : Database) (tenantId : string) (q : Query)
  : list PostAnalytics :=
  let limit := or_else (q_limit q) 10%nat in
  firstn limit
    (order_desc
       (fun a b => column (orderBy q) a <=? column (orderBy q) b)
       (select_post_analytics db tenantId (q_platform q) (q_startDate q)
          (q_endDate q))).

(** [GET(request)], the ranking. *)
Definition GET (db : Database) (user : option string) (q : Query)
  : Response (list TopPost.t) :=
  match user with
  | None => Error 401 "Unauthorized"
  | Some userId =>
      match truthy (q_tenantId q) with
      | None => Error 400 "Tenant ID is required"
      | Some tenantId =>
          match tenantUser db tenantId userId with
          | None => Error 403 "Access denied"
          | Some _ => Ok (map (format db) (topPosts db tenantId q))
          end
      end
  end.

End TopPostsRoute.

(* ================================================================== *)
(** * Properties *)

Definition empty_db : Database :=
  {| tenant_users := []; content_items := []; scheduled_posts := [];
     analytics_events := []; post_analytics := [] |}.

(** ** What the specification says of the derived rates *)

(** [part / whole] as a percentage rounded half-up to two decimal places,
    in hundredths: the integer [h] with [h <= 10000 * part / whole + 1/2 <
    h + 1]. *)
Definition percent_round2 (part whole : Z) : Z :=
  (2 * (10000 * part) + whole) / (2 * whole).

(** The rate of the data model: the rounded percentage, and [0] when there
    are no impressions. *)
Definition derived_rate (part impressions_ : Z) : Z :=
  if impressions_ =? 0 then 0 else percent_round2 part impressions_.

(** The exact percentage [100 * part / whole]. *)
Definition percentage (part whole : Z) : Q :=
  (inject_Z part / inject_Z whole * 100)%Q.

(** [h] hundredths is [x] rounded to a nearest hundredth, up to the
    rounding of doubles: [h / 100] is within [0.005] of [x], give or take
    [2^-51] of [x]. *)
Definition hundredths_of (h : Z) (x : Q) : Prop :=
  (Qabs (inject_Z h / 100 - x)
   <= (1 # 200) + Qabs x * (1 # 2251799813685248))%Q.

(** The rows of a table that carry one natural key. *)
Definition rows_of_key (rows : list PostAnalytics)
  (tenantId scheduledPostId platform_ today : string) : list PostAnalytics :=
  filter (key_eqb tenantId scheduledPostId platform_ today) rows.

(** ** What the specification says of the counters *)

Definition EventType_eqb (a b : EventType) : bool :=
  match a, b with
  | view, view | like, like | comment, comment
  | share, share | click, click | impression, impression => true
  | _, _ => false
  end.

(** The raw counter an event type feeds. *)
Definition counter (eventType : EventType) (r : PostAnalytics) : Z :=
  match eventType with
  | view => views r
  | like => likes r
  | comment => comments r
  | share => shares r
  | click => clicks r
  | impression => impressions r
  end.

(** An event as the updater receives it: its type and its value. *)
Definition Event : Type := (EventType * Z)%type.

(** The sum of [value] over the events of one type. *)
Definition sum_of (eventType : EventType) (events : list Event) : Z :=
  fold_right Z.add 0
    (map snd (filter (fun e => EventType_eqb (fst e) eventType) events)).

(** The updater applied to the events one at a time, all for one natural
    key. *)
Definition apply_events (db : Database)
  (today tenantId scheduledPostId platform_ : string)
  (events : list Event) : Database :=
  fold_left
    (fun db e =>
       AnalyticsRoute.updatePostAnalytics db today tenantId scheduledPostId
         platform_ (fst e) (snd e))
    events db.

(** A table with one stored row, used to run the updater on concrete
    inputs: 1000 impressions, 20 clicks, 50 likes, 10 comments and 4 shares
    already counted for the key. *)
Definition sample_row : PostAnalytics :=
  {| id := 1%nat; tenant_id := "t1"; content_item_id := None;
     scheduled_post_id := Some "p1"; platform := "instagram";
     views := 0; likes := 50; comments := 10; shares := 4; clicks := 20;
     impressions := 1000; engagement_rate := 640; click_through_rate := 200;
     unique_viewers := 0; reach := 0; date := "2024-05-01" |}.

Definition sample_db : Database :=
  {| tenant_users := []; content_items := []; scheduled_posts := [];
     analytics_events := []; post_analytics := [sample_row] |}.

(** The value a raw counter has under a natural key: that of the stored
    row, and [0] while the key has no row. *)
Definition stored_counter (db : Database)
  (today tenantId scheduledPostId platform_ : string)
  (eventType : EventType) : Z :=
  match AnalyticsRoute.read_existing db today tenantId scheduledPostId
          platform_ with
  | Some r => counter eventType r
  | None => 0
  end.

(** What the updater sends to the store for a row it has read. *)
Definition updates_for (existing : PostAnalytics) (eventType : EventType)
  (eventValue : Z) : Updates :=
  AnalyticsRoute.with_recomputed_rates existing
    (AnalyticsRoute.increment (Some existing) eventType eventValue).

(** The store takes what one call writes: the incremented counter is
    within INTEGER and both recomputed rates are within DECIMAL(5,2), when
    the key has its row; the value itself is within INTEGER, as the event
    stored before it was, when the call creates the row. *)
Definition accepted (db : Database)
  (today tenantId scheduledPostId platform_ : string)
  (eventType : EventType) (eventValue : Z) : bool :=
  match AnalyticsRoute.read_existing db today tenantId scheduledPostId
          platform_ with
  | Some r => accepts (updates_for r eventType eventValue)
  | None => fits_integer eventValue
  end.

(** The store takes every write of a sequence of events applied one at a
    time. *)
Fixpoint all_accepted (db : Database)
  (today tenantId scheduledPostId platform_ : string)
  (events : list Event) : bool :=
  match events with
  | [] => true
  | e :: events =>
      accepted db today tenantId scheduledPostId platform_ (fst e) (snd e)
      && all_accepted
           (AnalyticsRoute.updatePostAnalytics db today tenantId
              scheduledPostId platform_ (fst e) (snd e))
           today tenantId scheduledPostId platform_ events
  end.

(** The rows of the table hold values of their columns. *)
Definition columns_hold (db : Database) : Prop :=
  Forall (fun r => columns r = true) (post_analytics db).

(** The UNIQUE constraint, read at one natural key. *)
Definition at_most_one_row (db : Database)
  (today tenantId scheduledPostId platform_ : string) : Prop :=
  (List.length (rows_of_key (post_analytics db) tenantId scheduledPostId
                  platform_ today) <= 1)%nat.

(** One call of [updatePostAnalytics], with the calendar date it ran on. *)
Record Call := {
  c_today : string;
  c_tenantId : string;
  c_scheduledPostId : string;
  c_platform : string;
  c_eventType : EventType;
  c_eventValue : Z
}.

Definition run_call (db : Database) (c : Call) : Database :=
  AnalyticsRoute.updatePostAnalytics db (c_today c) (c_tenantId c)
    (c_scheduledPostId c) (c_platform c) (c_eventType c) (c_eventValue c).

(** Calls served one after the other. *)
Definition run_calls (db : Database) (calls : list Call) : Database :=
  fold_left run_call calls db.

(** The UNIQUE constraint of [post_analytics]. *)
Definition unique_keys (db : Database) : Prop :=
  forall tenantId scheduledPostId platform_ day,
    at_most_one_row db day tenantId scheduledPostId platform_.

(** ** Calls served concurrently

    [updatePostAnalytics] awaits the database twice: once to read the row
    of the key, once to write.  Between the two, another call may run.  A
    call is therefore in one of three phases, and a schedule says which
    call takes its next round trip. *)

Inductive Phase :=
| NotStarted
| HasRead (existing : option PostAnalytics)
| Finished.

Definition Task : Type := (Call * Phase)%type.

(** The next round trip of the [i]-th call; [None] when there is no such
    call or it has finished. *)
Fixpoint step_task (db : Database) (i : nat) (tasks : list Task)
  : option (Database * list Task) :=
  match tasks, i with
  | [], _ => None
  | (c, ph) :: rest, O =>
      match ph with
      | NotStarted =>
          Some (db,
                (c, HasRead
                      (AnalyticsRoute.read_existing db (c_today c)
                         (c_tenantId c) (c_scheduledPostId c) (c_platform c)))
                :: rest)
      | HasRead existing =>
          Some (AnalyticsRoute.write_back db (c_today c) (c_tenantId c)
                  (c_scheduledPostId c) (c_platform c) (c_eventType c)
                  (c_eventValue c) existing,
                (c, Finished) :: rest)
      | Finished => None
      end
  | t :: rest, S i =>
      match step_task db i rest with
      | Some (db', rest') => Some (db', t :: rest')
      | None => None
      end
  end.

Fixpoint run_schedule (schedule : list nat) (db : Database)
  (tasks : list Task) : option (Database * list Task) :=
  match schedule with
  | [] => Some (db, tasks)
  | i :: schedule =>
      match step_task db i tasks with
      | Some (db', tasks') => run_schedule schedule db' tasks'
      | None => None
      end
  end.

Definition start (calls : list Call) : list Task :=
  map (fun c => (c, NotStarted)) calls.

Definition finished (calls : list Call) : list Task :=
  map (fun c => (c, Finished)) calls.

(** Every call reads, then every call writes. *)
Definition reads_then_writes (n : nat) : list nat := seq 0 n ++ seq 0 n.

(** Each call runs to completion before the next one starts. *)
Definition one_after_the_other (first n : nat) : list nat :=
  flat_map (fun i => [i; i]) (seq first n).

(** [n] events of one type and of value 1 for one natural key. *)
Definition calls_for (today tenantId scheduledPostId platform_ : string)
  (eventType : EventType) (n : nat) : list Call :=
  repeat {| c_today := today; c_tenantId := tenantId;
            c_scheduledPostId := scheduledPostId; c_platform := platform_;
            c_eventType := eventType; c_eventValue := 1 |} n.

(** [n] events [like] of value 1 for one natural key. *)
Definition likes_for (today tenantId scheduledPostId platform_ : string)
  (n : nat) : list Call :=
  repeat {| c_today := today; c_tenantId := tenantId;
            c_scheduledPostId := scheduledPostId; c_platform := platform_;
            c_eventType := like; c_eventValue := 1 |} n.

(** ** What the specification says of the ranking *)

(** The metrics a ranking may ask for: the six raw counters and the two
    derived rates, each with the column it names. *)
Definition metric_columns : list (string * (PostAnalytics -> Z)) :=
  [ ("views", views); ("likes", likes); ("comments", comments);
    ("shares", shares); ("clicks", clicks); ("impressions", impressions);
    ("engagement_rate", engagement_rate);
    ("click_through_rate", click_through_rate) ].

(** [result] is [rows] sorted by decreasing [col] and cut to [limit]. *)
Definition ranked (col : PostAnalytics -> Z) (limit : nat)
  (rows result : list PostAnalytics) : Prop :=
  exists sorted,
    Permutation rows sorted
    /\ StronglySorted (fun a b => col b <= col a) sorted
    /\ result = firstn limit sorted.

(** End-to-end scenario 4: three rows of one tenant with views 50, 200
    and 10. *)
Definition row_with_views (i : nat) (day : string) (v : Z) : PostAnalytics :=
  {| id := i; tenant_id := "t1"; content_item_id := None;
     scheduled_post_id := Some "p1"; platform := "instagram";
     views := v; likes := 0; comments := 0; shares := 0; clicks := 0;
     impressions := 0; engagement_rate := 0; click_through_rate := 0;
     unique_viewers := 0; reach := 0; date := day |}.

Definition scenario4_db : Database :=
  {| tenant_users :=
       [ {| TenantUser.tenant_id := "t1"; TenantUser.user_id := "u1";
            TenantUser.role := "admin" |} ];
     content_items := [];
     scheduled_posts := [];
     analytics_events := [];
     post_analytics :=
       [ row_with_views 1 "2024-05-01" 50;
         row_with_views 2 "2024-05-02" 200;
         row_with_views 3 "2024-05-03" 10 ] |}.

Definition scenario4_query : TopPostsRoute.Query :=
  {| TopPostsRoute.q_tenantId := Some "t1";
     TopPostsRoute.q_metric := Some "views";
     TopPostsRoute.q_limit := Some 2%nat;
     TopPostsRoute.q_platform := None;
     TopPostsRoute.q_startDate := None;
     TopPostsRoute.q_endDate := None |}.

(** ** What the specification says of the averages *)

Definition sum_Z (l : list Z) : Z := fold_right Z.add 0 l.

(** The arithmetic mean of values held in hundredths, rounded half-up to
    the hundredth: the integer [h] with [h <= mean + 1/2 < h + 1]. *)
Definition mean_round2 (values : list Z) : Z :=
  (2 * sum_Z values + Z.of_nat (List.length values))
  / (2 * Z.of_nat (List.length values)).

(** [h] hundredths is the arithmetic mean of [values], themselves in
    hundredths, rounded to a nearest hundredth up to the rounding of
    doubles: [h / 100] is within [0.005] of the mean, give or take a
    millionth. *)
Definition near_mean (h : Z) (values : list Z) : Prop :=
  (Qabs (inject_Z h / 100
         - inject_Z (sum_Z values) / 100
           / inject_Z (Z.of_nat (List.length values)))
   <= (1 # 200) + (1 # 1000000))%Q.

(** The rate recomputed from the summed counters instead, which the
    overview does not do. *)
Definition weighted_engagement_rate (rows : list PostAnalytics) : Z :=
  derived_rate (sum_Z (map (fun r => likes r + comments r + shares r) rows))
               (sum_Z (map impressions rows)).

(** Two rows of uneven impression volume: one like on one impression, and
    ninety-nine impressions without engagement. *)
Definition uneven_db : Database :=
  {| tenant_users :=
       [ {| TenantUser.tenant_id := "t1"; TenantUser.user_id := "u1";
            TenantUser.role := "admin" |} ];
     content_items := [];
     scheduled_posts := [];
     analytics_events := [];
     post_analytics :=
       [ {| id := 1%nat; tenant_id := "t1"; content_item_id := None;
            scheduled_post_id := Some "p1"; platform := "instagram";
            views := 0; likes := 1; comments := 0; shares := 0; clicks := 0;
            impressions := 1; engagement_rate := 10000;
            click_through_rate := 0; unique_viewers := 0; reach := 0;
            date := "2024-05-01" |};
         {| id := 2%nat; tenant_id := "t1"; content_item_id := None;
            scheduled_post_id := Some "p2"; platform := "instagram";
            views := 0; likes := 0; comments := 0; shares := 0; clicks := 0;
            impressions := 99; engagement_rate := 0;
            click_through_rate := 0; unique_viewers := 0; reach := 0;
            date := "2024-05-01" |} ] |}.

Definition overview_query (tenantId : string) (platform_ : option string)
  : AnalyticsRoute.Query :=
  {| AnalyticsRoute.q_tenantId := Some tenantId;
     AnalyticsRoute.q_startDate := None;
     AnalyticsRoute.q_endDate := None;
     AnalyticsRoute.q_platform := platform_ |}.

(** ** What the specification says of tenant isolation *)

(** The aggregate rows of one tenant. *)
Definition rows_of_tenant (db : Database) (tenantId : string)
  : list PostAnalytics :=
  filter (fun r => (tenant_id r =? tenantId)%string) (post_analytics db).

(** Two databases that differ at most in the events recorded and in the
    aggregate rows of tenants other than [tenantId]. *)
Definition same_for_tenant (tenantId : string) (db1 db2 : Database) : Prop :=
  tenant_users db1 = tenant_users db2
  /\ content_items db1 = content_items db2
  /\ scheduled_posts db1 = scheduled_posts db2
  /\ rows_of_tenant db1 tenantId = rows_of_tenant db2 tenantId.

(** [scenario4_db] with, in addition, an event and an aggregate row of
    another tenant that carry the scheduled post id of tenant ["t1"]. *)
Definition scenario4_db_with_other_tenant : Database :=
  {| tenant_users := tenant_users scenario4_db;
     content_items := content_items scenario4_db;
     scheduled_posts := scheduled_posts scenario4_db;
     analytics_events :=
       [ {| AnalyticsEvent.id := 1%nat;
            AnalyticsEvent.tenant_id := "t2";
            AnalyticsEvent.content_item_id := None;
            AnalyticsEvent.scheduled_post_id := Some "p1";
            AnalyticsEvent.event_type := view;
            AnalyticsEvent.platform := "instagram";
            AnalyticsEvent.event_value := 999;
            AnalyticsEvent.event_metadata := [];
            AnalyticsEvent.external_event_id := None |} ];
     post_analytics :=
       {| id := 9%nat; tenant_id := "t2"; content_item_id := None;
          scheduled_post_id := Some "p1"; platform := "instagram";
          views := 999; likes := 0; comments := 0; shares := 0; clicks := 0;
          impressions := 0; engagement_rate := 0; click_through_rate := 0;
          unique_viewers := 0; reach := 0; date := "2024-05-02" |}
       :: post_analytics scenario4_db |}.

(** ** What the specification says of validation *)

(** The platforms the application knows: the closed set of its platform
    schemas ([z.enum] of the OAuth and content routes). *)
Definition known_platforms : list string :=
  [ "instagram"; "facebook"; "tiktok"; "linkedin"; "youtube"; "google_ads" ].

Definition eventType_name (t : EventType) : string :=
  match t with
  | view => "view"
  | like => "like"
  | comment => "comment"
  | share => "share"
  | click => "click"
  | impression => "impression"
  end.

(** Malformed input as the specification lists it: an event type outside
    the enum, a platform outside the known set, or a value that is not a
    positive integer. *)
Definition malformed_per_spec (fields : list (string * json)) : Prop :=
  (forall t, Zod.prop "eventType" fields <> Some (JStr (eventType_name t)))
  \/ (forall p, In p known_platforms ->
                Zod.prop "platform" fields <> Some (JStr p))
  \/ (exists v, Zod.prop "eventValue" fields = Some v
                /\ forall n, 1 <= n -> v <> JNum n).

(** Malformed input as [eventSchema] has it, property by property. *)
Definition not_a_uuid (v : option json) : Prop :=
  forall s, v = Some (JStr s) -> Zod.is_uuid s = false.

Definition not_a_string (v : option json) : Prop :=
  forall s, v <> Some (JStr s).

Definition not_an_event_type (v : option json) : Prop :=
  forall t, v <> Some (JStr (eventType_name t)).

Definition not_a_number (v : option json) : Prop :=
  forall n, v <> Some (JNum n).

Definition not_an_object (v : option json) : Prop :=
  forall fields, v <> Some (JObj fields).

(** Present, and wrong. *)
Definition given_and (wrong : option json -> Prop) (v : option json) : Prop :=
  v <> None /\ wrong v.

Definition malformed_per_schema (body : json) : Prop :=
  match body with
  | JObj fields =>
      not_a_uuid (Zod.prop "tenantId" fields)
      \/ given_and not_a_uuid (Zod.prop "contentItemId" fields)
      \/ given_and not_a_uuid (Zod.prop "scheduledPostId" fields)
      \/ not_an_event_type (Zod.prop "eventType" fields)
      \/ not_a_string (Zod.prop "platform" fields)
      \/ given_and not_a_number (Zod.prop "eventValue" fields)
      \/ given_and not_an_object (Zod.prop "eventMetadata" fields)
      \/ given_and not_a_string (Zod.prop "externalEventId" fields)
  | _ => True
  end.

(** A request body with the four properties a recorder must give. *)
Definition event_fields (tenantId : string) (eventType : EventType)
  (platform_ : string) (eventValue : Z) : list (string * json) :=
  [ ("tenantId", JStr tenantId);
    ("eventType", JStr (eventType_name eventType));
    ("platform", JStr platform_);
    ("eventValue", JNum eventValue) ].

Definition event_body (tenantId : string) (eventType : EventType)
  (platform_ : string) (eventValue : Z) : json :=
  JObj (event_fields tenantId eventType platform_ eventValue).

Definition tenant1 : string := "11111111-1111-4111-8111-111111111111".

Definition members_db : Database :=
  {| tenant_users :=
       [ {| TenantUser.tenant_id := tenant1; TenantUser.user_id := "u1";
            TenantUser.role := "admin" |} ];
     content_items := [];
     scheduled_posts := [];
     analytics_events := [];
     post_analytics := [] |}.

(** A body the specification calls malformed twice over: a platform outside
    the known set and a value below 1. *)
Definition myspace_body : json := event_body tenant1 like "myspace" (-3).


(** End-to-end scenario 3: two tenants, each with one member, and one
    [like] event each for platform ["instagram"] on the same day. *)
Definition tenant2 : string := "22222222-2222-4222-8222-222222222222".

Definition two_tenants_db : Database :=
  {| tenant_users :=
       [ {| TenantUser.tenant_id := tenant1; TenantUser.user_id := "u1";
            TenantUser.role := "admin" |};
         {| TenantUser.tenant_id := tenant2; TenantUser.user_id := "u2";
            TenantUser.role := "admin" |} ];
     content_items := [];
     scheduled_posts := [];
     analytics_events := [];
     post_analytics := [] |}.

(** The store takes the event of a request into [analytics_events]: the
    scheduled post and the content item it names exist (the two foreign
    keys), its value is within INTEGER, its platform within VARCHAR(50) and
    its external id within VARCHAR(255).  The tenant exists when the caller
    is a member of it. *)
Definition event_taken (db : Database) (data : AnalyticsRoute.Body.t)
  : bool :=
  match AnalyticsRoute.Body.scheduledPostId data with
  | Some p =>
      existsb (fun s => (ScheduledPost.id s =? p)%string) (scheduled_posts db)
  | None => true
  end
  && match AnalyticsRoute.Body.contentItemId data with
     | Some c =>
         existsb (fun i => (ContentItem.id i =? c)%string) (content_items db)
     | None => true
     end
  && fits_integer (AnalyticsRoute.Body.eventValue data)
  && (String.length (AnalyticsRoute.Body.platform data) <=? 50)%nat
  && match AnalyticsRoute.Body.externalEventId data with
     | Some e => (String.length e <=? 255)%nat
     | None => true
     end.

Definition post1 : string := "aaaaaaaa-aaaa-4aaa-8aaa-aaaaaaaaaaaa".

(** One tenant with one scheduled post and nothing counted yet. *)
Definition scheduled_db : Database :=
  {| tenant_users :=
       [ {| TenantUser.tenant_id := tenant1; TenantUser.user_id := "u1";
            TenantUser.role := "admin" |} ];
     content_items := [];
     scheduled_posts :=
       [ {| ScheduledPost.id := post1;
            ScheduledPost.content_item_id := None;
            ScheduledPost.scheduled_at := "2024-05-01T09:00:00Z";
            ScheduledPost.published_at := Some "2024-05-01T09:00:03Z";
            ScheduledPost.status := "published" |} ];
     analytics_events := [];
     post_analytics := [] |}.

(** The row of that post with the 201st like on 20000 impressions to
    come: the rate is then 1.005 per cent exactly. *)
Definition tie_row : PostAnalytics :=
  {| id := 1%nat; tenant_id := tenant1; content_item_id := None;
     scheduled_post_id := Some post1; platform := "instagram";
     views := 0; likes := 200; comments := 0; shares := 0; clicks := 0;
     impressions := 20000; engagement_rate := 100; click_through_rate := 0;
     unique_viewers := 0; reach := 0; date := "2024-05-01" |}.

Definition tie_db : Database := with_post_analytics scheduled_db [tie_row].

(** Two days of that post whose rates, 0.03 and 0.00, have the mean 0.015
    exactly. *)
Definition tie_rates_db : Database :=
  with_post_analytics scheduled_db
    [ {| id := 1%nat; tenant_id := tenant1; content_item_id := None;
         scheduled_post_id := Some post1; platform := "instagram";
         views := 0; likes := 3; comments := 0; shares := 0; clicks := 0;
         impressions := 10000; engagement_rate := 3;
         click_through_rate := 0; unique_viewers := 0; reach := 0;
         date := "2024-05-02" |};
      {| id := 2%nat; tenant_id := tenant1; content_item_id := None;
         scheduled_post_id := Some post1; platform := "instagram";
         views := 0; likes := 0; comments := 0; shares := 0; clicks := 0;
         impressions := 100; engagement_rate := 0;
         click_through_rate := 0; unique_viewers := 0; reach := 0;
         date := "2024-05-01" |} ].

Definition like_body (tenantId scheduledPostId : string) : json :=
  JObj [ ("tenantId", JStr tenantId);
         ("scheduledPostId", JStr scheduledPostId);
         ("eventType", JStr "like");
         ("platform", JStr "instagram") ].

(** ** What the overview adds up *)

(** The rows of one platform. *)
Definition rows_on (platform_ : string) (rows : list PostAnalytics)
  : list PostAnalytics :=
  filter (fun r => (platform r =? platform_)%string) rows.

(** The seven totals of a list of rows, column by column. *)
Definition totals_of_rows (rows : list PostAnalytics)
  : AnalyticsRoute.Totals.t :=
  {| AnalyticsRoute.Totals.views := sum_Z (map views rows);
     AnalyticsRoute.Totals.likes := sum_Z (map likes rows);
     AnalyticsRoute.Totals.comments := sum_Z (map comments rows);
     AnalyticsRoute.Totals.shares := sum_Z (map shares rows);
     AnalyticsRoute.Totals.clicks := sum_Z (map clicks rows);
     AnalyticsRoute.Totals.impressions := sum_Z (map impressions rows);
     AnalyticsRoute.Totals.reach := sum_Z (map reach rows) |}.

(** The group of one platform: the six counters summed over the rows of
    the platform, and the number of those rows. *)
Definition group_of_rows (platform_ : string) (rows : list PostAnalytics)
  : AnalyticsRoute.PlatformTotals.t :=
  {| AnalyticsRoute.PlatformTotals.platform := platform_;
     AnalyticsRoute.PlatformTotals.views :=
       sum_Z (map views (rows_on platform_ rows));
     AnalyticsRoute.PlatformTotals.likes :=
       sum_Z (map likes (rows_on platform_ rows));
     AnalyticsRoute.PlatformTotals.comments :=
       sum_Z (map comments (rows_on platform_ rows));
     AnalyticsRoute.PlatformTotals.shares :=
       sum_Z (map shares (rows_on platform_ rows));
     AnalyticsRoute.PlatformTotals.clicks :=
       sum_Z (map clicks (rows_on platform_ rows));
     AnalyticsRoute.PlatformTotals.impressions :=
       sum_Z (map impressions (rows_on platform_ rows));
     AnalyticsRoute.PlatformTotals.posts_count :=
       Z.of_nat (List.length (rows_on platform_ rows)) |}.

(** A group after it received one more row. *)
Definition group_plus (g : AnalyticsRoute.PlatformTotals.t)
  (record : PostAnalytics) : AnalyticsRoute.PlatformTotals.t :=
  {| AnalyticsRoute.PlatformTotals.platform :=
       AnalyticsRoute.PlatformTotals.platform g;
     AnalyticsRoute.PlatformTotals.views :=
       AnalyticsRoute.PlatformTotals.views g + views record;
     AnalyticsRoute.PlatformTotals.likes :=
       AnalyticsRoute.PlatformTotals.likes g + likes record;
     AnalyticsRoute.PlatformTotals.comments :=
       AnalyticsRoute.PlatformTotals.comments g + comments record;
     AnalyticsRoute.PlatformTotals.shares :=
       AnalyticsRoute.PlatformTotals.shares g + shares record;
     AnalyticsRoute.PlatformTotals.clicks :=
       AnalyticsRoute.PlatformTotals.clicks g + clicks record;
     AnalyticsRoute.PlatformTotals.impressions :=
       AnalyticsRoute.PlatformTotals.impressions g + impressions record;
     AnalyticsRoute.PlatformTotals.posts_count :=
       AnalyticsRoute.PlatformTotals.posts_count g + 1 |}.

(** The property names every JavaScript object inherits.  The grouping
    [reduce] keys a plain object by platform, so a platform of one of these
    names would find the inherited member instead of a group; the grouping
    is read for platforms that are not among them. *)
Definition object_prototype_names : list string :=
  [ "constructor"; "__proto__"; "hasOwnProperty"; "isPrototypeOf";
    "propertyIsEnumerable"; "toLocaleString"; "toString"; "valueOf";
    "__defineGetter__"; "__defineSetter__"; "__lookupGetter__";
    "__lookupSetter__" ].

Definition plain_platforms (rows : list PostAnalytics) : Prop :=
  Forall (fun r => ~ In (platform r) object_prototype_names) rows.

(* ================================================================== *)
(** * Platform settings: the tables *)

(** A row of [platform_credentials]. *)
Module PlatformCredential.
Record t := {
  id : string;
  tenant_id : string;
  platform : string;
  client_id : string;
  client_secret : string;
  scopes : option (list string);
  redirect_uri : option string;
  is_active : bool;
  last_tested_at : option string;
  test_status : option string;
  created_by : option string;
  created_at : string;
  updated_at : string
}.
End PlatformCredential.

(** A row of [platform_connections]. *)
Module PlatformConnection.
Record t := {
  id : string;
  tenant_id : string;
  user_id : string;
  platform : string;
  platform_user_id : option string;
  platform_username : option string;
  access_token : option string;
  refresh_token : option string;
  token_expires_at : option string;
  scopes : list string;
  is_active : bool;
  connection_metadata : list (string * json);
  updated_at : string
}.
End PlatformConnection.

(** A row of [audit_logs], as the connect handler writes it. *)
Module AuditLog.
Record t := {
  tenant_id : string;
  user_id : string;
  action : string;
  resource_type : string;
  resource_id : string;
  metadata : list (string * json)
}.
End AuditLog.

(** The tables of the platform settings routes, beside the core tables
    (of which these routes read [tenant_users]). *)
Record Settings := {
  core : Database;
  platform_credentials : list PlatformCredential.t;
  platform_connections : list PlatformConnection.t;
  audit_logs : list AuditLog.t
}.

(** [z.enum(['instagram', 'facebook', 'tiktok', 'linkedin', 'youtube',
    'google_ads'])] *)
Definition platform_enum : Zod.schema string :=
  fun v =>
    match v with
    | Some (JStr s) =>
        if existsb (String.eqb s)
             [ "instagram"; "facebook"; "tiktok"; "linkedin"; "youtube";
               "google_ads" ]
        then Some s else None
    | _ => None
    end.

(** [z.string().url()], over the URL check of the runtime. *)
Definition url_schema (is_url : string -> bool) : Zod.schema string :=
  fun v =>
    match v with
    | Some (JStr s) => if is_url s then Some s else None
    | _ => None
    end.

(** [z.string().min(1)] *)
Definition nonempty_string : Zod.schema string :=
  fun v =>
    match v with
    | Some (JStr (String c s)) => Some (String c s)
    | _ => None
    end.

(** [z.array(z.string())] *)
Fixpoint strings (items : list json) : option (list string) :=
  match items with
  | [] => Some []
  | JStr s :: items => option_map (cons s) (strings items)
  | _ :: _ => None
  end.

Definition string_array : Zod.schema (list string) :=
  fun v => match v with Some (JArr items) => strings items | _ => None end.

(** [!tenantUser || !['owner', 'admin'].includes(tenantUser.role)] *)
Definition not_owner_or_admin (tu : option TenantUser.t) : bool :=
  match tu with
  | None => true
  | Some tu =>
      negb (existsb (String.eqb (TenantUser.role tu)) [ "owner"; "admin" ])
  end.

(* ================================================================== *)
(** * [encodeURIComponent]

    A string stands for the sequence of its UTF-8 bytes, which is what
    [encodeURIComponent] escapes. *)

Module Uri.

(** The characters left as they are: letters, digits and [- _ . ! ~ * ' ( )]. *)
Definition unreserved (c : ascii) : bool :=
  let n := nat_of_ascii c in
  ((65 <=? n) && (n <=? 90) || (97 <=? n) && (n <=? 122)
   || (48 <=? n) && (n <=? 57)
   || existsb (Nat.eqb n) [ 45; 95; 46; 33; 126; 42; 39; 40; 41 ])%nat.

Definition hex_digit (n : nat) : ascii :=
  if (n <? 10)%nat then ascii_of_nat (48 + n) else ascii_of_nat (55 + n).

(** One byte: itself, or [%] and its two upper-case hexadecimal digits. *)
Definition encode_byte (c : ascii) (rest : string) : string :=
  if unreserved c then String c rest
  else
    String "%"
      (String (hex_digit (nat_of_ascii c / 16))
         (String (hex_digit (nat_of_ascii c mod 16)) rest)).

Fixpoint encodeURIComponent (s : string) : string :=
  match s with
  | EmptyString => EmptyString
  | String c s => encode_byte c (encodeURIComponent s)
  end.

End Uri.

(* ================================================================== *)
(** * [/api/settings/platforms/oauth-url] *)

Module OAuthUrlRoute.

(** [customScopes && customScopes.length > 0 ? customScopes.join(sep)
    : defaults.join(sep)] *)
Definition scopes_param (customScopes : option (list string)) (sep : string)
  (defaults : list string) : string :=
  match customScopes with
  | Some (scope :: more) => String.concat sep (scope :: more)
  | _ => String.concat sep defaults
  end.

Definition getOAuthUrl (platform_ clientId redirectUri : string)
  (customScopes : option (list string)) : option string :=
  if ((platform_ =? "instagram") || (platform_ =? "facebook"))%string then
    let fbScopes :=
      scopes_param customScopes ","
        [ "instagram_basic"; "instagram_content_publish"; "pages_show_list";
          "pages_read_engagement"; "pages_manage_posts" ] in
    Some ("https://www.facebook.com/v18.0/dialog/oauth?client_id="
          ++ clientId ++ "&redirect_uri="
          ++ Uri.encodeURIComponent redirectUri ++ "&scope=" ++ fbScopes
          ++ "&response_type=code&state=" ++ platform_)%string
  else if (platform_ =? "tiktok")%string then
    let tiktokScopes :=
      scopes_param customScopes ","
        [ "user.info.basic"; "video.list"; "video.upload" ] in
    Some ("https://www.tiktok.com/auth/authorize/?client_key=" ++ clientId
          ++ "&scope=" ++ tiktokScopes ++ "&response_type=code&redirect_uri="
          ++ Uri.encodeURIComponent redirectUri ++ "&state=tiktok")%string
  else if (platform_ =? "linkedin")%string then
    let linkedinScopes :=
      scopes_param customScopes "%20"
        [ "r_liteprofile"; "r_emailaddress"; "w_member_social" ] in
    Some ("https://www.linkedin.com/oauth/v2/authorization?response_type=code&client_id="
          ++ clientId ++ "&redirect_uri="
          ++ Uri.encodeURIComponent redirectUri ++ "&scope=" ++ linkedinScopes
          ++ "&state=linkedin")%string
  else if (platform_ =? "youtube")%string then
    let googleScopes :=
      scopes_param customScopes "%20"
        [ "https://www.googleapis.com/auth/youtube.upload";
          "https://www.googleapis.com/auth/youtube.readonly" ] in
    Some ("https://accounts.google.com/o/oauth2/v2/auth?client_id="
          ++ clientId ++ "&redirect_uri="
          ++ Uri.encodeURIComponent redirectUri ++ "&scope=" ++ googleScopes
          ++ "&response_type=code&access_type=offline&state=youtube")%string
  else if (platform_ =? "google_ads")%string then
    let adsScopes :=
      scopes_param customScopes "%20"
        [ "https://www.googleapis.com/auth/adwords" ] in
    Some ("https://accounts.google.com/o/oauth2/v2/auth?client_id="
          ++ clientId ++ "&redirect_uri="
          ++ Uri.encodeURIComponent redirectUri ++ "&scope=" ++ adsScopes
          ++ "&response_type=code&access_type=offline&state=google_ads")%string
  else None.

(** What the handler answers. *)
Inductive Answer :=
| OAuthUrl (oauth_url platform_ : string)
| NeedsConfiguration (message : string)
| Failure (status : nat) (message : string).

Module Body.
Record t := { tenantId : string; platform : string; redirectUri : string }.
End Body.

Section WithUrlCheck.

(** [z.string().url()] hands the string to the URL parser of the runtime;
    the check is taken as given. *)
Variable is_url : string -> bool.

Definition oauthUrlSchema (body : json) : option Body.t :=
  match body with
  | JObj fields =>
      Zod.and_then (Zod.uuid (Zod.prop "tenantId" fields)) (fun tenantId =>
      Zod.and_then (platform_enum (Zod.prop "platform" fields))
        (fun platform_ =>
      Zod.and_then (url_schema is_url (Zod.prop "redirectUri" fields))
        (fun redirectUri =>
      Some {| Body.tenantId := tenantId;
              Body.platform := platform_;
              Body.redirectUri := redirectUri |})))
  | _ => None
  end.

(** The active credentials of a tenant for a platform, [.single()].  The
    row-level policy of the table, which shows the credentials of a tenant
    to its owners and admins, is the database's and is not modelled. *)
Definition active_credentials (db : Settings) (tenantId platform_ : string)
  : option PlatformCredential.t :=
  single
    (filter
       (fun c => (PlatformCredential.tenant_id c =? tenantId)%string
                 && (PlatformCredential.platform c =? platform_)%string
                 && Bool.eqb (PlatformCredential.is_active c) true)
       (platform_credentials db)).

(** The handler on a request whose body is JSON and whose strings are
    well-formed text.  Its [catch], which answers 500 with the message of
    what was thrown, is reached by nothing else: [request.json()] throws on
    a body that is not JSON, and [encodeURIComponent] on a string with a
    lone surrogate, which a string of UTF-8 bytes cannot hold; the queries
    return their errors instead of throwing them.  So no answer below is a
    500, and what is said of the answers is said of such requests. *)
Definition POST (db : Settings) (user : option string) (body : json)
  : Answer :=
  match user with
  | None => Failure 401 "Unauthorized"
  | Some userId =>
      match oauthUrlSchema body with
      | None => Failure 400 "Invalid request"
      | Some data =>
          match tenantUser (core db) (Body.tenantId data) userId with
          | None => Failure 403 "Access denied"
          | Some _ =>
              match
                active_credentials db (Body.tenantId data) (Body.platform data)
              with
              | None =>
                  NeedsConfiguration
                    ("OAuth credentials not configured for "
                     ++ Body.platform data
                     ++ ". Please add your API credentials in the Platform Settings.")%string
              | Some credentials =>
                  let oauthUrl :=
                    getOAuthUrl (Body.platform data)
                      (PlatformCredential.client_id credentials)
                      (or_else
                         (truthy (PlatformCredential.redirect_uri credentials))
                         (Body.redirectUri data))
                      (PlatformCredential.scopes credentials) in
                  match truthy oauthUrl with
                  | None =>
                      Failure 400
                        ("Failed to generate OAuth URL for "
                         ++ Body.platform data)%string
                  | Some oauthUrl => OAuthUrl oauthUrl (Body.platform data)
                  end
              end
          end
      end
  end.

End WithUrlCheck.

End OAuthUrlRoute.

(** ** Undoing [encodeURIComponent]

    The application never decodes what it encoded; the decoder below is the
    reader of the authorization server, and serves to state that the
    encoding loses nothing. *)

Definition hex_value (c : ascii) : option nat :=
  let n := nat_of_ascii c in
  if ((48 <=? n) && (n <=? 57))%nat then Some (n - 48)%nat
  else if ((65 <=? n) && (n <=? 70))%nat then Some (n - 55)%nat
  else None.

Fixpoint percent_decode (s : string) : option string :=
  match s with
  | EmptyString => Some EmptyString
  | String c rest =>
      if Ascii.eqb c "%" then
        match rest with
        | String h (String l rest') =>
            match hex_value h, hex_value l, percent_decode rest' with
            | Some a, Some b, Some r =>
                Some (String (ascii_of_nat (16 * a + b)) r)
            | _, _, _ => None
            end
        | _ => None
        end
      else option_map (String c) (percent_decode rest)
  end.

(* ================================================================== *)
(** * [/api/settings/platforms/connect] *)

Module ConnectRoute.

(** What [exchangeCodeForToken] resolves to. *)
Module TokenData.
Record t := {
  success : bool;
  error : option string;
  access_token : option string;
  refresh_token : option string;
  expires_at : option string;
  scopes : option (list string)
}.
End TokenData.

Definition failed (message : string) : TokenData.t :=
  {| TokenData.success := false;
     TokenData.error := Some message;
     TokenData.access_token := None;
     TokenData.refresh_token := None;
     TokenData.expires_at := None;
     TokenData.scopes := None |}.

Definition exchangeCodeForToken (platform_ code redirectUri : string)
  : TokenData.t :=
  if ((platform_ =? "instagram") || (platform_ =? "facebook"))%string then
    failed "Facebook/Instagram OAuth not yet implemented. Please configure FB_APP_ID and FB_APP_SECRET environment variables."
  else if (platform_ =? "tiktok")%string then
    failed "TikTok OAuth not yet implemented. Please configure TIKTOK_CLIENT_KEY environment variables."
  else if (platform_ =? "linkedin")%string then
    failed "LinkedIn OAuth not yet implemented. Please configure LINKEDIN_CLIENT_ID environment variables."
  else if (platform_ =? "youtube")%string then
    failed "YouTube OAuth not yet implemented. Please configure GOOGLE_CLIENT_ID environment variables."
  else if (platform_ =? "google_ads")%string then
    failed "Google Ads OAuth not yet implemented. Please configure GOOGLE_ADS_CLIENT_ID environment variables."
  else failed "Unsupported platform".

Module UserInfo.
Record t := {
  platform_user_id : string;
  username : string;
  metadata : list (string * json)
}.
End UserInfo.

(** [random] is [Math.random().toString(36).substring(7)]. *)
Definition getPlatformUserInfo (random platform_ : string)
  (accessToken : option string) : UserInfo.t :=
  {| UserInfo.platform_user_id := ("mock_user_id_" ++ random)%string;
     UserInfo.username := "demo_user";
     UserInfo.metadata :=
       [ ("profile_url", JStr ""); ("followers_count", JNum 0) ] |}.

Module Body.
Record t := {
  tenantId : string;
  platform : string;
  code : string;
  redirectUri : string
}.
End Body.

(** What the handler answers. *)
Inductive Answer :=
| Connected (connection_id message : string)
| Refused (status : nat) (message : string).

Section WithUrlCheck.

Variable is_url : string -> bool.

Definition connectSchema (body : json) : option Body.t :=
  match body with
  | JObj fields =>
      Zod.and_then (Zod.uuid (Zod.prop "tenantId" fields)) (fun tenantId =>
      Zod.and_then (platform_enum (Zod.prop "platform" fields))
        (fun platform_ =>
      Zod.and_then (Zod.string_ (Zod.prop "code" fields)) (fun code =>
      Zod.and_then (url_schema is_url (Zod.prop "redirectUri" fields))
        (fun redirectUri =>
      Some {| Body.tenantId := tenantId;
              Body.platform := platform_;
              Body.code := code;
              Body.redirectUri := redirectUri |}))))
  | _ => None
  end.

(** [POST(request)].  [now] is the time of the call, [new_id] the id the
    database gives a new connection and [random] the draw of
    [getPlatformUserInfo]. *)
Definition POST (db : Settings) (user : option string) (body : json)
  (now new_id random : string) : Answer * Settings :=
  match user with
  | None => (Refused 401 "Unauthorized", db)
  | Some userId =>
      match connectSchema body with
      | None => (Refused 400 "Invalid request", db)
      | Some data =>
          if not_owner_or_admin
               (tenantUser (core db) (Body.tenantId data) userId)
          then (Refused 403 "Only owners and admins can connect platforms", db)
          else
            let tokenData :=
              exchangeCodeForToken (Body.platform data) (Body.code data)
                (Body.redirectUri data) in
            if negb (TokenData.success tokenData)
            then
              (Refused 400
                 (or_else (truthy (TokenData.error tokenData))
                          "Failed to exchange authorization code"),
               db)
            else
              let userInfo :=
                getPlatformUserInfo random (Body.platform data)
                  (TokenData.access_token tokenData) in
              let existingConnection :=
                single
                  (filter
                     (fun c =>
                        (PlatformConnection.tenant_id c
                         =? Body.tenantId data)%string
                        && (PlatformConnection.platform c
                            =? Body.platform data)%string
                        && option_eqb String.eqb
                             (PlatformConnection.platform_user_id c)
                             (Some (UserInfo.platform_user_id userInfo)))
                     (platform_connections db)) in
              match existingConnection with
              | Some existing =>
                  let update (c : PlatformConnection.t) :=
                    if (PlatformConnection.id c
                        =? PlatformConnection.id existing)%string
                    then
                      {| PlatformConnection.id := PlatformConnection.id c;
                         PlatformConnection.tenant_id :=
                           PlatformConnection.tenant_id c;
                         PlatformConnection.user_id :=
                           PlatformConnection.user_id c;
                         PlatformConnection.platform :=
                           PlatformConnection.platform c;
                         PlatformConnection.platform_user_id :=
                           PlatformConnection.platform_user_id c;
                         PlatformConnection.platform_username :=
                           Some (UserInfo.username userInfo);
                         PlatformConnection.access_token :=
                           TokenData.access_token tokenData;
                         PlatformConnection.refresh_token :=
                           TokenData.refresh_token tokenData;
                         PlatformConnection.token_expires_at :=
                           TokenData.expires_at tokenData;
                         PlatformConnection.scopes :=
                           or_else (TokenData.scopes tokenData) [];
                         PlatformConnection.is_active := true;
                         PlatformConnection.connection_metadata :=
                           UserInfo.metadata userInfo;
                         PlatformConnection.updated_at := now |}
                    else c in
                  (Connected (PlatformConnection.id existing)
                     "Platform connection updated",
                   {| core := core db;
                      platform_credentials := platform_credentials db;
                      platform_connections :=
                        map update (platform_connections db);
                      audit_logs := audit_logs db |})
              | None =>
                  let connection :=
                    {| PlatformConnection.id := new_id;
                       PlatformConnection.tenant_id := Body.tenantId data;
                       PlatformConnection.user_id := userId;
                       PlatformConnection.platform := Body.platform data;
                       PlatformConnection.platform_user_id :=
                         Some (UserInfo.platform_user_id userInfo);
                       PlatformConnection.platform_username :=
                         Some (UserInfo.username userInfo);
                       PlatformConnection.access_token :=
                         TokenData.access_token tokenData;
                       PlatformConnection.refresh_token :=
                         TokenData.refresh_token tokenData;
                       PlatformConnection.token_expires_at :=
                         TokenData.expires_at tokenData;
                       PlatformConnection.scopes :=
                         or_else (TokenData.scopes tokenData) [];
                       PlatformConnection.is_active := true;
                       PlatformConnection.connection_metadata :=
                         UserInfo.metadata userInfo;
                       PlatformConnection.updated_at := now |} in
                  (Connected new_id "Platform connected successfully",
                   {| core := core db;
                      platform_credentials := platform_credentials db;
                      platform_connections :=
                        platform_connections db ++ [connection];
                      audit_logs :=
                        audit_logs db ++
                        [ {| AuditLog.tenant_id := Body.tenantId data;
                             AuditLog.user_id := userId;
                             AuditLog.action := "platform_connected";
                             AuditLog.resource_type := "platform_connection";
                             AuditLog.resource_id := new_id;
                             AuditLog.metadata :=
                               [ ("platform", JStr (Body.platform data));
                                 ("platform_username",
                                  JStr (UserInfo.username userInfo)) ] |} ]
                   |})
              end
      end
  end.

End WithUrlCheck.

End ConnectRoute.

(* ================================================================== *)
(** * [/api/settings/platforms/credentials] *)

Module CredentialsRoute.

(** A credential as [GET] lists it: the selected columns, which leave the
    secret out. *)
Module Listed.
Record t := {
  id : string;
  platform : string;
  client_id : string;
  scopes : option (list string);
  redirect_uri : option string;
  is_active : bool;
  last_tested_at : option string;
  test_status : option string;
  created_at : string
}.
End Listed.

(** A credential as [POST] returns it. *)
Module Saved.
Record t := {
  id : string;
  platform : string;
  client_id : string;
  scopes : option (list string);
  redirect_uri : option string;
  is_active : bool;
  created_at : string
}.
End Saved.

Definition listed (c : PlatformCredential.t) : Listed.t :=
  {| Listed.id := PlatformCredential.id c;
     Listed.platform := PlatformCredential.platform c;
     Listed.client_id := PlatformCredential.client_id c;
     Listed.scopes := PlatformCredential.scopes c;
     Listed.redirect_uri := PlatformCredential.redirect_uri c;
     Listed.is_active := PlatformCredential.is_active c;
     Listed.last_tested_at := PlatformCredential.last_tested_at c;
     Listed.test_status := PlatformCredential.test_status c;
     Listed.created_at := PlatformCredential.created_at c |}.

Definition saved (c : PlatformCredential.t) : Saved.t :=
  {| Saved.id := PlatformCredential.id c;
     Saved.platform := PlatformCredential.platform c;
     Saved.client_id := PlatformCredential.client_id c;
     Saved.scopes := PlatformCredential.scopes c;
     Saved.redirect_uri := PlatformCredential.redirect_uri c;
     Saved.is_active := PlatformCredential.is_active c;
     Saved.created_at := PlatformCredential.created_at c |}.

Definition with_platform_credentials (db : Settings)
  (rows : list PlatformCredential.t) : Settings :=
  {| core := core db;
     platform_credentials := rows;
     platform_connections := platform_connections db;
     audit_logs := audit_logs db |}.

(** [GET(request)]: the credentials of a tenant, by platform. *)
Definition GET (db : Settings) (user : option string)
  (tenantId : option string) : Response (list Listed.t) :=
  match user with
  | None => Error 401 "Unauthorized"
  | Some userId =>
      match truthy tenantId with
      | None => Error 400 "Tenant ID is required"
      | Some tenantId =>
          if not_owner_or_admin (tenantUser (core db) tenantId userId)
          then Error 403 "Access denied. Admin role required."
          else
            Ok (map listed
                  (order_desc
                     (fun a b =>
                        String.leb (PlatformCredential.platform b)
                                   (PlatformCredential.platform a))
                     (filter
                        (fun c =>
                           (PlatformCredential.tenant_id c =? tenantId)%string)
                        (platform_credentials db))))
      end
  end.

Module Body.
Record t := {
  tenantId : string;
  platform : string;
  clientId : string;
  clientSecret : string;
  scopes : option (list string);
  redirectUri : option string
}.
End Body.

(** [.update({ client_id, client_secret, scopes: scopes || [],
    redirect_uri: redirectUri, updated_at })]: a [redirectUri] the body
    does not give is [undefined], which the request leaves out, so the
    stored value stays. *)
Definition updated (c : PlatformCredential.t) (data : Body.t) (now : string)
  : PlatformCredential.t :=
  {| PlatformCredential.id := PlatformCredential.id c;
     PlatformCredential.tenant_id := PlatformCredential.tenant_id c;
     PlatformCredential.platform := PlatformCredential.platform c;
     PlatformCredential.client_id := Body.clientId data;
     PlatformCredential.client_secret := Body.clientSecret data;
     PlatformCredential.scopes := Some (or_else (Body.scopes data) []);
     PlatformCredential.redirect_uri :=
       match Body.redirectUri data with
       | Some uri => Some uri
       | None => PlatformCredential.redirect_uri c
       end;
     PlatformCredential.is_active := PlatformCredential.is_active c;
     PlatformCredential.last_tested_at := PlatformCredential.last_tested_at c;
     PlatformCredential.test_status := PlatformCredential.test_status c;
     PlatformCredential.created_by := PlatformCredential.created_by c;
     PlatformCredential.created_at := PlatformCredential.created_at c;
     PlatformCredential.updated_at := now |}.

(** The row [.insert({...})] creates, with the defaults of the table. *)
Definition created (userId : string) (data : Body.t) (now new_id : string)
  : PlatformCredential.t :=
  {| PlatformCredential.id := new_id;
     PlatformCredential.tenant_id := Body.tenantId data;
     PlatformCredential.platform := Body.platform data;
     PlatformCredential.client_id := Body.clientId data;
     PlatformCredential.client_secret := Body.clientSecret data;
     PlatformCredential.scopes := Some (or_else (Body.scopes data) []);
     PlatformCredential.redirect_uri := Body.redirectUri data;
     PlatformCredential.is_active := true;
     PlatformCredential.last_tested_at := None;
     PlatformCredential.test_status := None;
     PlatformCredential.created_by := Some userId;
     PlatformCredential.created_at := now;
     PlatformCredential.updated_at := now |}.

Section WithUrlCheck.

Variable is_url : string -> bool.

(** The messages of the two errors the storage engine may report to
    [POST], which the handler passes on: no single row after the update,
    and a key that exists already. *)
Variable no_single_row duplicate_key : string.

Definition credentialSchema (body : json) : option Body.t :=
  match body with
  | JObj fields =>
      Zod.and_then (Zod.uuid (Zod.prop "tenantId" fields)) (fun tenantId =>
      Zod.and_then (platform_enum (Zod.prop "platform" fields))
        (fun platform_ =>
      Zod.and_then (nonempty_string (Zod.prop "clientId" fields))
        (fun clientId =>
      Zod.and_then (nonempty_string (Zod.prop "clientSecret" fields))
        (fun clientSecret =>
      Zod.and_then (Zod.optional string_array (Zod.prop "scopes" fields))
        (fun scopes =>
      Zod.and_then
        (Zod.optional (url_schema is_url) (Zod.prop "redirectUri" fields))
        (fun redirectUri =>
      Some {| Body.tenantId := tenantId;
              Body.platform := platform_;
              Body.clientId := clientId;
              Body.clientSecret := clientSecret;
              Body.scopes := scopes;
              Body.redirectUri := redirectUri |}))))))
  | _ => None
  end.

(** [POST(request)]: create the credentials of a tenant for a platform, or
    update them when they exist.  [now] is the time of the call and
    [new_id] the id the database gives a new row.  A [.single()] that does
    not find one row after the update, and an insert that the primary key
    or [UNIQUE(tenant_id, platform)] refuses, are thrown and answered
    500, with nothing written. *)
Definition POST (db : Settings) (user : option string) (body : json)
  (now new_id : string)
  : Response (string * Saved.t) * Settings :=
  match user with
  | None => (Error 401 "Unauthorized", db)
  | Some userId =>
      match credentialSchema body with
      | None => (Error 400 "Invalid request", db)
      | Some data =>
          if not_owner_or_admin
               (tenantUser (core db) (Body.tenantId data) userId)
          then (Error 403 "Access denied. Admin role required.", db)
          else
            let existing :=
              single
                (filter
                   (fun c =>
                      (PlatformCredential.tenant_id c
                       =? Body.tenantId data)%string
                      && (PlatformCredential.platform c
                          =? Body.platform data)%string)
                   (platform_credentials db)) in
            match existing with
            | Some existing =>
                let rows :=
                  map
                    (fun c =>
                       if (PlatformCredential.id c
                           =? PlatformCredential.id existing)%string
                       then updated c data now else c)
                    (platform_credentials db) in
                match
                  single
                    (filter
                       (fun c =>
                          (PlatformCredential.id c
                           =? PlatformCredential.id existing)%string)
                       rows)
                with
                | Some row =>
                    (Ok ("Credentials updated successfully", saved row),
                     with_platform_credentials db rows)
                | None => (Error 500 no_single_row, db)
                end
            | None =>
                let row := created userId data now new_id in
                if existsb
                     (fun c =>
                        (PlatformCredential.id c =? new_id)%string
                        || (PlatformCredential.tenant_id c
                            =? Body.tenantId data)%string
                           && (PlatformCredential.platform c
                               =? Body.platform data)%string)
                     (platform_credentials db)
                then (Error 500 duplicate_key, db)
                else
                  (Ok ("Credentials created successfully", saved row),
                   with_platform_credentials db
                     (platform_credentials db ++ [row]))
            end
      end
  end.

End WithUrlCheck.

(** [DELETE(request)], of a body that is an object.  [tenantId] and
    [credentialId] are the texts the request filters by, what the body
    holds under the two names; [None] stands for a missing or falsy
    property. *)
Definition DELETE (db : Settings) (user : option string)
  (tenantId credentialId : option string) : Response string * Settings :=
  match user with
  | None => (Error 401 "Unauthorized", db)
  | Some userId =>
      match tenantId, credentialId with
      | Some tenantId, Some credentialId =>
          if not_owner_or_admin (tenantUser (core db) tenantId userId)
          then (Error 403 "Access denied. Admin role required.", db)
          else
            (Ok "Credentials deleted successfully",
             with_platform_credentials db
               (filter
                  (fun c =>
                     negb ((PlatformCredential.id c =? credentialId)%string
                           && (PlatformCredential.tenant_id c
                               =? tenantId)%string))
                  (platform_credentials db)))
      | _, _ => (Error 400 "Tenant ID and Credential ID are required", db)
      end
  end.

End CredentialsRoute.

(** ** What the credentials routes are asked to keep *)

(** The caller is an owner or an admin of the tenant. *)
Definition owner_or_admin (db : Settings) (tenantId : string)
  (user : option string) : Prop :=
  exists userId tu,
    user = Some userId
    /\ tenantUser (core db) tenantId userId = Some tu
    /\ In (TenantUser.role tu) [ "owner"; "admin" ].

(** The credentials of a tenant for a platform. *)
Definition credentials_of (rows : list PlatformCredential.t)
  (tenantId platform_ : string) : list PlatformCredential.t :=
  filter
    (fun c => (PlatformCredential.tenant_id c =? tenantId)%string
              && (PlatformCredential.platform c =? platform_)%string)
    rows.

(** A tenant with one admin and one member and no credentials yet, and a
    body that configures TikTok for it. *)
Definition settings_db : Settings :=
  {| core :=
       {| tenant_users :=
            [ {| TenantUser.tenant_id := tenant1; TenantUser.user_id := "u1";
                 TenantUser.role := "admin" |};
              {| TenantUser.tenant_id := tenant1; TenantUser.user_id := "u3";
                 TenantUser.role := "member" |} ];
          content_items := [];
          scheduled_posts := [];
          analytics_events := [];
          post_analytics := [] |};
     platform_credentials := [];
     platform_connections := [];
     audit_logs := [] |}.

Definition tiktok_credentials_body : json :=
  JObj [ ("tenantId", JStr tenant1);
         ("platform", JStr "tiktok");
         ("clientId", JStr "client-123");
         ("clientSecret", JStr "secret-456") ].

Definition tiktok_credentials_data : CredentialsRoute.Body.t :=
  {| CredentialsRoute.Body.tenantId := tenant1;
     CredentialsRoute.Body.platform := "tiktok";
     CredentialsRoute.Body.clientId := "client-123";
     CredentialsRoute.Body.clientSecret := "secret-456";
     CredentialsRoute.Body.scopes := None;
     CredentialsRoute.Body.redirectUri := None |}.

(** A URL check for the examples: anything that starts with a scheme. *)
Definition starts_with_https (s : string) : bool :=
  String.prefix "https://" s.


(** The same tenant with TikTok and Instagram configured. *)
Definition tiktok_row : PlatformCredential.t :=
  {| PlatformCredential.id := "aaaaaaaa-aaaa-4aaa-8aaa-aaaaaaaaaaaa";
     PlatformCredential.tenant_id := tenant1;
     PlatformCredential.platform := "tiktok";
     PlatformCredential.client_id := "old-client";
     PlatformCredential.client_secret := "old-secret";
     PlatformCredential.scopes := Some [ "user.info.basic" ];
     PlatformCredential.redirect_uri := Some "https://app.example.com/cb";
     PlatformCredential.is_active := true;
     PlatformCredential.last_tested_at := None;
     PlatformCredential.test_status := None;
     PlatformCredential.created_by := Some "u1";
     PlatformCredential.created_at := "2024-05-01T08:00:00.000Z";
     PlatformCredential.updated_at := "2024-05-01T08:00:00.000Z" |}.

Definition instagram_row : PlatformCredential.t :=
  {| PlatformCredential.id := "bbbbbbbb-bbbb-4bbb-8bbb-bbbbbbbbbbbb";
     PlatformCredential.tenant_id := tenant1;
     PlatformCredential.platform := "instagram";
     PlatformCredential.client_id := "ig-client";
     PlatformCredential.client_secret := "ig-secret";
     PlatformCredential.scopes := Some [];
     PlatformCredential.redirect_uri := None;
     PlatformCredential.is_active := true;
     PlatformCredential.last_tested_at := None;
     PlatformCredential.test_status := None;
     PlatformCredential.created_by := Some "u1";
     PlatformCredential.created_at := "2024-05-01T09:00:00.000Z";
     PlatformCredential.updated_at := "2024-05-01T09:00:00.000Z" |}.

Definition configured_db : Settings :=
  CredentialsRoute.with_platform_credentials settings_db
    [ tiktok_row; instagram_row ].

(** The admin of the tenant asks for the TikTok authorization URL. *)
Definition tiktok_oauth_body : json :=
  JObj [ ("tenantId", JStr tenant1);
         ("platform", JStr "tiktok");
         ("redirectUri", JStr "https://app.example.com/oauth") ].

Definition tiktok_oauth_request : OAuthUrlRoute.Body.t :=
  {| OAuthUrlRoute.Body.tenantId := tenant1;
     OAuthUrlRoute.Body.platform := "tiktok";
     OAuthUrlRoute.Body.redirectUri := "https://app.example.com/oauth" |}.

(* ================================================================== *)
(** * Proofs *)

(** ** Doubles *)

Lemma pow2_pos e : (0 < JsNumber.pow2 e)%Q.
Proof. apply Qpower_0_lt. reflexivity. Qed.

Lemma pow2_add a b : (JsNumber.pow2 (a + b) == JsNumber.pow2 a * JsNumber.pow2 b)%Q.
Proof. apply Qpower_plus. discriminate. Qed.

Lemma pow2_Z k : 0 <= k -> (JsNumber.pow2 k == inject_Z (2 ^ k))%Q.
Proof. intros H. unfold JsNumber.pow2. rewrite (Zpower_Qpower 2 k H). reflexivity. Qed.

Lemma nearest_even_error y :
  (Qabs (inject_Z (JsNumber.nearest_even y) - y) <= 1 # 2)%Q.
Proof.
  unfold JsNumber.nearest_even.
  pose proof (Qfloor_le y) as L. pose proof (Qlt_floor y) as U.
  rewrite inject_Z_plus in U. change (inject_Z 1) with 1%Q in U.
  apply Qabs_Qle_condition.
  destruct (Qcompare_spec (y - inject_Z (Qfloor y)) (1 # 2)) as [ E | E | E ].
  - destruct (Z.even (Qfloor y)); rewrite ?inject_Z_plus;
      change (inject_Z 1) with 1%Q; lra.
  - lra.
  - rewrite inject_Z_plus. change (inject_Z 1) with 1%Q. lra.
Qed.

Lemma log2_bounds (n : positive) :
  (inject_Z (2 ^ Z.log2 (Zpos n)) <= inject_Z (Zpos n))%Q
  /\ (inject_Z (Zpos n) < 2 * inject_Z (2 ^ Z.log2 (Zpos n)))%Q.
Proof.
  pose proof (Z.log2_spec (Zpos n) (Pos2Z.is_pos n)) as [L U].
  split.
  - rewrite <- Zle_Qle. exact L.
  - change 2%Q with (inject_Z 2). rewrite <- inject_Z_mult, <- Zlt_Qlt.
    rewrite Z.pow_succ_r in U by apply Z.log2_nonneg. exact U.
Qed.

Lemma ulp_exponent_lower x :
  (0 < x)%Q -> (JsNumber.pow2 52 * JsNumber.pow2 (JsNumber.ulp_exponent x) <= x)%Q.
Proof.
  intros Hx. unfold JsNumber.ulp_exponent.
  set (e := Z.log2 (Qnum x) - Z.log2 (Zpos (Qden x)) - 53).
  pose proof (pow2_pos e) as Pe.
  destruct (Qle_bool (JsNumber.pow2 53) (x / JsNumber.pow2 e)) eqn:T.
  - apply Qle_bool_iff in T.
    rewrite pow2_add. change (JsNumber.pow2 1) with 2%Q.
    change (JsNumber.pow2 52) with (inject_Z (2^52)).
    change (JsNumber.pow2 53) with (inject_Z (2^53)) in T.
    apply (Qmult_le_r _ _ (JsNumber.pow2 e) Pe) in T.
    assert (E : (x / JsNumber.pow2 e * JsNumber.pow2 e == x)%Q).
    { field. intros K. rewrite K in Pe. discriminate. }
    rewrite E in T. clear E.
    change (inject_Z (2^53)) with (2 * inject_Z (2^52))%Q in T. lra.
  - clear T.
    destruct x as [n d]. unfold Qlt in Hx. simpl in Hx.
    destruct n as [ | n | n ]; try lia. clear Hx.
    cbn [Qnum Qden] in e.
    set (a := Z.log2 (Zpos n)) in *. set (b := Z.log2 (Zpos d)) in *.
    assert (Ha : 0 <= a) by apply Z.log2_nonneg.
    assert (Hb : 0 <= b) by apply Z.log2_nonneg.
    destruct (log2_bounds n) as [Ln _]. destruct (log2_bounds d) as [_ Ud].
    fold a in Ln. fold b in Ud.
    rewrite <- (pow2_Z a Ha) in Ln. rewrite <- (pow2_Z b Hb) in Ud.
    assert (Ee : (JsNumber.pow2 a == JsNumber.pow2 e * JsNumber.pow2 b * JsNumber.pow2 53)%Q).
    { rewrite <- !pow2_add. replace (e + b + 53) with a by (subst e; lia). reflexivity. }
    change (JsNumber.pow2 53) with (2 * JsNumber.pow2 52)%Q in Ee.
    pose proof (pow2_pos b) as Pb. pose proof (pow2_pos 52) as P52.
    assert (Hq : (Zpos n # d == inject_Z (Zpos n) / inject_Z (Zpos d))%Q).
    { rewrite Qmake_Qdiv. reflexivity. }
    rewrite Hq.
    assert (Pd : (0 < inject_Z (Zpos d))%Q) by reflexivity.
    apply Qle_shift_div_l; [ exact Pd | ].
    (* pow2 52 * pow2 e * d <= n *)
    assert (K : (JsNumber.pow2 52 * JsNumber.pow2 e * inject_Z (Zpos d)
                 <= JsNumber.pow2 52 * JsNumber.pow2 e * (2 * JsNumber.pow2 b))%Q).
    { apply Qmult_le_l; [ | lra ].
      apply Qmult_lt_0_compat; assumption. }
    assert (K2 : (JsNumber.pow2 52 * JsNumber.pow2 e * (2 * JsNumber.pow2 b) == JsNumber.pow2 a)%Q).
    { rewrite Ee. ring. }
    rewrite K2 in K. lra.
Qed.

Lemma double_pos_error x :
  (0 < x)%Q ->
  (Qabs (JsNumber.double_pos x - x) <= x * (1 # 9007199254740992))%Q.
Proof.
  intros Hx. unfold JsNumber.double_pos.
  set (e := JsNumber.ulp_exponent x).
  pose proof (ulp_exponent_lower x Hx) as L. fold e in L.
  pose proof (pow2_pos e) as Pe.
  set (y := (x / JsNumber.pow2 e)%Q).
  pose proof (nearest_even_error y) as N.
  set (m := inject_Z (JsNumber.nearest_even y)) in *.
  assert (Ex : (x == y * JsNumber.pow2 e)%Q).
  { subst y. field. intros K. rewrite K in Pe. discriminate. }
  assert (E : (m * JsNumber.pow2 e - x == (m - y) * JsNumber.pow2 e)%Q).
  { rewrite Ex at 1. ring. }
  rewrite E, Qabs_Qmult.
  rewrite (Qabs_pos (JsNumber.pow2 e)) by lra.
  change (JsNumber.pow2 52) with (4503599627370496%Q) in L.
  assert (M : (Qabs (m - y) * JsNumber.pow2 e <= (1 # 2) * JsNumber.pow2 e)%Q).
  { apply Qmult_le_compat_r; [ exact N | lra ]. }
  lra.
Qed.

Lemma double_error x :
  (Qabs (JsNumber.double x - x) <= Qabs x * (1 # 9007199254740992))%Q.
Proof.
  unfold JsNumber.double. destruct x as [n d]. cbn [Qnum].
  destruct n as [ | n | n ].
  - assert (E : (0 - (0 # d) == 0)%Q) by reflexivity.
    rewrite E. apply Qmult_le_0_compat; [ apply Qabs_nonneg | discriminate ].
  - assert (Hx : (0 < Zpos n # d)%Q) by reflexivity.
    rewrite (Qabs_pos (Zpos n # d)) by lra.
    apply double_pos_error. exact Hx.
  - assert (Hx : (0 < - (Zneg n # d))%Q) by reflexivity.
    pose proof (double_pos_error _ Hx) as H.
    rewrite (Qabs_neg (Zneg n # d)) by lra.
    assert (E : (- JsNumber.double_pos (- (Z.neg n # d)) - (Z.neg n # d)
                 == - (JsNumber.double_pos (- (Z.neg n # d)) - - (Z.neg n # d)))%Q) by ring.
    rewrite E, Qabs_opp. exact H.
Qed.

(** exact integers *)
Lemma nearest_even_Z (y : Q) (k : Z) :
  (y == inject_Z k)%Q -> JsNumber.nearest_even y = k.
Proof.
  intros E. unfold JsNumber.nearest_even.
  rewrite (Qfloor_comp _ _ E), Qfloor_Z.
  assert (C : ((y - inject_Z k ?= 1 # 2) = Lt)%Q).
  { apply Qlt_alt. rewrite E. unfold Qminus. rewrite Qplus_opp_r. reflexivity. }
  rewrite C. reflexivity.
Qed.

Lemma ulp_exponent_range x :
  let e := Z.log2 (Qnum x) - Z.log2 (Zpos (Qden x)) - 53 in
  JsNumber.ulp_exponent x = e \/ JsNumber.ulp_exponent x = e + 1.
Proof.
  unfold JsNumber.ulp_exponent.
  destruct (Qle_bool _ _); auto.
Qed.

Lemma double_pos_integer (n : positive) :
  Zpos n < 2 ^ 53 ->
  (JsNumber.double_pos (inject_Z (Zpos n)) == inject_Z (Zpos n))%Q.
Proof.
  intros Hn. unfold JsNumber.double_pos.
  set (e := JsNumber.ulp_exponent (inject_Z (Zpos n))).
  assert (He : e <= 0).
  { assert (Z.log2 (Zpos n) < 53) by (apply Z.log2_lt_pow2; lia).
    destruct (ulp_exponent_range (inject_Z (Zpos n))) as [ E | E ];
      fold e in E; rewrite E; cbn [Qnum Qden inject_Z];
      change (Z.log2 1) with 0; lia. }
  pose proof (pow2_pos e) as Pe. pose proof (pow2_pos (- e)) as Pme.
  assert (Em : (JsNumber.pow2 (- e) * JsNumber.pow2 e == 1)%Q).
  { rewrite <- pow2_add. replace (- e + e) with 0 by lia. reflexivity. }
  assert (Ey : (inject_Z (Zpos n) / JsNumber.pow2 e
                == inject_Z (Zpos n * 2 ^ (- e)))%Q).
  { rewrite inject_Z_mult, <- (pow2_Z (- e)) by lia.
    apply Qmult_inj_r with (z := JsNumber.pow2 e); [ lra | ].
    rewrite <- Qmult_assoc, Em.
    field. lra. }
  rewrite (nearest_even_Z _ _ Ey).
  rewrite inject_Z_mult, <- (pow2_Z (- e)) by lia.
  rewrite <- Qmult_assoc, Em. ring.
Qed.

Lemma double_integer (n : Z) :
  Z.abs n < 2 ^ 53 -> (JsNumber.double (inject_Z n) == inject_Z n)%Q.
Proof.
  intros Hn. unfold JsNumber.double. cbn [Qnum inject_Z].
  destruct n as [ | n | n ].
  - reflexivity.
  - apply (double_pos_integer n). exact Hn.
  - change (- (Z.neg n # 1))%Q with (inject_Z (Zpos n)).
    rewrite (double_pos_integer n) by exact Hn. reflexivity.
Qed.

Lemma plus_exact (a b : Z) :
  Z.abs (a + b) < 2 ^ 53 -> JsNumber.plus a b = a + b.
Proof.
  intros H. unfold JsNumber.plus.
  rewrite (Qfloor_comp _ _ (double_integer _ H)). apply Qfloor_Z.
Qed.

(** A sum that lands in an INTEGER column was exact. *)
Lemma double_lower x :
  (Qabs x * (9007199254740991 # 9007199254740992) <= Qabs (JsNumber.double x))%Q.
Proof.
  pose proof (double_error x) as H.
  pose proof (Qabs_triangle_reverse x (x - JsNumber.double x)) as T.
  assert (E : (x - (x - JsNumber.double x) == JsNumber.double x)%Q) by ring.
  rewrite E in T. clear E.
  rewrite (Qabs_Qminus x (JsNumber.double x)) in T.
  lra.
Qed.

Lemma plus_small (a b : Z) :
  Z.abs (JsNumber.plus a b) < 2 ^ 52 -> JsNumber.plus a b = a + b.
Proof.
  intros H. apply plus_exact.
  unfold JsNumber.plus in H.
  set (x := inject_Z (a + b)) in *.
  pose proof (double_lower x) as L.
  pose proof (Qfloor_le (JsNumber.double x)) as F1.
  pose proof (Qlt_floor (JsNumber.double x)) as F2.
  rewrite inject_Z_plus in F2. change (inject_Z 1) with 1%Q in F2.
  set (f := Qfloor (JsNumber.double x)) in *.
  assert (Hf : (inject_Z (- 2 ^ 52 + 1) <= inject_Z f
                <= inject_Z (2 ^ 52 - 1))%Q).
  { rewrite <- !Zle_Qle. lia. }
  change (inject_Z (- 2 ^ 52 + 1)) with (- 4503599627370495)%Q in Hf.
  change (inject_Z (2 ^ 52 - 1)) with 4503599627370495%Q in Hf.
  assert (D : (Qabs (JsNumber.double x) <= 4503599627370496)%Q).
  { apply Qabs_Qle_condition. lra. }
  assert (X : (Qabs x < inject_Z (2 ^ 53))%Q).
  { change (inject_Z (2 ^ 53)) with 9007199254740992%Q. lra. }
  subst x. rewrite <- (inject_Z_abs) in X || idtac.
  revert X. unfold Qabs, inject_Z, Qlt. simpl. lia.
Qed.

Lemma toFixed2_error x :
  (Qabs (inject_Z (JsNumber.toFixed2 x) - x * 100) <= 1 # 2)%Q.
Proof.
  unfold JsNumber.toFixed2. apply Qabs_Qle_condition.
  destruct (Qle_bool 0 x).
  - pose proof (Qfloor_le (x * 100 + (1 # 2))) as L.
    pose proof (Qlt_floor (x * 100 + (1 # 2))) as U.
    rewrite inject_Z_plus in U. change (inject_Z 1) with 1%Q in U. lra.
  - pose proof (Qfloor_le (- x * 100 + (1 # 2))) as L.
    pose proof (Qlt_floor (- x * 100 + (1 # 2))) as U.
    rewrite inject_Z_plus in U. change (inject_Z 1) with 1%Q in U.
    rewrite inject_Z_opp. lra.
Qed.

Lemma Qabs_bounds x y : (Qabs x <= y)%Q -> (- y <= x /\ x <= y)%Q.
Proof. intros H. apply Qabs_Qle_condition in H. exact H. Qed.

(** The rate the updater stores: [(part / whole) * 100] in doubles, then
    [toFixed(2)]. *)
Lemma toFixed2_rate (q : Q) :
  hundredths_of
    (JsNumber.toFixed2 (JsNumber.mul (JsNumber.double q) 100))
    (q * 100).
Proof.
  unfold hundredths_of, JsNumber.mul.
  set (x1 := JsNumber.double q).
  set (x2 := JsNumber.double (x1 * 100)).
  pose proof (double_error q) as E1. fold x1 in E1.
  pose proof (double_error (x1 * 100)) as E2. fold x2 in E2.
  pose proof (toFixed2_error x2) as E3.
  set (h := inject_Z (JsNumber.toFixed2 x2)) in *.
  rewrite Qabs_Qmult in E2 |- *.
  change (Qabs 100) with 100%Q in E2 |- *.
  pose proof (Qabs_nonneg q) as Nq. pose proof (Qabs_nonneg x1) as N1.
  assert (B1 : (Qabs x1 <= Qabs q + Qabs q * (1 # 9007199254740992))%Q).
  { pose proof (Qabs_triangle_reverse x1 q) as T. lra. }
  apply Qabs_bounds in E1, E2, E3.
  apply Qabs_Qle_condition.
  assert (Hd : (h / 100 == h * (1 # 100))%Q) by (unfold Qdiv; reflexivity).
  rewrite Hd. lra.
Qed.

Lemma of_decimal_error (h : Z) :
  Z.abs h < 100000 ->
  (Qabs (inject_Z h / 100) <= 1000)%Q
  /\ (Qabs (JsNumber.of_decimal h - inject_Z h / 100)
      <= 1000 * (1 # 9007199254740992))%Q.
Proof.
  intros H.
  assert (B : (Qabs (inject_Z h / 100) <= 1000)%Q).
  { apply Qabs_Qle_condition.
    assert (Hq : (inject_Z (- 100000) <= inject_Z h <= inject_Z 100000)%Q).
    { rewrite <- !Zle_Qle. lia. }
    change (inject_Z (- 100000)) with (- 100000)%Q in Hq.
    change (inject_Z 100000) with 100000%Q in Hq.
    assert (Hd : (inject_Z h / 100 == inject_Z h * (1 # 100))%Q)
      by (unfold Qdiv; reflexivity).
    rewrite Hd. lra. }
  split; [ exact B | ].
  unfold JsNumber.of_decimal.
  pose proof (double_error (inject_Z h / 100)) as E. lra.
Qed.

(** The running sum of the [reduce], against the exact sum: the error
    grows by at most [2^-22] a row, for up to [2^20] rows. *)
Lemma sum_of_decimals_error (hs : list Z) : forall (k : nat) (acc A : Q),
  Forall (fun h => Z.abs h < 100000) hs ->
  Z.of_nat (k + List.length hs) <= 1048576 ->
  (Qabs (acc - A) <= inject_Z (Z.of_nat k) * (1 # 4194304))%Q ->
  (Qabs A <= inject_Z (Z.of_nat k) * 1000)%Q ->
  (Qabs (fold_left (fun sum h => JsNumber.add sum (JsNumber.of_decimal h))
           hs acc
         - (A + inject_Z (sum_Z hs) / 100))
   <= inject_Z (Z.of_nat (k + List.length hs)) * (1 # 4194304))%Q
  /\ (Qabs (A + inject_Z (sum_Z hs) / 100)
      <= inject_Z (Z.of_nat (k + List.length hs)) * 1000)%Q.
Proof.
  induction hs as [ | h hs IH ]; intros k acc A Hall Hk Hacc HA.
  - cbn [fold_left List.length sum_Z fold_right].
    rewrite Nat.add_0_r.
    assert (E : (A + inject_Z 0 / 100 == A)%Q).
    { unfold Qdiv. change (inject_Z 0) with 0%Q. ring. }
    rewrite !E. split; assumption.
  - inversion Hall as [ | ? ? Hh Hall' ]; subst.
    cbn [fold_left List.length] in *.
    change (sum_Z (h :: hs)) with (h + sum_Z hs).
    destruct (of_decimal_error h Hh) as [Bh Eh].
    set (v := JsNumber.of_decimal h) in *.
    set (hq := (inject_Z h / 100)%Q) in *.
    unfold JsNumber.add at 1.
    pose proof (double_error (acc + v)) as Et.
    set (acc' := JsNumber.double (acc + v)) in *.
    set (K := inject_Z (Z.of_nat k)) in *.
    assert (HK : (0 <= K <= 1048575)%Q).
    { subst K. change 0%Q with (inject_Z 0).
      change 1048575%Q with (inject_Z 1048575). rewrite <- !Zle_Qle. lia. }
    assert (HK1 : (inject_Z (Z.of_nat (S k)) == K + 1)%Q).
    { rewrite Nat2Z.inj_succ. unfold Z.succ. rewrite inject_Z_plus.
      reflexivity. }
    apply Qabs_bounds in Hacc, HA, Bh, Eh.
    assert (Bt : (Qabs (acc + v) <= 1073741824)%Q).
    { apply Qabs_Qle_condition. lra. }
    pose proof (Qabs_nonneg (acc + v)) as Nt.
    apply Qabs_bounds in Et.
    assert (Hacc' : (Qabs (acc' - (A + hq))
                     <= inject_Z (Z.of_nat (S k)) * (1 # 4194304))%Q).
    { rewrite HK1. apply Qabs_Qle_condition. lra. }
    assert (HA' : (Qabs (A + hq) <= inject_Z (Z.of_nat (S k)) * 1000)%Q).
    { rewrite HK1. apply Qabs_Qle_condition. lra. }
    assert (Hk' : Z.of_nat (S k + List.length hs) <= 1048576) by lia.
    destruct (IH (S k) acc' (A + hq)%Q Hall' Hk' Hacc' HA') as [I1 I2].
    assert (Es : (A + inject_Z (h + sum_Z hs) / 100
                  == A + hq + inject_Z (sum_Z hs) / 100)%Q).
    { subst hq. rewrite inject_Z_plus. unfold Qdiv. ring. }
    replace (k + S (List.length hs))%nat with (S k + List.length hs)%nat
      by lia.
    rewrite !Es. split; assumption.
Qed.

Lemma Qabs_div_le (a b n d : Q) :
  (0 < n)%Q -> (Qabs (a - b) <= n * d)%Q -> (Qabs (a / n - b / n) <= d)%Q.
Proof.
  intros Hn H.
  assert (E : (a / n - b / n == (a - b) * / n)%Q) by (field; lra).
  rewrite E, Qabs_Qmult.
  assert (Pn : (0 < / n)%Q) by (apply Qinv_lt_0_compat; exact Hn).
  rewrite (Qabs_pos (/ n)) by lra.
  apply Qle_shift_div_r; [ exact Hn | ].
  rewrite (Qmult_comm d n). exact H.
Qed.

(** The mean the overview reports, against the exact mean. *)
Lemma toFixed2_mean_error (hs : list Z) :
  hs <> [] ->
  Z.of_nat (List.length hs) <= 1048576 ->
  Forall (fun h => Z.abs h < 100000) hs ->
  (Qabs
     (inject_Z
        (JsNumber.toFixed2
           (JsNumber.div
              (fold_left
                 (fun sum h => JsNumber.add sum (JsNumber.of_decimal h)) hs 0)
              (inject_Z (Z.of_nat (List.length hs)))))
      / 100
      - inject_Z (sum_Z hs) / 100 / inject_Z (Z.of_nat (List.length hs)))
   <= (1 # 200) + (1 # 1000000))%Q.
Proof.
  intros Hne Hlen Hall.
  set (n := inject_Z (Z.of_nat (List.length hs))).
  assert (Hn : (1 <= n)%Q).
  { subst n. change 1%Q with (inject_Z 1). rewrite <- Zle_Qle.
    destruct hs; [ congruence | simpl; lia ]. }
  destruct (sum_of_decimals_error hs 0 0 0 Hall Hlen) as [E1 E2].
  { vm_compute. discriminate. }
  { vm_compute. discriminate. }
  cbn [Nat.add] in E1, E2. fold n in E1, E2.
  set (s := fold_left _ hs 0%Q) in *.
  set (S := (inject_Z (sum_Z hs) / 100)%Q) in *.
  assert (E0 : (0 + S == S)%Q) by ring.
  rewrite E0 in E1, E2. clear E0.
  assert (D1 : (Qabs (s / n - S / n) <= 1 # 4194304)%Q).
  { apply Qabs_div_le; [ lra | exact E1 ]. }
  assert (D2 : (Qabs (S / n) <= 1000)%Q).
  { assert (E : (S / n == S / n - 0 / n)%Q) by (field; lra).
    rewrite E. apply Qabs_div_le; [ lra | ].
    assert (E' : (S - 0 == S)%Q) by ring. rewrite E'. exact E2. }
  unfold JsNumber.div.
  pose proof (double_error (s / n)) as Em.
  set (m := JsNumber.double (s / n)) in *.
  pose proof (toFixed2_error m) as Eh.
  set (h := inject_Z (JsNumber.toFixed2 m)) in *.
  pose proof (Qabs_nonneg (s / n)) as Ny.
  assert (By : (Qabs (s / n) <= 1001)%Q).
  { apply Qabs_bounds in D1, D2. apply Qabs_Qle_condition. lra. }
  apply Qabs_bounds in D1, D2, Em, Eh.
  apply Qabs_Qle_condition.
  assert (Hd : (h / 100 == h * (1 # 100))%Q) by (unfold Qdiv; reflexivity).
  rewrite Hd. lra.
Qed.

(** ** Rounding *)

(** [percent_round2] is the nearest hundredth, the upper one on a tie. *)
Lemma percent_round2_half_up (n d : Z) :
  0 < d ->
  2 * d * percent_round2 n d <= 2 * (10000 * n) + d
    < 2 * d * (percent_round2 n d + 1).
Proof.
  intros Hd. unfold percent_round2.
  pose proof (Z.div_mod (2 * (10000 * n) + d) (2 * d)) as E.
  pose proof (Z.mod_pos_bound (2 * (10000 * n) + d) (2 * d)) as B.
  lia.
Qed.

(* ------------------------------------------------------------------ *)
(** ** The table operations and the natural key *)

Lemma key_eqb_spread t p pl d r u :
  key_eqb t p pl d (spread r u) = key_eqb t p pl d r.
Proof. reflexivity. Qed.

Lemma filter_map_stable {A} (P : A -> bool) (f : A -> A) (l : list A) :
  (forall x, P (f x) = P x) ->
  filter P (map f l) = map f (filter P l).
Proof.
  intros Hf. induction l as [ | x l IH ]; simpl; [ reflexivity | ].
  rewrite Hf. destruct (P x); simpl; rewrite IH; reflexivity.
Qed.

Lemma filter_update_eq_id t p pl d rows u i :
  filter (key_eqb t p pl d) (update_eq_id rows u i)
  = update_eq_id (filter (key_eqb t p pl d) rows) u i.
Proof.
  unfold update_eq_id. destruct (accepts u); [ | reflexivity ].
  apply filter_map_stable.
  intros r. destruct (Nat.eqb (id r) i); [ apply key_eqb_spread | reflexivity ].
Qed.

Lemma length_update_eq_id rows u i :
  List.length (update_eq_id rows u i) = List.length rows.
Proof.
  unfold update_eq_id. destruct (accepts u); [ apply length_map | reflexivity ].
Qed.

Lemma existsb_filter_nil {A} (P : A -> bool) (l : list A) :
  filter P l = [] -> existsb P l = false.
Proof.
  induction l as [ | x l IH ]; simpl; [ reflexivity | ].
  destruct (P x); [ discriminate | exact IH ].
Qed.

Lemma existsb_filter_cons {A} (P : A -> bool) (l : list A) x xs :
  filter P l = x :: xs -> existsb P l = true.
Proof.
  induction l as [ | y l IH ]; simpl; [ discriminate | ].
  destruct (P y); [ reflexivity | exact IH ].
Qed.

Lemma key_eqb_refl_new t p pl d i c v1 v2 v3 v4 v5 v6 e1 e2 u1 u2 :
  key_eqb t p pl d
    {| id := i; tenant_id := t; content_item_id := c;
       scheduled_post_id := Some p; platform := pl;
       views := v1; likes := v2; comments := v3; shares := v4;
       clicks := v5; impressions := v6; engagement_rate := e1;
       click_through_rate := e2; unique_viewers := u1; reach := u2;
       date := d |} = true.
Proof.
  unfold key_eqb; simpl. rewrite !String.eqb_refl. reflexivity.
Qed.

(** What [insert] leaves under the natural key it was given. *)
Lemma rows_of_key_insert rows t c p pl d u :
  rows_of_key rows t p pl d = [] ->
  exists r,
    rows_of_key (insert_post_analytics rows t c p pl d u) t p pl d = [r]
    /\ views r = or_else (u_views u) 0
    /\ likes r = or_else (u_likes u) 0
    /\ comments r = or_else (u_comments u) 0
    /\ shares r = or_else (u_shares u) 0
    /\ clicks r = or_else (u_clicks u) 0
    /\ impressions r = or_else (u_impressions u) 0
    /\ engagement_rate r = 0 /\ click_through_rate r = 0
    /\ date r = d.
Proof.
  unfold rows_of_key, insert_post_analytics. intros H.
  rewrite (existsb_filter_nil _ _ H).
  rewrite filter_app, H. simpl. rewrite key_eqb_refl_new.
  eexists. split; [ reflexivity | ]. simpl. repeat split; reflexivity.
Qed.

Lemma rows_of_key_insert_present rows t c p pl d u x xs :
  rows_of_key rows t p pl d = x :: xs ->
  insert_post_analytics rows t c p pl d u = rows.
Proof.
  unfold rows_of_key, insert_post_analytics. intros H.
  rewrite (existsb_filter_cons _ _ _ _ H). reflexivity.
Qed.

(** What [update ... eq id] leaves under a natural key held by one row:
    the row with the update over it when the store takes the update, the
    row as it was when the store refuses. *)
Lemma rows_of_key_update rows t p pl d r u :
  rows_of_key rows t p pl d = [r] ->
  rows_of_key (update_eq_id rows u (id r)) t p pl d
  = [ if accepts u then spread r u else r ].
Proof.
  unfold rows_of_key. intros H. rewrite filter_update_eq_id, H.
  unfold update_eq_id. destruct (accepts u); [ | reflexivity ].
  simpl. rewrite Nat.eqb_refl. reflexivity.
Qed.

Lemma update_eq_id_refused rows u i :
  accepts u = false -> update_eq_id rows u i = rows.
Proof. unfold update_eq_id. intros ->. reflexivity. Qed.

(** [updatePostAnalytics] by cases on what the natural key held. *)
Lemma read_existing_rows db d t p pl :
  AnalyticsRoute.read_existing db d t p pl
  = single (rows_of_key (post_analytics db) t p pl d).
Proof. reflexivity. Qed.

Lemma or0_Some (n : Z) : JsNumber.or0 (Some n) = n.
Proof.
  unfold JsNumber.or0. destruct (Z.eqb_spec n 0); congruence.
Qed.

Lemma EventType_eqb_eq a b : EventType_eqb a b = true <-> a = b.
Proof. destruct a, b; simpl; split; congruence. Qed.

(** The increment written over a row: one counter moves, to its sum with
    the value. *)
Lemma counter_spread_increment r et v et' :
  counter et' (spread r (AnalyticsRoute.increment (Some r) et v))
  = if EventType_eqb et et' then JsNumber.plus (counter et' r) v
    else counter et' r.
Proof.
  destruct et, et';
    cbn [AnalyticsRoute.increment spread counter EventType_eqb option_map
         or_else u_views u_likes u_comments u_shares u_clicks u_impressions
         views likes comments shares clicks impressions];
    rewrite ?or0_Some; reflexivity.
Qed.

Lemma counter_with_rates r u er ctr et' :
  counter et' (spread r (AnalyticsRoute.with_rates u er ctr))
  = counter et' (spread r u).
Proof. destruct et'; reflexivity. Qed.

Lemma counter_updates_for r et v et' :
  counter et' (spread r (updates_for r et v))
  = if EventType_eqb et et' then JsNumber.plus (counter et' r) v
    else counter et' r.
Proof.
  unfold updates_for, AnalyticsRoute.with_recomputed_rates. cbv zeta.
  rewrite counter_with_rates. apply counter_spread_increment.
Qed.

(** The store takes an update only with its counter within INTEGER, and
    the sum that gave such a counter was exact. *)
Lemma fits_integer_small n : fits_integer n = true -> Z.abs n < 2 ^ 31 + 1.
Proof.
  unfold fits_integer. intros H. apply andb_true_iff in H.
  destruct H as [L U]. apply Z.leb_le in L, U. lia.
Qed.

Lemma accepts_counter r et v :
  accepts (updates_for r et v) = true ->
  fits_integer (JsNumber.plus (counter et r) v) = true.
Proof.
  unfold accepts, updates_for, AnalyticsRoute.with_recomputed_rates.
  cbv zeta. intros H.
  rewrite !andb_true_iff in H. decompose [and] H.
  destruct et;
    cbn [AnalyticsRoute.with_rates AnalyticsRoute.increment option_map
         u_views u_likes u_comments u_shares u_clicks u_impressions fits
         counter] in *;
    rewrite ?or0_Some in *; assumption.
Qed.

Lemma plus_accepted r et v :
  accepts (updates_for r et v) = true ->
  JsNumber.plus (counter et r) v = counter et r + v.
Proof.
  intros H. apply plus_small.
  pose proof (fits_integer_small _ (accepts_counter r et v H)). lia.
Qed.

(** The update branch: the natural key held one row. *)
Lemma updatePostAnalytics_existing db d t p pl et v r :
  rows_of_key (post_analytics db) t p pl d = [r] ->
  post_analytics (AnalyticsRoute.updatePostAnalytics db d t p pl et v)
  = update_eq_id (post_analytics db) (updates_for r et v) (id r).
Proof.
  intros H. unfold AnalyticsRoute.updatePostAnalytics.
  rewrite read_existing_rows, H. reflexivity.
Qed.

Lemma updatePostAnalytics_existing_row db d t p pl et v r :
  rows_of_key (post_analytics db) t p pl d = [r] ->
  rows_of_key
    (post_analytics (AnalyticsRoute.updatePostAnalytics db d t p pl et v))
    t p pl d
  = [ if accepts (updates_for r et v) then spread r (updates_for r et v)
      else r ].
Proof.
  intros H. rewrite (updatePostAnalytics_existing _ _ _ _ _ _ _ _ H).
  apply rows_of_key_update. exact H.
Qed.

(** The insert branch: the natural key held no row. *)
Lemma updatePostAnalytics_new db d t p pl et v :
  rows_of_key (post_analytics db) t p pl d = [] ->
  exists r',
    rows_of_key
      (post_analytics (AnalyticsRoute.updatePostAnalytics db d t p pl et v))
      t p pl d = [r']
    /\ (forall et', counter et' r'
                    = if EventType_eqb et et' then JsNumber.plus 0 v else 0)
    /\ engagement_rate r' = 0 /\ click_through_rate r' = 0
    /\ date r' = d.
Proof.
  intros H. unfold AnalyticsRoute.updatePostAnalytics.
  rewrite read_existing_rows, H. simpl single.
  unfold AnalyticsRoute.write_back. cbv zeta. simpl post_analytics.
  match goal with
  | |- context [ insert_post_analytics ?rows ?t ?c ?p ?pl ?d ?u ] =>
      destruct (rows_of_key_insert rows t c p pl d u H)
        as (r' & Hr & Hv & Hl & Hc & Hs & Hk & Hi & He & Hx & Hd)
  end.
  exists r'. split; [ exact Hr | ].
  split.
  { intros et'. destruct et, et'; cbn [counter EventType_eqb];
      rewrite ?Hv, ?Hl, ?Hc, ?Hs, ?Hk, ?Hi; reflexivity. }
  auto.
Qed.

(** With two rows or more under the key (which the UNIQUE constraint
    excludes) nothing is written. *)
Lemma updatePostAnalytics_duplicates db d t p pl et v r1 r2 rs :
  rows_of_key (post_analytics db) t p pl d = r1 :: r2 :: rs ->
  post_analytics (AnalyticsRoute.updatePostAnalytics db d t p pl et v)
  = post_analytics db.
Proof.
  intros H. unfold AnalyticsRoute.updatePostAnalytics.
  rewrite read_existing_rows, H. simpl single.
  unfold AnalyticsRoute.write_back. cbv zeta. simpl post_analytics.
  eapply rows_of_key_insert_present. exact H.
Qed.

Lemma rows_of_key_In rows t p pl d r :
  In r (rows_of_key rows t p pl d) -> In r rows.
Proof. unfold rows_of_key. intros H. apply filter_In in H. tauto. Qed.

Lemma rows_of_key_date rows t p pl d r :
  In r (rows_of_key rows t p pl d) -> date r = d.
Proof.
  unfold rows_of_key. intros H. apply filter_In in H.
  destruct H as (_ & H). unfold key_eqb in H.
  apply andb_true_iff in H. destruct H as (_ & H).
  apply String.eqb_eq. exact H.
Qed.

(** One call, whatever the key held: afterwards the key has exactly one
    row, of the date of the call. *)
Lemma updatePostAnalytics_row db d t p pl et v :
  at_most_one_row db d t p pl ->
  exists r',
    rows_of_key
      (post_analytics (AnalyticsRoute.updatePostAnalytics db d t p pl et v))
      t p pl d = [r']
    /\ date r' = d.
Proof.
  unfold at_most_one_row. intros Hu.
  destruct (rows_of_key (post_analytics db) t p pl d)
    as [ | r [ | r2 rs ] ] eqn:K.
  - destruct (updatePostAnalytics_new db d t p pl et v K)
      as (r' & Hr & _ & _ & _ & Hd).
    exists r'. split; assumption.
  - rewrite (updatePostAnalytics_existing_row _ _ _ _ _ et v _ K).
    eexists. split; [ reflexivity | ].
    assert (Hd : date r = d).
    { apply (rows_of_key_date (post_analytics db) t p pl d).
      rewrite K. left. reflexivity. }
    destruct (accepts _); exact Hd.
  - simpl in Hu. lia.
Qed.

(** One call whose write the store takes: each counter moved by the value
    when it is the event's counter and not at all otherwise. *)
Lemma updatePostAnalytics_step db d t p pl et v :
  at_most_one_row db d t p pl ->
  accepted db d t p pl et v = true ->
  exists r',
    rows_of_key
      (post_analytics (AnalyticsRoute.updatePostAnalytics db d t p pl et v))
      t p pl d = [r']
    /\ date r' = d
    /\ forall et',
         counter et' r'
         = stored_counter db d t p pl et'
           + (if EventType_eqb et et' then v else 0).
Proof.
  unfold at_most_one_row, stored_counter, accepted. intros Hu.
  rewrite read_existing_rows.
  destruct (rows_of_key (post_analytics db) t p pl d)
    as [ | r [ | r2 rs ] ] eqn:K; cbn [single].
  - intros Hv.
    destruct (updatePostAnalytics_new db d t p pl et v K)
      as (r' & Hr & Hc & _ & _ & Hd).
    exists r'. split; [ exact Hr | ]. split; [ exact Hd | ].
    intros et'. rewrite Hc.
    rewrite plus_exact by (pose proof (fits_integer_small _ Hv); lia).
    reflexivity.
  - intros Ha.
    rewrite (updatePostAnalytics_existing_row _ _ _ _ _ et v _ K), Ha.
    eexists. split; [ reflexivity | ].
    split.
    { change (date r = d).
      apply (rows_of_key_date (post_analytics db) t p pl d).
      rewrite K. left. reflexivity. }
    intros et'. rewrite counter_updates_for.
    destruct (EventType_eqb et et') eqn:E; [ | lia ].
    apply EventType_eqb_eq in E. subst et'.
    apply plus_accepted. exact Ha.
  - simpl in Hu. lia.
Qed.

(** One call whose write the store refuses: the table is as it was. *)
Lemma updatePostAnalytics_refused db d t p pl et v r :
  AnalyticsRoute.read_existing db d t p pl = Some r ->
  accepted db d t p pl et v = false ->
  post_analytics (AnalyticsRoute.updatePostAnalytics db d t p pl et v)
  = post_analytics db.
Proof.
  unfold accepted. intros Hr. rewrite Hr. intros Ha.
  unfold AnalyticsRoute.updatePostAnalytics, AnalyticsRoute.write_back.
  rewrite Hr. cbv zeta. cbn [post_analytics with_post_analytics].
  apply update_eq_id_refused. exact Ha.
Qed.

Lemma stored_counter_rows db d t p pl r et :
  rows_of_key (post_analytics db) t p pl d = [r] ->
  stored_counter db d t p pl et = counter et r.
Proof.
  intros H. unfold stored_counter. rewrite read_existing_rows, H. reflexivity.
Qed.

(* ------------------------------------------------------------------ *)
(** ** Derived rates *)

Lemma columns_counters r :
  columns r = true -> forall et, fits_integer (counter et r) = true.
Proof.
  unfold columns. intros H.
  rewrite !andb_true_iff in H. decompose [and] H.
  intros et. destruct et; assumption.
Qed.

(** The counters the store has taken from an update of a row that held
    values of its columns are within INTEGER, all six. *)
Lemma counters_after_update r et v :
  columns r = true ->
  accepts (updates_for r et v) = true ->
  forall et',
    counter et' (spread r (updates_for r et v))
    = counter et' r + (if EventType_eqb et et' then v else 0)
    /\ Z.abs (counter et' (spread r (updates_for r et v))) < 2 ^ 31 + 1.
Proof.
  intros Hc Ha et'. rewrite counter_updates_for.
  destruct (EventType_eqb et et') eqn:E.
  - apply EventType_eqb_eq in E. subst et'.
    split; [ apply plus_accepted; exact Ha | ].
    apply fits_integer_small. apply accepts_counter. exact Ha.
  - split; [ lia | ].
    apply fits_integer_small. apply columns_counters. exact Hc.
Qed.

(** The two rates the updater writes, from the counters it writes them
    with. *)
Lemma rates_of_updates_for r et v :
  let r' := spread r (updates_for r et v) in
  engagement_rate r'
  = JsNumber.toFixed2
      (if 0 <? impressions r'
       then JsNumber.mul
              (JsNumber.div
                 (inject_Z
                    (JsNumber.plus (JsNumber.plus (likes r') (comments r'))
                       (shares r')))
                 (inject_Z (impressions r')))
              100
       else 0%Q)
  /\ click_through_rate r'
     = JsNumber.toFixed2
         (if 0 <? impressions r'
          then JsNumber.mul
                 (JsNumber.div (inject_Z (clicks r'))
                    (inject_Z (impressions r')))
                 100
          else 0%Q).
Proof. split; reflexivity. Qed.

(** C1 (as amended).  After an update, the row of the natural key carries
    rates that go with its counters as they are after the increment: when
    the key had its row and the store takes the write, the counter of the
    event has moved by the value, and with impressions above 0 each rate is
    its exact percentage, [100 * (likes + comments + shares) / impressions]
    and [100 * clicks / impressions], rounded to a nearest hundredth up to
    the rounding of doubles, and with no impressions both rates are exactly
    0; when the store refuses the write, the table is as it was.  When the
    event creates the row, both rates are 0, which is their exact value:
    the row has no impressions, or no engagement and no clicks.  The table
    obeys its UNIQUE constraint and its rows hold values of their
    columns. *)
Theorem updatePostAnalytics_rates
  (db : Database) (today tenantId scheduledPostId platform_ : string)
  (eventType : EventType) (eventValue : Z) :
  at_most_one_row db today tenantId scheduledPostId platform_ ->
  columns_hold db ->
  (forall r,
     AnalyticsRoute.read_existing db today tenantId scheduledPostId platform_
     = Some r ->
     accepted db today tenantId scheduledPostId platform_ eventType
       eventValue = true ->
     exists r',
       AnalyticsRoute.read_existing
         (AnalyticsRoute.updatePostAnalytics db today tenantId
            scheduledPostId platform_ eventType eventValue)
         today tenantId scheduledPostId platform_ = Some r'
       /\ (forall et,
             counter et r'
             = counter et r
               + (if EventType_eqb eventType et then eventValue else 0))
       /\ (0 < impressions r' ->
           hundredths_of (engagement_rate r')
             (percentage (likes r' + comments r' + shares r')
                (impressions r'))
           /\ hundredths_of (click_through_rate r')
                (percentage (clicks r') (impressions r')))
       /\ (impressions r' <= 0 ->
           engagement_rate r' = 0 /\ click_through_rate r' = 0))
  /\ (forall r,
        AnalyticsRoute.read_existing db today tenantId scheduledPostId
          platform_ = Some r ->
        accepted db today tenantId scheduledPostId platform_ eventType
          eventValue = false ->
        post_analytics
          (AnalyticsRoute.updatePostAnalytics db today tenantId
             scheduledPostId platform_ eventType eventValue)
        = post_analytics db)
  /\ (AnalyticsRoute.read_existing db today tenantId scheduledPostId
        platform_ = None ->
      exists r',
        AnalyticsRoute.read_existing
          (AnalyticsRoute.updatePostAnalytics db today tenantId
             scheduledPostId platform_ eventType eventValue)
          today tenantId scheduledPostId platform_ = Some r'
        /\ engagement_rate r' = 0 /\ click_through_rate r' = 0
        /\ (impressions r' = 0
            \/ (likes r' = 0 /\ comments r' = 0 /\ shares r' = 0
                /\ clicks r' = 0))).
Proof.
  intros Hu Hcols. split; [ | split ].
  - (* the event updates the row *)
    intros r Hread Ha.
    unfold accepted in Ha. rewrite Hread in Ha.
    rewrite read_existing_rows in Hread |- *.
    assert (K : rows_of_key (post_analytics db) tenantId scheduledPostId
                  platform_ today = [r]).
    { destruct (rows_of_key (post_analytics db) tenantId scheduledPostId
                  platform_ today) as [ | x [ | y l ] ];
        try discriminate. injection Hread as ->. reflexivity. }
    rewrite (updatePostAnalytics_existing_row _ _ _ _ _ eventType eventValue
               _ K), Ha.
    assert (Hr : columns r = true).
    { unfold columns_hold in Hcols. rewrite Forall_forall in Hcols.
      apply Hcols.
      apply (rows_of_key_In _ tenantId scheduledPostId platform_ today).
      rewrite K. left. reflexivity. }
    pose proof (counters_after_update r eventType eventValue Hr Ha) as Hc.
    destruct (rates_of_updates_for r eventType eventValue) as [He Hk].
    set (r' := spread r (updates_for r eventType eventValue)) in *.
    exists r'. split; [ reflexivity | ].
    split; [ intros et; apply Hc | ].
    destruct (Hc like) as [_ Bl]. destruct (Hc comment) as [_ Bc].
    destruct (Hc share) as [_ Bs]. cbn [counter] in Bl, Bc, Bs.
    assert (Et : JsNumber.plus (JsNumber.plus (likes r') (comments r'))
                   (shares r')
                 = likes r' + comments r' + shares r').
    { rewrite (plus_exact (likes r') (comments r')) by lia.
      apply plus_exact. lia. }
    rewrite Et in He.
    split.
    + intros Hi. apply Z.ltb_lt in Hi. rewrite Hi in He, Hk.
      rewrite He, Hk. unfold percentage, JsNumber.div.
      split; apply toFixed2_rate.
    + intros Hi. apply Z.ltb_ge in Hi. rewrite Hi in He, Hk.
      rewrite He, Hk. split; reflexivity.
  - (* the store refuses the write *)
    intros r Hread Ha.
    apply (updatePostAnalytics_refused _ _ _ _ _ _ _ r Hread Ha).
  - (* the event creates the row *)
    intros Hread.
    rewrite read_existing_rows in Hread |- *.
    assert (K : rows_of_key (post_analytics db) tenantId scheduledPostId
                  platform_ today = []).
    { unfold at_most_one_row in Hu.
      destruct (rows_of_key (post_analytics db) tenantId scheduledPostId
                  platform_ today) as [ | x [ | y l ] ];
        [ reflexivity | discriminate | simpl in Hu; lia ]. }
    destruct (updatePostAnalytics_new db today tenantId scheduledPostId
                platform_ eventType eventValue K)
      as (r' & Hr & Hc & He & Hk & _).
    exists r'. rewrite Hr. split; [ reflexivity | ].
    split; [ exact He | ]. split; [ exact Hk | ].
    pose proof (Hc like) as Hl. pose proof (Hc comment) as Hco.
    pose proof (Hc share) as Hs. pose proof (Hc click) as Hcl.
    pose proof (Hc impression) as Hi. cbn [counter] in Hl, Hco, Hs, Hcl, Hi.
    destruct eventType; cbn [EventType_eqb] in Hl, Hco, Hs, Hcl, Hi; auto.
Qed.

Lemma updatePostAnalytics_rates_witness :
  exists r',
    AnalyticsRoute.read_existing
      (AnalyticsRoute.updatePostAnalytics tie_db "2024-05-01" tenant1 post1
         "instagram" share 1)
      "2024-05-01" tenant1 post1 "instagram" = Some r'
    /\ shares r' = 1
    /\ hundredths_of (engagement_rate r')
         (percentage (likes r' + comments r' + shares r') (impressions r')).
Proof.
  assert (Hu : at_most_one_row tie_db "2024-05-01" tenant1 post1 "instagram").
  { unfold at_most_one_row. simpl. lia. }
  assert (Hc : columns_hold tie_db) by (repeat constructor).
  destruct (proj1 (updatePostAnalytics_rates tie_db "2024-05-01" tenant1 post1
                     "instagram" share 1 Hu Hc) tie_row)
    as (r' & Hr & Hcount & Hrates & _).
  - reflexivity.
  - vm_compute. reflexivity.
  - exists r'. split; [ exact Hr | ].
    pose proof (Hcount share) as Hs. pose proof (Hcount impression) as Hi.
    cbn [counter] in Hs, Hi.
    split; [ rewrite Hs; reflexivity | ].
    apply Hrates. rewrite Hi. reflexivity.
Defined.

(** C1 (as stated) fails.  The 201st like on 20000 impressions makes the
    rate 1.005 per cent exactly, which rounds half-up to 1.01; the doubles
    of [(201 / 20000) * 100] come out just below 1.005 and the row stores
    1.00. *)
Lemma rate_of_201_likes_on_20000_impressions :
  exists r',
    AnalyticsRoute.read_existing
      (AnalyticsRoute.updatePostAnalytics tie_db "2024-05-01" tenant1 post1
         "instagram" like 1)
      "2024-05-01" tenant1 post1 "instagram" = Some r'
    /\ likes r' + comments r' + shares r' = 201
    /\ impressions r' = 20000
    /\ engagement_rate r' = 100
    /\ derived_rate (likes r' + comments r' + shares r') (impressions r')
       = 101.
Proof.
  eexists. split; [ vm_compute; reflexivity | ].
  repeat split; vm_compute; reflexivity.
Qed.

(* ------------------------------------------------------------------ *)
(** ** Counter additivity *)

Lemma sum_of_cons et' et v events :
  sum_of et' ((et, v) :: events)
  = (if EventType_eqb et et' then v else 0) + sum_of et' events.
Proof.
  unfold sum_of. simpl. destruct (EventType_eqb et et'); reflexivity.
Qed.

Lemma sum_of_Permutation et events events' :
  Permutation events events' -> sum_of et events = sum_of et events'.
Proof.
  induction 1 as [ | [a v] l l' _ IH | [a v] [b w] l | l l' l'' _ IH1 _ IH2 ].
  - reflexivity.
  - rewrite !sum_of_cons, IH. reflexivity.
  - rewrite !sum_of_cons. lia.
  - congruence.
Qed.

Lemma apply_events_snoc db d t p pl events e :
  apply_events db d t p pl (events ++ [e])
  = AnalyticsRoute.updatePostAnalytics (apply_events db d t p pl events)
      d t p pl (fst e) (snd e).
Proof. unfold apply_events. rewrite fold_left_app. reflexivity. Qed.

(** Any number of updates for one key, each of them taken by the store:
    the key keeps at most one row and each counter has grown by the sum of
    the values of its events. *)
Lemma apply_events_stored d t p pl events : forall db,
  at_most_one_row db d t p pl ->
  all_accepted db d t p pl events = true ->
  at_most_one_row (apply_events db d t p pl events) d t p pl
  /\ (events <> [] ->
      exists r,
        rows_of_key (post_analytics (apply_events db d t p pl events))
          t p pl d = [r] /\ date r = d)
  /\ forall et,
       stored_counter (apply_events db d t p pl events) d t p pl et
       = stored_counter db d t p pl et + sum_of et events.
Proof.
  induction events as [ | [a v] events IH ]; intros db Hu Hall.
  - split; [ exact Hu | ]. split; [ congruence | ].
    intros et. unfold sum_of. simpl. lia.
  - cbn [all_accepted fst snd] in Hall. apply andb_true_iff in Hall.
    destruct Hall as [Ha Hall].
    destruct (updatePostAnalytics_step db d t p pl a v Hu Ha)
      as (r' & Hr & Hd & Hc).
    set (db1 := AnalyticsRoute.updatePostAnalytics db d t p pl a v) in *.
    assert (Hu1 : at_most_one_row db1 d t p pl).
    { unfold at_most_one_row. rewrite Hr. simpl. lia. }
    destruct (IH db1 Hu1 Hall) as (Hu' & Hrow & Hsum).
    change (apply_events db d t p pl ((a, v) :: events))
      with (apply_events db1 d t p pl events).
    split; [ exact Hu' | ]. split.
    + intros _. destruct events as [ | e events ].
      * exists r'. split; assumption.
      * apply Hrow. discriminate.
    + intros et. rewrite Hsum, (stored_counter_rows _ _ _ _ _ _ et Hr), Hc.
      rewrite sum_of_cons. lia.
Qed.

(** C2 (as amended).  Events sharing one natural key, applied one at a
    time.  An update that the store takes moves exactly the counter of its
    event type, by the event's value, and leaves the other raw counters as
    they were; an update that the store refuses leaves the table as it was.
    After a non-empty sequence of events, all taken by the store, for a key
    that had no row, the row of the key carries, in each of its six
    counters, the sum of the values of the events of that type; and two
    orders of arrival in which the store takes every update give the same
    counters. *)
Theorem counter_additivity
  (db : Database) (today tenantId scheduledPostId platform_ : string) :
  at_most_one_row db today tenantId scheduledPostId platform_ ->
  (forall eventType eventValue et,
     accepted db today tenantId scheduledPostId platform_ eventType
       eventValue = true ->
     stored_counter
       (AnalyticsRoute.updatePostAnalytics db today tenantId scheduledPostId
          platform_ eventType eventValue)
       today tenantId scheduledPostId platform_ et
     = stored_counter db today tenantId scheduledPostId platform_ et
       + (if EventType_eqb eventType et then eventValue else 0))
  /\ (forall eventType eventValue r,
        AnalyticsRoute.read_existing db today tenantId scheduledPostId
          platform_ = Some r ->
        accepted db today tenantId scheduledPostId platform_ eventType
          eventValue = false ->
        post_analytics
          (AnalyticsRoute.updatePostAnalytics db today tenantId
             scheduledPostId platform_ eventType eventValue)
        = post_analytics db)
  /\ (forall events,
        rows_of_key (post_analytics db) tenantId scheduledPostId platform_
          today = [] ->
        events <> [] ->
        all_accepted db today tenantId scheduledPostId platform_ events
        = true ->
        exists r,
          AnalyticsRoute.read_existing
            (apply_events db today tenantId scheduledPostId platform_ events)
            today tenantId scheduledPostId platform_ = Some r
          /\ forall et, counter et r = sum_of et events)
  /\ (forall events events' et,
        Permutation events events' ->
        all_accepted db today tenantId scheduledPostId platform_ events
        = true ->
        all_accepted db today tenantId scheduledPostId platform_ events'
        = true ->
        stored_counter
          (apply_events db today tenantId scheduledPostId platform_ events)
          today tenantId scheduledPostId platform_ et
        = stored_counter
            (apply_events db today tenantId scheduledPostId platform_ events')
            today tenantId scheduledPostId platform_ et).
Proof.
  intros Hu. split; [ | split; [ | split ] ].
  - intros eventType eventValue et Ha.
    destruct (updatePostAnalytics_step db today tenantId scheduledPostId
                platform_ eventType eventValue Hu Ha) as (r' & Hr & _ & Hc).
    rewrite (stored_counter_rows _ _ _ _ _ _ et Hr). apply Hc.
  - intros eventType eventValue r Hread Ha.
    apply (updatePostAnalytics_refused _ _ _ _ _ _ _ r Hread Ha).
  - intros events Hfresh Hne Hall.
    destruct (apply_events_stored today tenantId scheduledPostId platform_
                events db Hu Hall) as (_ & Hrow & Hsum).
    destruct (Hrow Hne) as (r & Hr & _).
    exists r. rewrite read_existing_rows, Hr. split; [ reflexivity | ].
    intros et. rewrite <- (stored_counter_rows _ _ _ _ _ _ et Hr), Hsum.
    unfold stored_counter. rewrite read_existing_rows, Hfresh. reflexivity.
  - intros events events' et Hperm Hall Hall'.
    destruct (apply_events_stored today tenantId scheduledPostId platform_
                events db Hu Hall) as (_ & _ & Hsum).
    destruct (apply_events_stored today tenantId scheduledPostId platform_
                events' db Hu Hall') as (_ & _ & Hsum').
    rewrite Hsum, Hsum', (sum_of_Permutation et _ _ Hperm). reflexivity.
Qed.

Lemma counter_additivity_witness :
  exists r,
    AnalyticsRoute.read_existing
      (apply_events scheduled_db "2024-05-01" tenant1 post1 "instagram"
         [(impression, 1000); (like, 50); (like, 1); (share, 5)])
      "2024-05-01" tenant1 post1 "instagram" = Some r
    /\ likes r = 51 /\ shares r = 5 /\ impressions r = 1000 /\ views r = 0.
Proof.
  assert (Hu : at_most_one_row scheduled_db "2024-05-01" tenant1 post1 "instagram").
  { unfold at_most_one_row. simpl. lia. }
  destruct (proj1 (proj2 (proj2
              (counter_additivity scheduled_db "2024-05-01" tenant1 post1 "instagram"
                 Hu)))
              [(impression, 1000); (like, 50); (like, 1); (share, 5)])
    as (r & Hr & Hc).
  - reflexivity.
  - discriminate.
  - vm_compute. reflexivity.
  - exists r. split; [ exact Hr | ].
    pose proof (Hc like) as Hl. pose proof (Hc share) as Hs.
    pose proof (Hc impression) as Hi. pose proof (Hc view) as Hv.
    cbn [counter] in Hl, Hs, Hi, Hv.
    rewrite Hl, Hs, Hi, Hv. repeat split; reflexivity.
Defined.

(** C2 (as stated) fails.  One impression, then an event of ten likes: the
    rate would be 1000 per cent, which DECIMAL(5,2) does not hold; the
    store refuses the update, the updater does not notice, and the row
    counts no like.  In the other order the ten likes create the row and
    the impression is the update that is refused. *)
Lemma likes_lost_to_a_rate_out_of_range :
  stored_counter
    (apply_events scheduled_db "2024-05-01" tenant1 post1 "instagram"
       [(impression, 1); (like, 10)])
    "2024-05-01" tenant1 post1 "instagram" like = 0
  /\ sum_of like [(impression, 1); (like, 10)] = 10
  /\ stored_counter
       (apply_events scheduled_db "2024-05-01" tenant1 post1 "instagram"
          [(like, 10); (impression, 1)])
       "2024-05-01" tenant1 post1 "instagram" like = 10
  /\ stored_counter
       (apply_events scheduled_db "2024-05-01" tenant1 post1 "instagram"
          [(like, 10); (impression, 1)])
       "2024-05-01" tenant1 post1 "instagram" impression = 0.
Proof. repeat split; vm_compute; reflexivity. Qed.

(** End-to-end scenario 1 of the specification, run on the embedding. *)
Example scenario_rates :
  let db :=
    apply_events empty_db "2024-05-01" "t1" "p1" "instagram"
      [(impression, 1000); (click, 20); (like, 50); (comment, 10); (share, 5)]
  in
  map (fun r => (engagement_rate r, click_through_rate r)) (post_analytics db)
  = [(650, 200)].
Proof. vm_compute. reflexivity. Qed.

(* ------------------------------------------------------------------ *)
(** ** One row per natural key *)

(** The number of rows under any key, across one call: it grows by one
    exactly when the call creates the row, for the key of the call. *)
Lemma rows_of_key_length_step db d t p pl et v t' p' pl' d' :
  at_most_one_row db d t p pl ->
  let db' := AnalyticsRoute.updatePostAnalytics db d t p pl et v in
  (List.length (rows_of_key (post_analytics db) t' p' pl' d')
   <= List.length (rows_of_key (post_analytics db') t' p' pl' d'))%nat
  /\ (at_most_one_row db d' t' p' pl' -> at_most_one_row db' d' t' p' pl').
Proof.
  intros Hu db'. subst db'. unfold at_most_one_row in *.
  unfold AnalyticsRoute.updatePostAnalytics.
  rewrite read_existing_rows.
  destruct (rows_of_key (post_analytics db) t p pl d)
    as [ | r [ | r2 rs ] ] eqn:K; simpl single.
  - unfold AnalyticsRoute.write_back. cbv zeta. simpl post_analytics.
    unfold insert_post_analytics.
    rewrite (existsb_filter_nil _ _ K).
    unfold rows_of_key at 2 4. rewrite filter_app, length_app.
    fold (rows_of_key (post_analytics db) t' p' pl' d').
    split; [ lia | ]. intros Hu'.
    cbn [filter].
    match goal with
    | |- context [ key_eqb t' p' pl' d' ?new ] =>
        destruct (key_eqb t' p' pl' d' new) eqn:E;
        [ pose proof (key_eqb_refl_new t p pl d (id new) (content_item_id new)
                        (views new) (likes new) (comments new) (shares new)
                        (clicks new) (impressions new) (engagement_rate new)
                        (click_through_rate new) (unique_viewers new)
                        (reach new)) as E0
        | ]
    end.
    + simpl in E0.
      assert (S : rows_of_key (post_analytics db) t' p' pl' d'
                  = rows_of_key (post_analytics db) t p pl d).
      { unfold rows_of_key, key_eqb in *. simpl in E, E0.
        repeat (apply andb_true_iff in E; destruct E as (E & ?)).
        repeat match goal with
               | X : (_ =? _)%string = true |- _ => apply String.eqb_eq in X
               end.
        subst. reflexivity. }
      rewrite S, K. simpl. lia.
    + simpl. lia.
  - unfold AnalyticsRoute.write_back. cbv zeta. simpl post_analytics.
    unfold rows_of_key at 2 4. rewrite filter_update_eq_id.
    rewrite length_update_eq_id.
    fold (rows_of_key (post_analytics db) t' p' pl' d').
    split; [ lia | auto ].
  - simpl in Hu. lia.
Qed.

Lemma unique_keys_run_call db c :
  unique_keys db -> unique_keys (run_call db c).
Proof.
  intros Hu t p pl d. unfold run_call.
  apply (rows_of_key_length_step db (c_today c) (c_tenantId c)
           (c_scheduledPostId c) (c_platform c) (c_eventType c)
           (c_eventValue c) t p pl d); apply Hu.
Qed.

Lemma run_calls_snoc db calls c :
  run_calls db (calls ++ [c]) = run_call (run_calls db calls) c.
Proof. unfold run_calls. rewrite fold_left_app. reflexivity. Qed.

Lemma unique_keys_run_calls db calls :
  unique_keys db -> unique_keys (run_calls db calls).
Proof.
  intros Hu. induction calls as [ | c calls IH ] using rev_ind.
  - exact Hu.
  - rewrite run_calls_snoc. apply unique_keys_run_call. exact IH.
Qed.

Lemma length_one {A} (l : list A) :
  (1 <= List.length l)%nat -> (List.length l <= 1)%nat -> exists x, l = [x].
Proof.
  destruct l as [ | x [ | y l ] ]; simpl; intros; try lia.
  exists x. reflexivity.
Qed.

(** C4. Whatever calls of the updater were served, for however many
    events, the table holds at most one row for every natural key; and each
    key that received an event holds exactly one row, whose [date] is the
    calendar date the event was ingested on. *)
Theorem one_row_per_natural_key (db : Database) (calls : list Call) :
  unique_keys db ->
  unique_keys (run_calls db calls)
  /\ forall c, In c calls ->
       exists r,
         rows_of_key (post_analytics (run_calls db calls)) (c_tenantId c)
           (c_scheduledPostId c) (c_platform c) (c_today c) = [r]
         /\ date r = c_today c.
Proof.
  intros Hu. split; [ apply unique_keys_run_calls; exact Hu | ].
  induction calls as [ | c0 calls IH ] using rev_ind; intros c Hin.
  - destruct Hin.
  - pose proof (unique_keys_run_calls db calls Hu) as Hu'.
    pose proof (unique_keys_run_calls db (calls ++ [c0]) Hu) as Hu''.
    assert (L : (1 <= List.length
                   (rows_of_key (post_analytics (run_calls db (calls ++ [c0])))
                      (c_tenantId c) (c_scheduledPostId c) (c_platform c)
                      (c_today c)))%nat).
    { rewrite run_calls_snoc. apply in_app_or in Hin.
      destruct Hin as [ Hin | [ <- | [] ] ].
      - destruct (IH c Hin) as (r & Hr & _).
        pose proof (rows_of_key_length_step (run_calls db calls)
                      (c_today c0) (c_tenantId c0) (c_scheduledPostId c0)
                      (c_platform c0) (c_eventType c0) (c_eventValue c0)
                      (c_tenantId c) (c_scheduledPostId c) (c_platform c)
                      (c_today c) (Hu' _ _ _ _)) as (Hle & _).
        rewrite Hr in Hle. exact Hle.
      - destruct (updatePostAnalytics_row (run_calls db calls)
                    (c_today c0) (c_tenantId c0) (c_scheduledPostId c0)
                    (c_platform c0) (c_eventType c0) (c_eventValue c0)
                    (Hu' _ _ _ _)) as (r' & Hr & _).
        unfold run_call. rewrite Hr. simpl. lia. }
    destruct (length_one _ L (Hu'' _ _ _ _)) as (r & Hr).
    exists r. split; [ exact Hr | ].
    apply (rows_of_key_date (post_analytics (run_calls db (calls ++ [c0])))
             (c_tenantId c) (c_scheduledPostId c) (c_platform c)).
    rewrite Hr. left. reflexivity.
Qed.

Lemma one_row_per_natural_key_witness :
  let calls :=
    [ {| c_today := "2024-05-01"; c_tenantId := "t1";
         c_scheduledPostId := "p1"; c_platform := "instagram";
         c_eventType := view; c_eventValue := 3 |};
      {| c_today := "2024-05-01"; c_tenantId := "t1";
         c_scheduledPostId := "p1"; c_platform := "instagram";
         c_eventType := like; c_eventValue := 1 |};
      {| c_today := "2024-05-02"; c_tenantId := "t1";
         c_scheduledPostId := "p1"; c_platform := "instagram";
         c_eventType := like; c_eventValue := 1 |} ] in
  unique_keys (run_calls empty_db calls)
  /\ forall c, In c calls ->
       exists r,
         rows_of_key (post_analytics (run_calls empty_db calls))
           (c_tenantId c) (c_scheduledPostId c) (c_platform c) (c_today c)
         = [r]
         /\ date r = c_today c.
Proof.
  intros calls.
  apply (one_row_per_natural_key empty_db calls).
  intros t p pl d. unfold at_most_one_row. simpl. lia.
Defined.

(* ------------------------------------------------------------------ *)
(** ** Concurrent calls *)

Lemma step_task_app db done i tasks :
  step_task db (List.length done + i) (done ++ tasks)
  = match step_task db i tasks with
    | Some (db', tasks') => Some (db', done ++ tasks')
    | None => None
    end.
Proof.
  induction done as [ | [c ph] done IH ]; simpl.
  - destruct (step_task db i tasks) as [ [db' ts] | ]; reflexivity.
  - rewrite IH. destruct (step_task db i tasks) as [ [db' ts] | ]; reflexivity.
Qed.

Lemma run_schedule_twice db done c rest schedule :
  run_schedule (List.length done :: List.length done :: schedule) db
    (done ++ (c, NotStarted) :: rest)
  = run_schedule schedule (run_call db c) (done ++ (c, Finished) :: rest).
Proof.
  cbn [run_schedule].
  rewrite <- (Nat.add_0_r (List.length done)) at 1.
  rewrite step_task_app. cbn [step_task].
  rewrite <- (Nat.add_0_r (List.length done)) at 1.
  rewrite step_task_app. cbn [step_task].
  reflexivity.
Qed.

(** Served one after the other, the calls do what [run_calls] does. *)
Lemma run_one_after_the_other calls : forall db done,
  run_schedule (one_after_the_other (List.length done) (List.length calls))
    db (done ++ start calls)
  = Some (run_calls db calls, done ++ finished calls).
Proof.
  induction calls as [ | c calls IH ]; intros db done.
  - reflexivity.
  - unfold one_after_the_other. cbn [List.length seq flat_map app start map].
    rewrite run_schedule_twice.
    change ((c, Finished) :: map (fun c0 => (c0, NotStarted)) calls)
      with ([(c, Finished)] ++ start calls).
    rewrite app_assoc.
    replace (S (List.length done)) with (List.length (done ++ [(c, Finished)]))
      by (rewrite length_app; simpl; lia).
    fold (one_after_the_other (List.length (done ++ [(c, Finished)]))
            (List.length calls)).
    rewrite IH. rewrite <- app_assoc. reflexivity.
Qed.

Lemma run_calls_for db d t p pl et n :
  run_calls db (calls_for d t p pl et n)
  = apply_events db d t p pl (repeat (et, 1) n).
Proof.
  revert db. induction n as [ | n IH ]; intros db.
  - reflexivity.
  - simpl. unfold run_calls, apply_events in *. simpl. apply IH.
Qed.

Lemma sum_of_repeat et n : sum_of et (repeat (et, 1) n) = Z.of_nat n.
Proof.
  induction n as [ | n IH ].
  - reflexivity.
  - cbn [repeat]. rewrite sum_of_cons, IH.
    assert (E : EventType_eqb et et = true) by (apply EventType_eqb_eq; auto).
    rewrite E. lia.
Qed.

(** C3 (as amended).  [n] events of one type and of value 1 for one
    natural key, each call running to completion before the next one
    starts and each write being taken by the store: all calls finish and
    the counter of that type has grown by exactly [n]. *)
Theorem events_one_after_the_other
  (db : Database) (today tenantId scheduledPostId platform_ : string)
  (eventType : EventType) (n : nat) :
  at_most_one_row db today tenantId scheduledPostId platform_ ->
  all_accepted db today tenantId scheduledPostId platform_
    (repeat (eventType, 1) n) = true ->
  exists db',
    run_schedule (one_after_the_other 0 n) db
      (start (calls_for today tenantId scheduledPostId platform_ eventType n))
    = Some (db', finished (calls_for today tenantId scheduledPostId
                             platform_ eventType n))
    /\ stored_counter db' today tenantId scheduledPostId platform_ eventType
       = stored_counter db today tenantId scheduledPostId platform_ eventType
         + Z.of_nat n.
Proof.
  intros Hu Hall.
  exists (run_calls db
            (calls_for today tenantId scheduledPostId platform_ eventType n)).
  split.
  - pose proof (run_one_after_the_other
                  (calls_for today tenantId scheduledPostId platform_
                     eventType n)
                  db []) as H.
    simpl in H. unfold calls_for in H at 1. rewrite repeat_length in H.
    exact H.
  - rewrite run_calls_for.
    destruct (apply_events_stored today tenantId scheduledPostId platform_
                (repeat (eventType, 1) n) db Hu Hall) as (_ & _ & Hsum).
    rewrite Hsum, sum_of_repeat. reflexivity.
Qed.

Lemma events_one_after_the_other_witness :
  exists db',
    run_schedule (one_after_the_other 0 50) scheduled_db
      (start (calls_for "2024-05-01" tenant1 post1 "instagram" like 50))
    = Some (db', finished (calls_for "2024-05-01" tenant1 post1 "instagram" like
                             50))
    /\ stored_counter db' "2024-05-01" tenant1 post1 "instagram" like
       = stored_counter scheduled_db "2024-05-01" tenant1 post1 "instagram" like
         + Z.of_nat 50.
Proof.
  apply (events_one_after_the_other scheduled_db "2024-05-01" tenant1 post1
           "instagram" like 50).
  - unfold at_most_one_row. simpl. lia.
  - vm_compute. reflexivity.
Defined.

(** C3 (as stated) fails.  Fifty concurrent [like] events of value 1 for a
    key without a row, every call reading before any call writes: all fifty
    calls finish and the counter is 1.  Two such events for a key whose row
    counts 50 likes, interleaved the same way: the counter is 51. *)
Lemma concurrent_likes_lost :
  (exists db',
     run_schedule (reads_then_writes 50) empty_db
       (start (likes_for "2024-05-01" "t1" "p1" "instagram" 50))
     = Some (db', finished (likes_for "2024-05-01" "t1" "p1" "instagram" 50))
     /\ stored_counter db' "2024-05-01" "t1" "p1" "instagram" like = 1)
  /\ (exists db',
        run_schedule [0; 1; 0; 1]%nat sample_db
          (start (likes_for "2024-05-01" "t1" "p1" "instagram" 2))
        = Some (db', finished (likes_for "2024-05-01" "t1" "p1" "instagram" 2))
        /\ stored_counter sample_db "2024-05-01" "t1" "p1" "instagram" like
           = 50
        /\ stored_counter db' "2024-05-01" "t1" "p1" "instagram" like = 51).
Proof.
  split.
  - eexists. split; [ vm_compute; reflexivity | vm_compute; reflexivity ].
  - eexists. split; [ vm_compute; reflexivity | ].
    split; vm_compute; reflexivity.
Qed.

(* ------------------------------------------------------------------ *)
(** ** Ordering *)

Lemma insert_desc_Permutation {A} (leb : A -> A -> bool) x l :
  Permutation (x :: l) (insert_desc leb x l).
Proof.
  induction l as [ | y l IH ]; simpl.
  - apply Permutation_refl.
  - destruct (leb y x).
    + apply Permutation_refl.
    + eapply Permutation_trans; [ apply perm_swap | ].
      apply perm_skip. exact IH.
Qed.

Lemma order_desc_Permutation {A} (leb : A -> A -> bool) l :
  Permutation l (order_desc leb l).
Proof.
  induction l as [ | x l IH ]; simpl.
  - apply perm_nil.
  - eapply Permutation_trans; [ apply perm_skip; exact IH | ].
    apply insert_desc_Permutation.
Qed.

Section ByColumn.

Variable A : Type.
Variable col : A -> Z.

Lemma insert_desc_sorted x l :
  StronglySorted (fun a b => col b <= col a) l ->
  StronglySorted (fun a b => col b <= col a)
    (insert_desc (fun a b => col a <=? col b) x l).
Proof.
  induction 1 as [ | y l Hs IH Hy ]; simpl.
  - constructor; constructor.
  - destruct (Z.leb_spec (col y) (col x)) as [ Hle | Hgt ].
    + constructor; [ constructor; assumption | ].
      constructor; [ exact Hle | ].
      eapply Forall_impl; [ | exact Hy ].
      cbv beta. intros b Hb. lia.
    + constructor; [ exact IH | ].
      eapply Permutation_Forall; [ apply insert_desc_Permutation | ].
      constructor; [ lia | exact Hy ].
Qed.

Lemma order_desc_sorted l :
  StronglySorted (fun a b => col b <= col a)
    (order_desc (fun a b => col a <=? col b) l).
Proof.
  induction l as [ | x l IH ]; simpl.
  - constructor.
  - apply insert_desc_sorted. exact IH.
Qed.

End ByColumn.

Lemma StronglySorted_impl {A} (R R' : A -> A -> Prop) l :
  (forall a b, R a b -> R' a b) ->
  StronglySorted R l -> StronglySorted R' l.
Proof.
  intros Hr. induction 1 as [ | a l _ IH Ha ]; constructor.
  - exact IH.
  - eapply Forall_impl; [ apply Hr | exact Ha ].
Qed.

Lemma includes_false names m :
  ~ In m names -> TopPostsRoute.includes names m = false.
Proof.
  intros Hn. unfold TopPostsRoute.includes.
  destruct (existsb (String.eqb m) names) eqn:E; [ | reflexivity ].
  apply existsb_exists in E. destruct E as (x & Hx & Heq).
  apply String.eqb_eq in Heq. subst x. contradiction.
Qed.

(** The column the ranking orders by, for a metric of the list. *)
Lemma orderBy_valid q m col :
  In (m, col) metric_columns ->
  TopPostsRoute.q_metric q = Some m ->
  TopPostsRoute.orderBy q = m
  /\ forall r, TopPostsRoute.column m r = col r.
Proof.
  intros Hin Hm. unfold TopPostsRoute.orderBy. rewrite Hm.
  unfold metric_columns in Hin. simpl in Hin.
  repeat (destruct Hin as [ Hin | Hin ];
          [ injection Hin as <- <-; split; reflexivity | ]).
  destruct Hin.
Qed.

(** The column the ranking orders by, for anything else. *)
Lemma orderBy_fallback q :
  (forall m, TopPostsRoute.q_metric q = Some m ->
             ~ In m (map fst metric_columns)) ->
  forall r,
    TopPostsRoute.column (TopPostsRoute.orderBy q) r = engagement_rate r.
Proof.
  intros Hn r. unfold TopPostsRoute.orderBy.
  destruct (TopPostsRoute.q_metric q) as [ m | ] eqn:Hm.
  - specialize (Hn m eq_refl).
    destruct m as [ | c m ]; [ reflexivity | ].
    cbn [truthy or_else].
    change TopPostsRoute.validMetrics with (map fst metric_columns).
    rewrite (includes_false _ _ Hn). reflexivity.
  - reflexivity.
Qed.

Lemma topPosts_ranked db tenantId q col :
  (forall r, TopPostsRoute.column (TopPostsRoute.orderBy q) r = col r) ->
  ranked col (or_else (TopPostsRoute.q_limit q) 10%nat)
    (TopPostsRoute.select_post_analytics db tenantId
       (TopPostsRoute.q_platform q) (TopPostsRoute.q_startDate q)
       (TopPostsRoute.q_endDate q))
    (TopPostsRoute.topPosts db tenantId q).
Proof.
  intros Hcol. unfold ranked, TopPostsRoute.topPosts.
  eexists. split; [ apply order_desc_Permutation | ].
  split; [ | reflexivity ].
  pose proof (order_desc_sorted PostAnalytics
                (TopPostsRoute.column (TopPostsRoute.orderBy q))) as Hs.
  refine (StronglySorted_impl _ _ _ _ (Hs _)).
  intros a b. cbv beta. rewrite !Hcol. tauto.
Qed.

Lemma GET_top_posts_authorized db userId tenantId q tu :
  truthy (TopPostsRoute.q_tenantId q) = Some tenantId ->
  tenantUser db tenantId userId = Some tu ->
  TopPostsRoute.GET db (Some userId) q
  = Ok (map (TopPostsRoute.format db) (TopPostsRoute.topPosts db tenantId q)).
Proof.
  intros Ht Hu. unfold TopPostsRoute.GET. rewrite Ht, Hu. reflexivity.
Qed.

(** C8. The ranking of an authorised caller.  When the requested metric is
    one of the six raw counters or the two derived rates, the answer is the
    selected rows sorted by decreasing value of that metric and cut to
    [limit]; for any other metric (or none) the rows are ranked by
    [engagement_rate]; and for metric ["views"], limit 2 and three rows
    with views 50, 200 and 10, the answer is the row with 200, then the row
    with 50. *)
Theorem top_posts_ranking :
  (forall db userId tenantId tu q m col,
     truthy (TopPostsRoute.q_tenantId q) = Some tenantId ->
     tenantUser db tenantId userId = Some tu ->
     In (m, col) metric_columns ->
     TopPostsRoute.q_metric q = Some m ->
     exists tops,
       TopPostsRoute.GET db (Some userId) q
       = Ok (map (TopPostsRoute.format db) tops)
       /\ ranked col (or_else (TopPostsRoute.q_limit q) 10%nat)
            (TopPostsRoute.select_post_analytics db tenantId
               (TopPostsRoute.q_platform q) (TopPostsRoute.q_startDate q)
               (TopPostsRoute.q_endDate q))
            tops)
  /\ (forall db userId tenantId tu q,
        truthy (TopPostsRoute.q_tenantId q) = Some tenantId ->
        tenantUser db tenantId userId = Some tu ->
        (forall m, TopPostsRoute.q_metric q = Some m ->
                   ~ In m (map fst metric_columns)) ->
        exists tops,
          TopPostsRoute.GET db (Some userId) q
          = Ok (map (TopPostsRoute.format db) tops)
          /\ ranked engagement_rate (or_else (TopPostsRoute.q_limit q) 10%nat)
               (TopPostsRoute.select_post_analytics db tenantId
                  (TopPostsRoute.q_platform q) (TopPostsRoute.q_startDate q)
                  (TopPostsRoute.q_endDate q))
               tops)
  /\ TopPostsRoute.GET scenario4_db (Some "u1") scenario4_query
     = Ok [ TopPostsRoute.format scenario4_db
              (row_with_views 2 "2024-05-02" 200);
            TopPostsRoute.format scenario4_db
              (row_with_views 1 "2024-05-01" 50) ].
Proof.
  split; [ | split ].
  - intros db userId tenantId tu q m col Ht Hu Hin Hm.
    exists (TopPostsRoute.topPosts db tenantId q).
    split; [ exact (GET_top_posts_authorized _ _ _ _ _ Ht Hu) | ].
    apply topPosts_ranked.
    destruct (orderBy_valid q m col Hin Hm) as (-> & Hcol). exact Hcol.
  - intros db userId tenantId tu q Ht Hu Hother.
    exists (TopPostsRoute.topPosts db tenantId q).
    split; [ exact (GET_top_posts_authorized _ _ _ _ _ Ht Hu) | ].
    apply topPosts_ranked. apply orderBy_fallback. exact Hother.
  - vm_compute. reflexivity.
Qed.

Lemma top_posts_ranking_witness :
  exists tops,
    TopPostsRoute.GET scenario4_db (Some "u1") scenario4_query
    = Ok (map (TopPostsRoute.format scenario4_db) tops)
    /\ ranked views 2%nat
         (TopPostsRoute.select_post_analytics scenario4_db "t1" None None None)
         tops.
Proof.
  apply (proj1 top_posts_ranking scenario4_db "u1" "t1"
           {| TenantUser.tenant_id := "t1"; TenantUser.user_id := "u1";
              TenantUser.role := "admin" |}
           scenario4_query "views" views).
  - reflexivity.
  - reflexivity.
  - simpl. left. reflexivity.
  - reflexivity.
Defined.

(* ------------------------------------------------------------------ *)
(** ** The overview *)

Lemma GET_overview_authorized db userId tenantId q tu :
  truthy (AnalyticsRoute.q_tenantId q) = Some tenantId ->
  tenantUser db tenantId userId = Some tu ->
  AnalyticsRoute.GET db (Some userId) q
  = let analytics :=
      order_desc (fun a b => String.leb (date a) (date b))
        (AnalyticsRoute.select_post_analytics db tenantId
           (AnalyticsRoute.q_startDate q) (AnalyticsRoute.q_endDate q)
           (AnalyticsRoute.q_platform q)) in
    Ok {| AnalyticsRoute.Overview.totals :=
            fold_left AnalyticsRoute.add_totals analytics
              AnalyticsRoute.zero_totals;
          AnalyticsRoute.Overview.averages_engagement_rate :=
            JsNumber.toFixed2 (AnalyticsRoute.average engagement_rate analytics);
          AnalyticsRoute.Overview.averages_click_through_rate :=
            JsNumber.toFixed2
              (AnalyticsRoute.average click_through_rate analytics);
          AnalyticsRoute.Overview.by_platform :=
            fold_left AnalyticsRoute.add_to_group analytics [];
          AnalyticsRoute.Overview.records := analytics |}.
Proof.
  intros Ht Hu. unfold AnalyticsRoute.GET. rewrite Ht, Hu. reflexivity.
Qed.

(** C10. An overview whose filters match no row: the call succeeds, the
    seven totals are 0, both averages are exactly 0 and [by_platform] is
    empty. *)
Theorem overview_of_no_rows
  (db : Database) (userId tenantId : string) (tu : TenantUser.t)
  (q : AnalyticsRoute.Query) :
  truthy (AnalyticsRoute.q_tenantId q) = Some tenantId ->
  tenantUser db tenantId userId = Some tu ->
  AnalyticsRoute.select_post_analytics db tenantId
    (AnalyticsRoute.q_startDate q) (AnalyticsRoute.q_endDate q)
    (AnalyticsRoute.q_platform q) = [] ->
  AnalyticsRoute.GET db (Some userId) q
  = Ok {| AnalyticsRoute.Overview.totals :=
            {| AnalyticsRoute.Totals.views := 0;
               AnalyticsRoute.Totals.likes := 0;
               AnalyticsRoute.Totals.comments := 0;
               AnalyticsRoute.Totals.shares := 0;
               AnalyticsRoute.Totals.clicks := 0;
               AnalyticsRoute.Totals.impressions := 0;
               AnalyticsRoute.Totals.reach := 0 |};
          AnalyticsRoute.Overview.averages_engagement_rate := 0;
          AnalyticsRoute.Overview.averages_click_through_rate := 0;
          AnalyticsRoute.Overview.by_platform := [];
          AnalyticsRoute.Overview.records := [] |}.
Proof.
  intros Ht Hu Hnone.
  rewrite (GET_overview_authorized db userId tenantId q tu Ht Hu).
  rewrite Hnone. reflexivity.
Qed.

Lemma overview_of_no_rows_witness :
  AnalyticsRoute.GET scenario4_db (Some "u1") (overview_query "t1" (Some "tiktok"))
  = Ok {| AnalyticsRoute.Overview.totals :=
            {| AnalyticsRoute.Totals.views := 0;
               AnalyticsRoute.Totals.likes := 0;
               AnalyticsRoute.Totals.comments := 0;
               AnalyticsRoute.Totals.shares := 0;
               AnalyticsRoute.Totals.clicks := 0;
               AnalyticsRoute.Totals.impressions := 0;
               AnalyticsRoute.Totals.reach := 0 |};
          AnalyticsRoute.Overview.averages_engagement_rate := 0;
          AnalyticsRoute.Overview.averages_click_through_rate := 0;
          AnalyticsRoute.Overview.by_platform := [];
          AnalyticsRoute.Overview.records := [] |}.
Proof.
  apply (overview_of_no_rows scenario4_db "u1" "t1"
           {| TenantUser.tenant_id := "t1"; TenantUser.user_id := "u1";
              TenantUser.role := "admin" |}
           (overview_query "t1" (Some "tiktok")));
    reflexivity.
Defined.

Lemma select_overview_In db tenantId s e p r :
  In r (AnalyticsRoute.select_post_analytics db tenantId s e p) ->
  In r (post_analytics db) /\ tenant_id r = tenantId.
Proof.
  unfold AnalyticsRoute.select_post_analytics.
  destruct (truthy s), (truthy e), (truthy p); intros H;
    repeat (apply filter_In in H; destruct H as (H & ?));
    (split; [ exact H | apply String.eqb_eq; assumption ]).
Qed.

Lemma sum_Z_Permutation l l' : Permutation l l' -> sum_Z l = sum_Z l'.
Proof.
  induction 1; simpl; lia.
Qed.

Lemma fold_left_rates (col : PostAnalytics -> Z) l : forall q0 : Q,
  fold_left
    (fun sum record =>
       JsNumber.add sum
         (JsNumber.of_decimal (JsNumber.or0 (Some (col record)))))
    l q0
  = fold_left (fun sum h => JsNumber.add sum (JsNumber.of_decimal h))
      (map col l) q0.
Proof.
  induction l as [ | r l IH ]; intros q0; cbn [fold_left map].
  - reflexivity.
  - rewrite or0_Some. apply IH.
Qed.

Lemma near_mean_Permutation h l l' :
  Permutation l l' -> near_mean h l -> near_mean h l'.
Proof.
  intros H. unfold near_mean.
  rewrite (sum_Z_Permutation _ _ H), (Permutation_length H). auto.
Qed.

(** The average of a column over a non-empty list of rows, against the
    exact mean. *)
Lemma toFixed2_average (col : PostAnalytics -> Z) l :
  l <> [] ->
  Z.of_nat (List.length l) <= 1048576 ->
  Forall (fun r => fits_decimal_5_2 (col r) = true) l ->
  near_mean (JsNumber.toFixed2 (AnalyticsRoute.average col l)) (map col l).
Proof.
  intros Hne Hlen Hall. unfold AnalyticsRoute.average, near_mean.
  destruct (Nat.ltb_spec 0 (List.length l)) as [ _ | Hl ].
  2: { destruct l; [ congruence | simpl in Hl; lia ]. }
  rewrite fold_left_rates.
  rewrite <- (length_map col l) at 1.
  rewrite <- (length_map col l) in Hlen.
  apply toFixed2_mean_error.
  - destruct l; [ congruence | discriminate ].
  - exact Hlen.
  - apply Forall_map. eapply Forall_impl; [ | exact Hall ].
    cbv beta. intros r Hr. unfold fits_decimal_5_2 in Hr.
    apply Z.ltb_lt in Hr. exact Hr.
Qed.

Lemma toFixed2_average_ordered (col : PostAnalytics -> Z) rows :
  rows <> [] ->
  Z.of_nat (List.length rows) <= 1048576 ->
  Forall (fun r => fits_decimal_5_2 (col r) = true) rows ->
  near_mean
    (JsNumber.toFixed2
       (AnalyticsRoute.average col
          (order_desc (fun a b => String.leb (date a) (date b)) rows)))
    (map col rows).
Proof.
  intros Hne Hlen Hall.
  pose proof (order_desc_Permutation
                (fun a b => String.leb (date a) (date b)) rows) as Hp.
  apply (near_mean_Permutation _ _ _
           (Permutation_sym (Permutation_map col Hp))).
  apply toFixed2_average.
  - intros E. rewrite E in Hp. apply Permutation_sym, Permutation_nil in Hp.
    apply Hne. exact Hp.
  - rewrite <- (Permutation_length Hp). exact Hlen.
  - rewrite Forall_forall in Hall |- *. intros r Hr. apply Hall.
    apply (Permutation_in _ (Permutation_sym Hp)). exact Hr.
Qed.

Lemma columns_rates r :
  columns r = true ->
  fits_decimal_5_2 (engagement_rate r) = true
  /\ fits_decimal_5_2 (click_through_rate r) = true.
Proof.
  unfold columns. intros H.
  rewrite !andb_true_iff in H. decompose [and] H. split; assumption.
Qed.

(** C7 (as amended).  For an overview that matches at least one row, the
    reported [engagement_rate] average is the arithmetic mean of the rows'
    [engagement_rate], rounded to a nearest hundredth up to the rounding of
    doubles (for up to [2^20] rows it is within 0.005 of the mean, give or
    take a millionth), and likewise for [click_through_rate]: every row
    weighs the same.  It is not the rate recomputed from the summed
    counters: over one row with one like on one impression and one row with
    ninety-nine impressions and no engagement the overview reports 50.00,
    where the summed counters give 1.00. *)
Theorem overview_averages_near_row_means :
  (forall db userId tenantId tu q,
     truthy (AnalyticsRoute.q_tenantId q) = Some tenantId ->
     tenantUser db tenantId userId = Some tu ->
     AnalyticsRoute.select_post_analytics db tenantId
       (AnalyticsRoute.q_startDate q) (AnalyticsRoute.q_endDate q)
       (AnalyticsRoute.q_platform q) <> [] ->
     Z.of_nat
       (List.length
          (AnalyticsRoute.select_post_analytics db tenantId
             (AnalyticsRoute.q_startDate q) (AnalyticsRoute.q_endDate q)
             (AnalyticsRoute.q_platform q))) <= 1048576 ->
     columns_hold db ->
     exists o,
       AnalyticsRoute.GET db (Some userId) q = Ok o
       /\ near_mean (AnalyticsRoute.Overview.averages_engagement_rate o)
            (map engagement_rate
               (AnalyticsRoute.select_post_analytics db tenantId
                  (AnalyticsRoute.q_startDate q)
                  (AnalyticsRoute.q_endDate q)
                  (AnalyticsRoute.q_platform q)))
       /\ near_mean (AnalyticsRoute.Overview.averages_click_through_rate o)
            (map click_through_rate
               (AnalyticsRoute.select_post_analytics db tenantId
                  (AnalyticsRoute.q_startDate q)
                  (AnalyticsRoute.q_endDate q)
                  (AnalyticsRoute.q_platform q))))
  /\ (exists o,
        AnalyticsRoute.GET uneven_db (Some "u1") (overview_query "t1" None)
        = Ok o
        /\ AnalyticsRoute.Overview.averages_engagement_rate o = 5000
        /\ weighted_engagement_rate (post_analytics uneven_db) = 100).
Proof.
  split.
  - intros db userId tenantId tu q Ht Hu Hne Hlen Hcols.
    rewrite (GET_overview_authorized db userId tenantId q tu Ht Hu).
    cbv zeta. eexists. split; [ reflexivity | ].
    cbn [AnalyticsRoute.Overview.averages_engagement_rate
         AnalyticsRoute.Overview.averages_click_through_rate].
    assert (Hsel : Forall (fun r => columns r = true)
                     (AnalyticsRoute.select_post_analytics db tenantId
                        (AnalyticsRoute.q_startDate q)
                        (AnalyticsRoute.q_endDate q)
                        (AnalyticsRoute.q_platform q))).
    { unfold columns_hold in Hcols. rewrite Forall_forall in Hcols |- *.
      intros r Hr. apply Hcols.
      apply (proj1 (select_overview_In db tenantId _ _ _ r Hr)). }
    split; apply toFixed2_average_ordered; try assumption;
      (eapply Forall_impl; [ | exact Hsel ]); cbv beta; intros r Hr;
      apply (columns_rates r Hr).
  - eexists. split; [ vm_compute; reflexivity | ].
    split; vm_compute; reflexivity.
Qed.

Lemma overview_averages_near_row_means_witness :
  exists o,
    AnalyticsRoute.GET uneven_db (Some "u1") (overview_query "t1" None) = Ok o
    /\ near_mean (AnalyticsRoute.Overview.averages_engagement_rate o)
         (map engagement_rate
            (AnalyticsRoute.select_post_analytics uneven_db "t1" None None
               None)).
Proof.
  destruct (proj1 overview_averages_near_row_means uneven_db "u1" "t1"
              {| TenantUser.tenant_id := "t1"; TenantUser.user_id := "u1";
                 TenantUser.role := "admin" |}
              (overview_query "t1" None))
    as (o & Ho & He & _).
  - reflexivity.
  - reflexivity.
  - simpl. discriminate.
  - simpl. lia.
  - repeat constructor.
  - exists o. split; assumption.
Defined.

(** C7 (as stated) fails.  Two rows with rates 0.03 and 0.00: their mean
    is 0.015 exactly, which rounds to 0.02, half-up and half-to-even alike;
    the double of [0.03 / 2] is just below 0.015 and the overview reports
    0.01. *)
Lemma mean_of_3_and_0_hundredths :
  exists o,
    AnalyticsRoute.GET tie_rates_db (Some "u1") (overview_query tenant1 None)
    = Ok o
    /\ map engagement_rate (AnalyticsRoute.Overview.records o) = [3; 0]
    /\ AnalyticsRoute.Overview.averages_engagement_rate o = 1
    /\ mean_round2 [3; 0] = 2
    /\ JsNumber.nearest_even (inject_Z (sum_Z [3; 0]) / 2) = 2.
Proof.
  eexists. split; [ vm_compute; reflexivity | ].
  repeat split; vm_compute; reflexivity.
Qed.

(* ------------------------------------------------------------------ *)
(** ** Tenant isolation *)

Lemma select_overview_of_tenant db tenantId s e p :
  AnalyticsRoute.select_post_analytics db tenantId s e p
  = AnalyticsRoute.select_post_analytics
      (with_post_analytics db (rows_of_tenant db tenantId)) tenantId s e p.
Proof.
  unfold AnalyticsRoute.select_post_analytics, rows_of_tenant.
  cbn [post_analytics with_post_analytics].
  assert (E : filter (fun r => (tenant_id r =? tenantId)%string)
                (filter (fun r => (tenant_id r =? tenantId)%string)
                   (post_analytics db))
              = filter (fun r => (tenant_id r =? tenantId)%string)
                  (post_analytics db)).
  { induction (post_analytics db) as [ | r l IH ]; simpl; [ reflexivity | ].
    destruct (tenant_id r =? tenantId)%string eqn:K; simpl; rewrite ?K, IH;
      reflexivity. }
  rewrite E. reflexivity.
Qed.

Lemma select_top_of_tenant db tenantId p s e :
  TopPostsRoute.select_post_analytics db tenantId p s e
  = TopPostsRoute.select_post_analytics
      (with_post_analytics db (rows_of_tenant db tenantId)) tenantId p s e.
Proof.
  unfold TopPostsRoute.select_post_analytics, rows_of_tenant.
  cbn [post_analytics with_post_analytics].
  assert (E : filter (fun r => (tenant_id r =? tenantId)%string)
                (filter (fun r => (tenant_id r =? tenantId)%string)
                   (post_analytics db))
              = filter (fun r => (tenant_id r =? tenantId)%string)
                  (post_analytics db)).
  { induction (post_analytics db) as [ | r l IH ]; simpl; [ reflexivity | ].
    destruct (tenant_id r =? tenantId)%string eqn:K; simpl; rewrite ?K, IH;
      reflexivity. }
  rewrite E. reflexivity.
Qed.

Lemma select_overview_same db1 db2 tenantId s e p :
  rows_of_tenant db1 tenantId = rows_of_tenant db2 tenantId ->
  AnalyticsRoute.select_post_analytics db1 tenantId s e p
  = AnalyticsRoute.select_post_analytics db2 tenantId s e p.
Proof.
  intros H.
  rewrite (select_overview_of_tenant db1), (select_overview_of_tenant db2).
  rewrite H. reflexivity.
Qed.

Lemma select_top_same db1 db2 tenantId p s e :
  rows_of_tenant db1 tenantId = rows_of_tenant db2 tenantId ->
  TopPostsRoute.select_post_analytics db1 tenantId p s e
  = TopPostsRoute.select_post_analytics db2 tenantId p s e.
Proof.
  intros H.
  rewrite (select_top_of_tenant db1), (select_top_of_tenant db2).
  rewrite H. reflexivity.
Qed.

Lemma select_top_In db tenantId p s e r :
  In r (TopPostsRoute.select_post_analytics db tenantId p s e) ->
  In r (post_analytics db) /\ tenant_id r = tenantId.
Proof.
  unfold TopPostsRoute.select_post_analytics.
  destruct (truthy s), (truthy e), (truthy p); intros H;
    repeat (apply filter_In in H; destruct H as (H & ?));
    (split; [ exact H | apply String.eqb_eq; assumption ]).
Qed.

Lemma In_firstn {A} (n : nat) (l : list A) x : In x (firstn n l) -> In x l.
Proof.
  revert l. induction n as [ | n IH ]; intros [ | y l ]; simpl; try tauto.
  intros [ -> | H ]; [ left; reflexivity | right; apply IH; exact H ].
Qed.

Lemma format_same db1 db2 post :
  content_items db1 = content_items db2 ->
  scheduled_posts db1 = scheduled_posts db2 ->
  TopPostsRoute.format db1 post = TopPostsRoute.format db2 post.
Proof.
  intros Hc Hs.
  unfold TopPostsRoute.format, TopPostsRoute.content_of,
    TopPostsRoute.schedule_of.
  rewrite Hc, Hs. reflexivity.
Qed.

(** C5. The overview and the ranking asked for tenant A answer from rows
    of tenant A only, and answer the same on two databases that differ in
    the events and aggregate rows of other tenants, whatever scheduled post
    ids those rows carry. *)
Theorem tenant_isolation
  (db1 db2 : Database) (user : option string) (tenantA : string)
  (qo : AnalyticsRoute.Query) (qt : TopPostsRoute.Query) :
  truthy (AnalyticsRoute.q_tenantId qo) = Some tenantA ->
  truthy (TopPostsRoute.q_tenantId qt) = Some tenantA ->
  same_for_tenant tenantA db1 db2 ->
  AnalyticsRoute.GET db1 user qo = AnalyticsRoute.GET db2 user qo
  /\ TopPostsRoute.GET db1 user qt = TopPostsRoute.GET db2 user qt
  /\ (forall o,
        AnalyticsRoute.GET db1 user qo = Ok o ->
        Forall (fun r => tenant_id r = tenantA /\ In r (post_analytics db1))
          (AnalyticsRoute.Overview.records o))
  /\ (forall posts,
        TopPostsRoute.GET db1 user qt = Ok posts ->
        exists rows,
          posts = map (TopPostsRoute.format db1) rows
          /\ Forall (fun r => tenant_id r = tenantA
                              /\ In r (post_analytics db1)) rows).
Proof.
  intros Ho Ht (Hu & Hc & Hs & Hr).
  split; [ | split; [ | split ] ].
  - unfold AnalyticsRoute.GET. destruct user as [ userId | ]; [ | reflexivity ].
    rewrite Ho. unfold tenantUser. rewrite Hu.
    rewrite (select_overview_same db1 db2 tenantA _ _ _ Hr). reflexivity.
  - unfold TopPostsRoute.GET. destruct user as [ userId | ]; [ | reflexivity ].
    rewrite Ht. unfold tenantUser. rewrite Hu.
    unfold TopPostsRoute.topPosts.
    rewrite (select_top_same db1 db2 tenantA _ _ _ Hr).
    destruct (single _); [ | reflexivity ].
    f_equal. apply map_ext. intros post. apply format_same; assumption.
  - intros o. unfold AnalyticsRoute.GET.
    destruct user as [ userId | ]; [ | discriminate ].
    rewrite Ho. destruct (tenantUser db1 tenantA userId); [ | discriminate ].
    intros E. injection E as <-.
    cbn [AnalyticsRoute.Overview.records].
    apply Forall_forall. intros r Hin.
    apply (Permutation_in r (Permutation_sym (order_desc_Permutation _ _)))
      in Hin.
    apply select_overview_In in Hin. tauto.
  - intros posts. unfold TopPostsRoute.GET.
    destruct user as [ userId | ]; [ | discriminate ].
    rewrite Ht. destruct (tenantUser db1 tenantA userId); [ | discriminate ].
    intros E. injection E as <-.
    eexists. split; [ reflexivity | ].
    apply Forall_forall. intros r Hin.
    unfold TopPostsRoute.topPosts in Hin. apply In_firstn in Hin.
    apply (Permutation_in r (Permutation_sym (order_desc_Permutation _ _)))
      in Hin.
    apply select_top_In in Hin. tauto.
Qed.

Lemma tenant_isolation_witness :
  AnalyticsRoute.GET scenario4_db (Some "u1") (overview_query "t1" None)
  = AnalyticsRoute.GET scenario4_db_with_other_tenant (Some "u1")
      (overview_query "t1" None)
  /\ TopPostsRoute.GET scenario4_db (Some "u1") scenario4_query
     = TopPostsRoute.GET scenario4_db_with_other_tenant (Some "u1")
         scenario4_query
  /\ (forall o,
        AnalyticsRoute.GET scenario4_db (Some "u1") (overview_query "t1" None)
        = Ok o ->
        Forall (fun r => tenant_id r = "t1"
                         /\ In r (post_analytics scenario4_db))
          (AnalyticsRoute.Overview.records o))
  /\ (forall posts,
        TopPostsRoute.GET scenario4_db (Some "u1") scenario4_query = Ok posts ->
        exists rows,
          posts = map (TopPostsRoute.format scenario4_db) rows
          /\ Forall (fun r => tenant_id r = "t1"
                              /\ In r (post_analytics scenario4_db)) rows).
Proof.
  apply (tenant_isolation scenario4_db scenario4_db_with_other_tenant
           (Some "u1") "t1" (overview_query "t1" None) scenario4_query).
  - reflexivity.
  - reflexivity.
  - repeat split; reflexivity.
Defined.

(* ------------------------------------------------------------------ *)
(** ** Validation *)

Lemma and_then_None {A B} (x : option A) (f : A -> option B) (P : Prop) :
  (forall a, f a = None <-> P) ->
  (Zod.and_then x f = None <-> x = None \/ P).
Proof.
  intros Hf. destruct x as [ a | ]; simpl.
  - rewrite Hf. split; [ tauto | ]. intros [ H | H ]; [ discriminate | exact H ].
  - tauto.
Qed.

Lemma uuid_None v : Zod.uuid v = None <-> not_a_uuid v.
Proof.
  unfold Zod.uuid, not_a_uuid.
  destruct v as [ [ | b | n | s | items | fields ] | ];
    try (split; [ intros _ s' E; discriminate E | reflexivity ]).
  destruct (Zod.is_uuid s) eqn:U.
  - split; [ discriminate | ]. intros H. specialize (H s eq_refl). congruence.
  - split; [ | reflexivity ]. intros _ s' E. injection E as <-. exact U.
Qed.

Lemma string_None v : Zod.string_ v = None <-> not_a_string v.
Proof.
  unfold Zod.string_, not_a_string.
  destruct v as [ [ | b | n | s | items | fields ] | ];
    try (split; [ intros _ s' E; discriminate E | reflexivity ]).
  split; [ discriminate | ]. intros H. destruct (H s eq_refl).
Qed.

Lemma number_default_None d v :
  Zod.number_default d v = None <-> given_and not_a_number v.
Proof.
  unfold Zod.number_default, given_and, not_a_number.
  destruct v as [ [ | b | n | s | items | fields ] | ];
    try (split; [ intros _; split; [ discriminate | intros n' E; discriminate E ]
                | reflexivity ]).
  - split; [ discriminate | ]. intros (_ & H). destruct (H n eq_refl).
  - split; [ discriminate | ]. intros (H & _). destruct (H eq_refl).
Qed.

Lemma record_any_None v : Zod.record_any v = None <-> not_an_object v.
Proof.
  unfold Zod.record_any, not_an_object.
  destruct v as [ [ | b | n | s | items | fields ] | ];
    try (split; [ intros _ f' E; discriminate E | reflexivity ]).
  split; [ discriminate | ]. intros H. destruct (H fields eq_refl).
Qed.

Lemma optional_None {A} (inner : Zod.schema A) (wrong : option json -> Prop) v :
  (forall v, inner v = None <-> wrong v) ->
  (Zod.optional inner v = None <-> given_and wrong v).
Proof.
  intros Hi. unfold Zod.optional, given_and. destruct v as [ j | ].
  - specialize (Hi (Some j)). destruct (inner (Some j)); simpl.
    + split; [ discriminate | ]. intros (_ & H). apply Hi in H. discriminate.
    + split; [ | reflexivity ]. intros _. split; [ discriminate | ].
      apply Hi. reflexivity.
  - split; [ discriminate | ]. intros (H & _). destruct (H eq_refl).
Qed.

Lemma eventType_enum_name t :
  AnalyticsRoute.eventType_enum (Some (JStr (eventType_name t))) = Some t.
Proof. destruct t; reflexivity. Qed.

Lemma eventType_enum_Some v t :
  AnalyticsRoute.eventType_enum v = Some t -> v = Some (JStr (eventType_name t)).
Proof.
  unfold AnalyticsRoute.eventType_enum.
  destruct v as [ [ | b | n | s | items | fields ] | ]; try discriminate.
  repeat match goal with
         | |- context [ (s =? ?lit)%string ] =>
             destruct (String.eqb_spec s lit);
             [ subst s; intros E; injection E as <-; reflexivity | ]
         end.
  discriminate.
Qed.

Lemma eventType_enum_None v :
  AnalyticsRoute.eventType_enum v = None <-> not_an_event_type v.
Proof.
  unfold not_an_event_type. split.
  - intros H t E. rewrite E, eventType_enum_name in H. discriminate.
  - intros H. destruct (AnalyticsRoute.eventType_enum v) as [ t | ] eqn:E;
      [ | reflexivity ].
    apply eventType_enum_Some in E. destruct (H t E).
Qed.

(** [eventSchema] fails exactly on the bodies it calls malformed. *)
Lemma eventSchema_None body :
  AnalyticsRoute.eventSchema body = None <-> malformed_per_schema body.
Proof.
  destruct body as [ | b | n | s | items | fields ];
    try (simpl; tauto).
  unfold AnalyticsRoute.eventSchema, malformed_per_schema.
  rewrite <- uuid_None.
  rewrite <- !(optional_None Zod.uuid not_a_uuid _ uuid_None).
  rewrite <- eventType_enum_None, <- string_None.
  rewrite <- (number_default_None 1).
  rewrite <- (optional_None Zod.record_any not_an_object _ record_any_None).
  rewrite <- (optional_None Zod.string_ not_a_string _ string_None).
  repeat (apply and_then_None; intros ?).
  destruct (Zod.optional Zod.string_ (Zod.prop "externalEventId" fields));
    simpl; split; congruence.
Qed.

Lemma eventSchema_event_body tenantId eventType platform_ eventValue :
  Zod.is_uuid tenantId = true ->
  AnalyticsRoute.eventSchema
    (event_body tenantId eventType platform_ eventValue)
  = Some {| AnalyticsRoute.Body.tenantId := tenantId;
            AnalyticsRoute.Body.contentItemId := None;
            AnalyticsRoute.Body.scheduledPostId := None;
            AnalyticsRoute.Body.eventType := eventType;
            AnalyticsRoute.Body.platform := platform_;
            AnalyticsRoute.Body.eventValue := eventValue;
            AnalyticsRoute.Body.eventMetadata := None;
            AnalyticsRoute.Body.externalEventId := None |}.
Proof.
  intros Hu. unfold event_body, event_fields, AnalyticsRoute.eventSchema.
  change (Zod.prop "tenantId" _) with (Some (JStr tenantId)).
  change (Zod.prop "contentItemId" _) with (@None json).
  change (Zod.prop "scheduledPostId" _) with (@None json).
  change (Zod.prop "eventType" _)
    with (Some (JStr (eventType_name eventType))).
  change (Zod.prop "platform" _) with (Some (JStr platform_)).
  change (Zod.prop "eventValue" _) with (Some (JNum eventValue)).
  change (Zod.prop "eventMetadata" _) with (@None json).
  change (Zod.prop "externalEventId" _) with (@None json).
  unfold Zod.uuid. rewrite Hu, eventType_enum_name. reflexivity.
Qed.

(** C6 (as amended). [POST] answers an authenticated caller with the
    validation error exactly when the body fails [eventSchema]: it is not an
    object, [tenantId] is not a UUID, a given [contentItemId] or
    [scheduledPostId] is not a UUID, [eventType] is outside the closed
    enum, [platform] is not a string, a given [eventValue] is not a number,
    a given [eventMetadata] is not an object or a given [externalEventId]
    is not a string.  A rejected request leaves the database as it was.
    Every platform string and every number, positive or not, passes. *)
Theorem record_event_validation
  (db : Database) (userId : string) (body : json) (today : string) :
  (fst (AnalyticsRoute.POST db (Some userId) body today)
   = Error 400 "Invalid request"
   <-> malformed_per_schema body)
  /\ (malformed_per_schema body ->
      snd (AnalyticsRoute.POST db (Some userId) body today) = db)
  /\ (forall tenantId eventType platform_ eventValue,
        Zod.is_uuid tenantId = true ->
        ~ malformed_per_schema
            (event_body tenantId eventType platform_ eventValue)).
Proof.
  split; [ | split ].
  - rewrite <- eventSchema_None. unfold AnalyticsRoute.POST.
    destruct (AnalyticsRoute.eventSchema body) as [ data | ].
    + destruct (tenantUser db (AnalyticsRoute.Body.tenantId data) userId);
        simpl; split; discriminate.
    + simpl. tauto.
  - intros H. apply eventSchema_None in H.
    unfold AnalyticsRoute.POST. rewrite H. reflexivity.
  - intros tenantId eventType platform_ eventValue Hu H.
    apply eventSchema_None in H.
    rewrite (eventSchema_event_body _ _ _ _ Hu) in H. discriminate.
Qed.

Lemma record_event_validation_witness :
  ~ malformed_per_schema (event_body tenant1 like "myspace" (-3)).
Proof.
  apply (proj2 (proj2 (record_event_validation members_db "u1" myspace_body
                         "2024-05-01")) tenant1 like "myspace" (-3)).
  reflexivity.
Defined.

(** C6 (as stated) fails: a [like] for platform ["myspace"] with value
    [-3], which the specification calls malformed on both counts, is
    accepted and appended to the event log. *)
Lemma unknown_platform_and_negative_value_accepted :
  malformed_per_spec (event_fields tenant1 like "myspace" (-3))
  /\ (forall p, In p known_platforms ->
        Zod.prop "platform" (event_fields tenant1 like "myspace" (-3))
        <> Some (JStr p))
  /\ (exists v,
        Zod.prop "eventValue" (event_fields tenant1 like "myspace" (-3))
        = Some v
        /\ forall n, 1 <= n -> v <> JNum n)
  /\ exists event,
       AnalyticsRoute.POST members_db (Some "u1") myspace_body "2024-05-01"
       = (Ok event, with_analytics_events members_db [event])
       /\ AnalyticsEvent.platform event = "myspace"
       /\ AnalyticsEvent.event_value event = -3.
Proof.
  assert (P : forall p, In p known_platforms ->
            Zod.prop "platform" (event_fields tenant1 like "myspace" (-3))
            <> Some (JStr p)).
  { intros p Hin E.
    change (Zod.prop "platform" _) with (Some (JStr "myspace")) in E.
    injection E as <-. simpl in Hin.
    repeat (destruct Hin as [ Hin | Hin ]; [ discriminate Hin | ]).
    exact Hin. }
  split; [ right; left; exact P | ].
  split; [ exact P | ].
  split.
  - exists (JNum (-3)). split; [ reflexivity | ].
    intros n Hn E. injection E as E. lia.
  - eexists. split; [ vm_compute; reflexivity | ].
    split; reflexivity.
Qed.

(* ------------------------------------------------------------------ *)
(** ** Events without a scheduled post *)




(** End-to-end scenario 3 of the specification, through both handlers. *)
Example scenario_two_tenants :
  let db1 :=
    snd (AnalyticsRoute.POST two_tenants_db (Some "u1")
           (like_body tenant1 "aaaaaaaa-aaaa-4aaa-8aaa-aaaaaaaaaaaa")
           "2024-05-01") in
  let db2 :=
    snd (AnalyticsRoute.POST db1 (Some "u2")
           (like_body tenant2 "bbbbbbbb-bbbb-4bbb-8bbb-bbbbbbbbbbbb")
           "2024-05-01") in
  List.length (analytics_events db2) = 2%nat
  /\ List.length (post_analytics db2) = 2%nat
  /\ exists o,
       AnalyticsRoute.GET db2 (Some "u1") (overview_query tenant1 None) = Ok o
       /\ AnalyticsRoute.Totals.likes (AnalyticsRoute.Overview.totals o) = 1.
Proof.
  cbv zeta. split; [ vm_compute; reflexivity | ].
  split; [ vm_compute; reflexivity | ].
  eexists. split; vm_compute; reflexivity.
Qed.

(* ================================================================== *)
(** * Further properties of the analytics routes *)

(** ** What [POST] answers, and what it leaves behind *)

Lemma updatePostAnalytics_other_tables db d t p pl et v :
  tenant_users (AnalyticsRoute.updatePostAnalytics db d t p pl et v)
  = tenant_users db
  /\ content_items (AnalyticsRoute.updatePostAnalytics db d t p pl et v)
     = content_items db
  /\ scheduled_posts (AnalyticsRoute.updatePostAnalytics db d t p pl et v)
     = scheduled_posts db
  /\ analytics_events (AnalyticsRoute.updatePostAnalytics db d t p pl et v)
     = analytics_events db.
Proof.
  unfold AnalyticsRoute.updatePostAnalytics, AnalyticsRoute.write_back.
  destruct (AnalyticsRoute.read_existing db d t p pl); repeat split.
Qed.

(** The answers of [POST], in the order the handler decides them: 401
    without a user, then 400 on a body the schema refuses, then 403 for a
    caller who is not a member of the tenant; each of them leaves the
    database as it was.  A success appends exactly one event, the one it
    returns, built from the parsed body, and touches no table but
    [analytics_events] and [post_analytics]. *)
Theorem POST_outcomes
  (db : Database) (user : option string) (body : json) (today : string) :
  match AnalyticsRoute.POST db user body today with
  | (Error status message, db') =>
      db' = db
      /\ ((status = 401%nat /\ user = None)
          \/ (status = 400%nat /\ user <> None
              /\ AnalyticsRoute.eventSchema body = None)
          \/ (status = 403%nat
              /\ exists userId data,
                   user = Some userId
                   /\ AnalyticsRoute.eventSchema body = Some data
                   /\ tenantUser db (AnalyticsRoute.Body.tenantId data) userId
                      = None))
  | (Ok event, db') =>
      exists userId data tu,
        user = Some userId
        /\ AnalyticsRoute.eventSchema body = Some data
        /\ tenantUser db (AnalyticsRoute.Body.tenantId data) userId = Some tu
        /\ analytics_events db' = analytics_events db ++ [event]
        /\ AnalyticsEvent.tenant_id event = AnalyticsRoute.Body.tenantId data
        /\ AnalyticsEvent.scheduled_post_id event
           = AnalyticsRoute.Body.scheduledPostId data
        /\ AnalyticsEvent.event_type event = AnalyticsRoute.Body.eventType data
        /\ AnalyticsEvent.platform event = AnalyticsRoute.Body.platform data
        /\ AnalyticsEvent.event_value event = AnalyticsRoute.Body.eventValue data
        /\ tenant_users db' = tenant_users db
        /\ content_items db' = content_items db
        /\ scheduled_posts db' = scheduled_posts db
  end.
Proof.
  unfold AnalyticsRoute.POST.
  destruct user as [ userId | ].
  2: { split; [ reflexivity | left; split; reflexivity ]. }
  destruct (AnalyticsRoute.eventSchema body) as [ data | ] eqn:Hs.
  2: { split; [ reflexivity | ].
       right; left. repeat split; congruence. }
  destruct (tenantUser db (AnalyticsRoute.Body.tenantId data) userId)
    as [ tu | ] eqn:Hu.
  2: { split; [ reflexivity | ].
       right; right. split; [ reflexivity | ].
       exists userId, data. repeat split; assumption. }
  cbv zeta.
  exists userId, data, tu.
  split; [ reflexivity | ]. split; [ reflexivity | ].
  split; [ exact Hu | ].
  destruct (truthy (AnalyticsRoute.Body.scheduledPostId data)) as [ p | ].
  - match goal with
    | |- context [ AnalyticsRoute.updatePostAnalytics ?d ?a ?b ?c ?e ?f ?g ] =>
        destruct (updatePostAnalytics_other_tables d a b c e f g)
          as (H1 & H2 & H3 & H4)
    end.
    rewrite H1, H2, H3, H4. repeat split.
  - repeat split.
Qed.

(** What an accepted body parsed to, property by property. *)
Lemma eventSchema_fields fields data :
  AnalyticsRoute.eventSchema (JObj fields) = Some data ->
  Zod.uuid (Zod.prop "tenantId" fields)
  = Some (AnalyticsRoute.Body.tenantId data)
  /\ Zod.optional Zod.uuid (Zod.prop "scheduledPostId" fields)
     = Some (AnalyticsRoute.Body.scheduledPostId data)
  /\ AnalyticsRoute.eventType_enum (Zod.prop "eventType" fields)
     = Some (AnalyticsRoute.Body.eventType data)
  /\ Zod.string_ (Zod.prop "platform" fields)
     = Some (AnalyticsRoute.Body.platform data)
  /\ Zod.number_default 1 (Zod.prop "eventValue" fields)
     = Some (AnalyticsRoute.Body.eventValue data).
Proof.
  unfold AnalyticsRoute.eventSchema. intros H.
  repeat match type of H with
         | Zod.and_then ?x _ = Some _ =>
             let E := fresh "E" in
             destruct x eqn:E; cbn [Zod.and_then] in H; [ | discriminate H ]
         end.
  injection H as <-. repeat split.
Qed.

Lemma optional_uuid_Some v p :
  Zod.optional Zod.uuid v = Some (Some p) ->
  v = Some (JStr p) /\ Zod.is_uuid p = true.
Proof.
  unfold Zod.optional, Zod.uuid.
  destruct v as [ [ | b | n | s | items | fs ] | ]; try discriminate.
  destruct (Zod.is_uuid s) eqn:U; simpl; [ | discriminate ].
  intros E. injection E as <-. split; [ reflexivity | exact U ].
Qed.

Lemma is_uuid_nonempty p : Zod.is_uuid p = true -> truthy (Some p) = Some p.
Proof.
  destruct p as [ | c p ]; [ discriminate | reflexivity ].
Qed.

(** An accepted event that names a scheduled post is counted at once, when
    the store takes its two writes (the event, which names an existing
    post and fits its columns, and the write of the aggregate row, whose
    counter and rates stay within their columns): the call succeeds and the
    aggregate row of (tenant, post, platform, today) exists afterwards, its
    counter of the event's type raised by the event's value and its other
    counters as they were.  The value is 1 when the body gives none. *)
Theorem POST_counts_scheduled_event
  (db : Database) (userId today : string) (fields : list (string * json))
  (data : AnalyticsRoute.Body.t) (tu : TenantUser.t) (p : string) :
  AnalyticsRoute.eventSchema (JObj fields) = Some data ->
  AnalyticsRoute.Body.scheduledPostId data = Some p ->
  tenantUser db (AnalyticsRoute.Body.tenantId data) userId = Some tu ->
  at_most_one_row db today (AnalyticsRoute.Body.tenantId data) p
    (AnalyticsRoute.Body.platform data) ->
  event_taken db data = true ->
  accepted db today (AnalyticsRoute.Body.tenantId data) p
    (AnalyticsRoute.Body.platform data)
    (AnalyticsRoute.Body.eventType data)
    (AnalyticsRoute.Body.eventValue data) = true ->
  exists event db' r,
    AnalyticsRoute.POST db (Some userId) (JObj fields) today = (Ok event, db')
    /\ AnalyticsRoute.read_existing db' today
         (AnalyticsRoute.Body.tenantId data) p
         (AnalyticsRoute.Body.platform data) = Some r
    /\ (forall et,
          counter et r
          = stored_counter db today (AnalyticsRoute.Body.tenantId data) p
              (AnalyticsRoute.Body.platform data) et
            + (if EventType_eqb (AnalyticsRoute.Body.eventType data) et
               then AnalyticsRoute.Body.eventValue data else 0))
    /\ (Zod.prop "eventValue" fields = None ->
        AnalyticsRoute.Body.eventValue data = 1).
Proof.
  intros Hparse Hp Hmember Hone _ Hacc.
  destruct (eventSchema_fields fields data Hparse) as (_ & Hs & _ & _ & Hv).
  rewrite Hp in Hs. apply optional_uuid_Some in Hs. destruct Hs as (_ & Hu).
  unfold AnalyticsRoute.POST. rewrite Hparse, Hmember, Hp.
  rewrite (is_uuid_nonempty p Hu). cbv zeta.
  set (db1 := with_analytics_events db _).
  assert (Hone1 : at_most_one_row db1 today (AnalyticsRoute.Body.tenantId data)
                    p (AnalyticsRoute.Body.platform data)) by exact Hone.
  destruct (updatePostAnalytics_step db1 today
              (AnalyticsRoute.Body.tenantId data) p
              (AnalyticsRoute.Body.platform data)
              (AnalyticsRoute.Body.eventType data)
              (AnalyticsRoute.Body.eventValue data) Hone1 Hacc)
    as (r & Hr & _ & Hc).
  eexists. eexists. exists r.
  split; [ reflexivity | ].
  split; [ rewrite read_existing_rows, Hr; reflexivity | ].
  split; [ exact Hc | ].
  intros Hnone. rewrite Hnone in Hv. simpl in Hv. congruence.
Qed.

Lemma POST_counts_scheduled_event_witness :
  exists event db' r,
    AnalyticsRoute.POST scheduled_db (Some "u1")
      (like_body tenant1 "aaaaaaaa-aaaa-4aaa-8aaa-aaaaaaaaaaaa") "2024-05-01"
    = (Ok event, db')
    /\ AnalyticsRoute.read_existing db' "2024-05-01" tenant1
         "aaaaaaaa-aaaa-4aaa-8aaa-aaaaaaaaaaaa" "instagram" = Some r
    /\ (forall et,
          counter et r
          = stored_counter scheduled_db "2024-05-01" tenant1
              "aaaaaaaa-aaaa-4aaa-8aaa-aaaaaaaaaaaa" "instagram" et
            + (if EventType_eqb like et then 1 else 0))
    /\ (Zod.prop "eventValue"
          [ ("tenantId", JStr tenant1);
            ("scheduledPostId", JStr "aaaaaaaa-aaaa-4aaa-8aaa-aaaaaaaaaaaa");
            ("eventType", JStr "like");
            ("platform", JStr "instagram") ] = None ->
        1 = 1).
Proof.
  apply (POST_counts_scheduled_event scheduled_db "u1" "2024-05-01"
           [ ("tenantId", JStr tenant1);
             ("scheduledPostId", JStr "aaaaaaaa-aaaa-4aaa-8aaa-aaaaaaaaaaaa");
             ("eventType", JStr "like");
             ("platform", JStr "instagram") ]
           {| AnalyticsRoute.Body.tenantId := tenant1;
              AnalyticsRoute.Body.contentItemId := None;
              AnalyticsRoute.Body.scheduledPostId :=
                Some "aaaaaaaa-aaaa-4aaa-8aaa-aaaaaaaaaaaa";
              AnalyticsRoute.Body.eventType := like;
              AnalyticsRoute.Body.platform := "instagram";
              AnalyticsRoute.Body.eventValue := 1;
              AnalyticsRoute.Body.eventMetadata := None;
              AnalyticsRoute.Body.externalEventId := None |}
           {| TenantUser.tenant_id := tenant1; TenantUser.user_id := "u1";
              TenantUser.role := "admin" |}
           "aaaaaaaa-aaaa-4aaa-8aaa-aaaaaaaaaaaa").
  - reflexivity.
  - reflexivity.
  - reflexivity.
  - unfold at_most_one_row. simpl. lia.
  - reflexivity.
  - reflexivity.
Defined.

(** ** What one update leaves alone *)

Lemma NoDup_map_id_inj (rows : list PostAnalytics) a b :
  NoDup (map id rows) -> In a rows -> In b rows -> id a = id b -> a = b.
Proof.
  induction rows as [ | r rows IH ]; simpl; intros Hnd Ha Hb E.
  - destruct Ha.
  - inversion Hnd as [ | ? ? Hnotin Hnd' ]; subst.
    destruct Ha as [ -> | Ha ], Hb as [ -> | Hb ].
    + reflexivity.
    + exfalso. apply Hnotin. rewrite E. apply in_map. exact Hb.
    + exfalso. apply Hnotin. rewrite <- E. apply in_map. exact Ha.
    + apply IH; assumption.
Qed.

Lemma fresh_id_above rows r : In r rows -> (id r < fresh_id rows)%nat.
Proof.
  unfold fresh_id. induction rows as [ | x rows IH ]; simpl.
  - intros [].
  - intros [ -> | H ]; [ lia | specialize (IH H); lia ].
Qed.

Lemma map_id_update_eq_id rows u i :
  map id (update_eq_id rows u i) = map id rows.
Proof.
  unfold update_eq_id. destruct (accepts u); [ | reflexivity ].
  rewrite map_map. apply map_ext.
  intros r. destruct (Nat.eqb (id r) i); reflexivity.
Qed.

Lemma In_update_eq_id rows u i r' :
  accepts u = true ->
  In r' (update_eq_id rows u i) <->
  (In r' rows /\ id r' <> i)
  \/ (exists r, In r rows /\ id r = i /\ r' = spread r u).
Proof.
  intros Ha. unfold update_eq_id. rewrite Ha. rewrite in_map_iff. split.
  - intros (r & E & Hin). destruct (Nat.eqb_spec (id r) i) as [ Hi | Hi ].
    + right. exists r. auto.
    + left. subst r'. auto.
  - intros [ (Hin & Hi) | (r & Hin & Hi & ->) ].
    + exists r'. split; [ | exact Hin ].
      destruct (Nat.eqb_spec (id r') i); [ contradiction | reflexivity ].
    + exists r. split; [ | exact Hin ].
      destruct (Nat.eqb_spec (id r) i); [ reflexivity | contradiction ].
Qed.

Lemma NoDup_map_id_insert rows t c p pl d u :
  NoDup (map id rows) ->
  NoDup (map id (insert_post_analytics rows t c p pl d u)).
Proof.
  intros Hnd. unfold insert_post_analytics.
  destruct (existsb (key_eqb t p pl d) rows); [ exact Hnd | ].
  rewrite map_app. simpl. apply NoDup_app.
  - exact Hnd.
  - constructor; [ intros [] | constructor ].
  - intros i Hin [ E | [] ].
    apply in_map_iff in Hin. destruct Hin as (r & Er & Hin).
    pose proof (fresh_id_above rows r Hin). lia.
Qed.

(** One update touches nothing but the row of its own natural key: every
    row under another key is in the table afterwards exactly when it was
    before, row ids stay distinct, and the other tables are as they
    were. *)
Theorem updatePostAnalytics_frame
  (db : Database) (today tenantId scheduledPostId platform_ : string)
  (eventType : EventType) (eventValue : Z) :
  NoDup (map id (post_analytics db)) ->
  at_most_one_row db today tenantId scheduledPostId platform_ ->
  NoDup (map id (post_analytics
                   (AnalyticsRoute.updatePostAnalytics db today tenantId
                      scheduledPostId platform_ eventType eventValue)))
  /\ (forall r,
        key_eqb tenantId scheduledPostId platform_ today r = false ->
        (In r (post_analytics
                 (AnalyticsRoute.updatePostAnalytics db today tenantId
                    scheduledPostId platform_ eventType eventValue))
         <-> In r (post_analytics db)))
  /\ tenant_users (AnalyticsRoute.updatePostAnalytics db today tenantId
                     scheduledPostId platform_ eventType eventValue)
     = tenant_users db
  /\ analytics_events (AnalyticsRoute.updatePostAnalytics db today tenantId
                         scheduledPostId platform_ eventType eventValue)
     = analytics_events db.
Proof.
  intros Hnd Hone.
  destruct (updatePostAnalytics_other_tables db today tenantId scheduledPostId
              platform_ eventType eventValue) as (Ht & _ & _ & He).
  split; [ | split; [ | split; assumption ] ].
  - unfold AnalyticsRoute.updatePostAnalytics, AnalyticsRoute.write_back.
    destruct (AnalyticsRoute.read_existing db today tenantId scheduledPostId
                platform_) as [ x | ]; cbn [post_analytics with_post_analytics].
    + rewrite map_id_update_eq_id. exact Hnd.
    + apply NoDup_map_id_insert. exact Hnd.
  - intros r Hkey.
    unfold at_most_one_row in Hone.
    unfold AnalyticsRoute.updatePostAnalytics.
    rewrite read_existing_rows.
    destruct (rows_of_key (post_analytics db) tenantId scheduledPostId
                platform_ today) as [ | x [ | x2 xs ] ] eqn:K; simpl single.
    + unfold AnalyticsRoute.write_back. cbv zeta.
      cbn [post_analytics with_post_analytics].
      unfold insert_post_analytics.
      rewrite (existsb_filter_nil _ _ K). rewrite in_app_iff. simpl.
      split; [ | tauto ].
      intros [ H | [ <- | [] ] ]; [ exact H | ].
      rewrite key_eqb_refl_new in Hkey. discriminate.
    + assert (Hx : In x (post_analytics db)
                   /\ key_eqb tenantId scheduledPostId platform_ today x = true).
      { apply filter_In. fold (rows_of_key (post_analytics db) tenantId
                                 scheduledPostId platform_ today).
        rewrite K. left. reflexivity. }
      destruct Hx as (Hxin & Hxkey).
      unfold AnalyticsRoute.write_back. cbv zeta.
      cbn [post_analytics with_post_analytics].
      destruct (accepts (AnalyticsRoute.with_recomputed_rates x
                           (AnalyticsRoute.increment (Some x) eventType
                              eventValue))) eqn:Ha.
      2: { rewrite (update_eq_id_refused _ _ _ Ha). tauto. }
      rewrite (In_update_eq_id _ _ _ _ Ha). split.
      * intros [ (Hin & _) | (r0 & Hin & Hid & ->) ]; [ exact Hin | ].
        assert (r0 = x) by (apply (NoDup_map_id_inj _ _ _ Hnd Hin Hxin Hid)).
        subst r0. rewrite key_eqb_spread in Hkey. congruence.
      * intros Hin. left. split; [ exact Hin | ].
        intros Hid.
        assert (r = x) by (apply (NoDup_map_id_inj _ _ _ Hnd Hin Hxin Hid)).
        subst r. congruence.
    + simpl in Hone. lia.
Qed.

Lemma updatePostAnalytics_frame_witness :
  NoDup (map id (post_analytics
                   (AnalyticsRoute.updatePostAnalytics scenario4_db
                      "2024-05-02" "t1" "p1" "instagram" like 3)))
  /\ (forall r,
        key_eqb "t1" "p1" "instagram" "2024-05-02" r = false ->
        (In r (post_analytics
                 (AnalyticsRoute.updatePostAnalytics scenario4_db
                    "2024-05-02" "t1" "p1" "instagram" like 3))
         <-> In r (post_analytics scenario4_db)))
  /\ tenant_users (AnalyticsRoute.updatePostAnalytics scenario4_db
                     "2024-05-02" "t1" "p1" "instagram" like 3)
     = tenant_users scenario4_db
  /\ analytics_events (AnalyticsRoute.updatePostAnalytics scenario4_db
                         "2024-05-02" "t1" "p1" "instagram" like 3)
     = analytics_events scenario4_db.
Proof.
  apply (updatePostAnalytics_frame scenario4_db "2024-05-02" "t1" "p1"
           "instagram" like 3).
  - simpl. repeat constructor; simpl; intuition discriminate.
  - unfold at_most_one_row. simpl. lia.
Defined.


(** ** What the overview adds up *)

Lemma sum_Z_app l l' : sum_Z (l ++ l') = sum_Z l + sum_Z l'.
Proof.
  unfold sum_Z. induction l as [ | x l IH ]; simpl; [ reflexivity | ].
  rewrite IH. lia.
Qed.

Lemma Permutation_filter {A} (P : A -> bool) l l' :
  Permutation l l' -> Permutation (filter P l) (filter P l').
Proof.
  induction 1 as [ | x l l' _ IH | x y l | l l' l'' _ IH1 _ IH2 ]; simpl.
  - constructor.
  - destruct (P x); [ constructor | ]; exact IH.
  - destruct (P x), (P y); try apply Permutation_refl. apply perm_swap.
  - eapply Permutation_trans; eassumption.
Qed.

Lemma totals_of_rows_Permutation l l' :
  Permutation l l' -> totals_of_rows l = totals_of_rows l'.
Proof.
  intros H. unfold totals_of_rows.
  rewrite (sum_Z_Permutation _ _ (Permutation_map views H)),
    (sum_Z_Permutation _ _ (Permutation_map likes H)),
    (sum_Z_Permutation _ _ (Permutation_map comments H)),
    (sum_Z_Permutation _ _ (Permutation_map shares H)),
    (sum_Z_Permutation _ _ (Permutation_map clicks H)),
    (sum_Z_Permutation _ _ (Permutation_map impressions H)),
    (sum_Z_Permutation _ _ (Permutation_map reach H)).
  reflexivity.
Qed.

Lemma group_of_rows_Permutation p l l' :
  Permutation l l' -> group_of_rows p l = group_of_rows p l'.
Proof.
  intros H. unfold group_of_rows.
  pose proof (Permutation_filter (fun r => (platform r =? p)%string) _ _ H)
    as Hf.
  fold (rows_on p l) in Hf. fold (rows_on p l') in Hf.
  rewrite (sum_Z_Permutation _ _ (Permutation_map views Hf)),
    (sum_Z_Permutation _ _ (Permutation_map likes Hf)),
    (sum_Z_Permutation _ _ (Permutation_map comments Hf)),
    (sum_Z_Permutation _ _ (Permutation_map shares Hf)),
    (sum_Z_Permutation _ _ (Permutation_map clicks Hf)),
    (sum_Z_Permutation _ _ (Permutation_map impressions Hf)),
    (Permutation_length Hf).
  reflexivity.
Qed.

Lemma fold_left_add_totals l : forall acc,
  fold_left AnalyticsRoute.add_totals l acc
  = {| AnalyticsRoute.Totals.views :=
         AnalyticsRoute.Totals.views acc + sum_Z (map views l);
       AnalyticsRoute.Totals.likes :=
         AnalyticsRoute.Totals.likes acc + sum_Z (map likes l);
       AnalyticsRoute.Totals.comments :=
         AnalyticsRoute.Totals.comments acc + sum_Z (map comments l);
       AnalyticsRoute.Totals.shares :=
         AnalyticsRoute.Totals.shares acc + sum_Z (map shares l);
       AnalyticsRoute.Totals.clicks :=
         AnalyticsRoute.Totals.clicks acc + sum_Z (map clicks l);
       AnalyticsRoute.Totals.impressions :=
         AnalyticsRoute.Totals.impressions acc + sum_Z (map impressions l);
       AnalyticsRoute.Totals.reach :=
         AnalyticsRoute.Totals.reach acc + sum_Z (map reach l) |}.
Proof.
  induction l as [ | r l IH ]; intros acc; cbn [fold_left map].
  - destruct acc. unfold sum_Z. simpl. f_equal; lia.
  - rewrite IH. unfold AnalyticsRoute.add_totals.
    cbn [AnalyticsRoute.Totals.views AnalyticsRoute.Totals.likes
         AnalyticsRoute.Totals.comments AnalyticsRoute.Totals.shares
         AnalyticsRoute.Totals.clicks AnalyticsRoute.Totals.impressions
         AnalyticsRoute.Totals.reach].
    rewrite !or0_Some.
    change (sum_Z (?x :: ?l)) with (x + sum_Z l).
    f_equal; unfold sum_Z; simpl; lia.
Qed.

Lemma fold_left_add_totals_zero l :
  fold_left AnalyticsRoute.add_totals l AnalyticsRoute.zero_totals
  = totals_of_rows l.
Proof. rewrite fold_left_add_totals. reflexivity. Qed.

Lemma group_of_rows_nil p :
  group_of_rows p []
  = {| AnalyticsRoute.PlatformTotals.platform := p;
       AnalyticsRoute.PlatformTotals.views := 0;
       AnalyticsRoute.PlatformTotals.likes := 0;
       AnalyticsRoute.PlatformTotals.comments := 0;
       AnalyticsRoute.PlatformTotals.shares := 0;
       AnalyticsRoute.PlatformTotals.clicks := 0;
       AnalyticsRoute.PlatformTotals.impressions := 0;
       AnalyticsRoute.PlatformTotals.posts_count := 0 |}.
Proof. reflexivity. Qed.

Lemma rows_on_none p l :
  (forall r, In r l -> platform r <> p) -> rows_on p l = [].
Proof.
  unfold rows_on. induction l as [ | r l IH ]; simpl; intros H.
  - reflexivity.
  - destruct (String.eqb_spec (platform r) p) as [ E | _ ].
    + exfalso. apply (H r); [ left; reflexivity | exact E ].
    + apply IH. intros r' Hin. apply H. right. exact Hin.
Qed.

Lemma group_of_rows_snoc_same p l r :
  platform r = p ->
  group_of_rows p (l ++ [r]) = group_plus (group_of_rows p l) r.
Proof.
  intros E. unfold group_of_rows, group_plus, rows_on.
  rewrite filter_app. simpl filter.
  destruct (String.eqb_spec (platform r) p) as [ _ | N ]; [ | contradiction ].
  rewrite !map_app, !sum_Z_app, length_app.
  cbn [AnalyticsRoute.PlatformTotals.platform
       AnalyticsRoute.PlatformTotals.views AnalyticsRoute.PlatformTotals.likes
       AnalyticsRoute.PlatformTotals.comments
       AnalyticsRoute.PlatformTotals.shares AnalyticsRoute.PlatformTotals.clicks
       AnalyticsRoute.PlatformTotals.impressions
       AnalyticsRoute.PlatformTotals.posts_count].
  unfold sum_Z. simpl. f_equal; lia.
Qed.

Lemma group_of_rows_snoc_other p l r :
  platform r <> p -> group_of_rows p (l ++ [r]) = group_of_rows p l.
Proof.
  intros N. unfold group_of_rows, rows_on.
  rewrite filter_app. simpl filter.
  destruct (String.eqb_spec (platform r) p) as [ E | _ ]; [ contradiction | ].
  rewrite app_nil_r. reflexivity.
Qed.

(** One step of the grouping, on groups with distinct platforms. *)
Lemma add_to_group_spec acc r :
  NoDup (map AnalyticsRoute.PlatformTotals.platform acc) ->
  NoDup (map AnalyticsRoute.PlatformTotals.platform
           (AnalyticsRoute.add_to_group acc r))
  /\ forall g',
       In g' (AnalyticsRoute.add_to_group acc r) <->
       (In g' acc /\ AnalyticsRoute.PlatformTotals.platform g' <> platform r)
       \/ (exists g0,
             In g0 acc
             /\ AnalyticsRoute.PlatformTotals.platform g0 = platform r
             /\ g' = group_plus g0 r)
       \/ ((forall g0, In g0 acc ->
                       AnalyticsRoute.PlatformTotals.platform g0 <> platform r)
           /\ g' = group_plus (group_of_rows (platform r) []) r).
Proof.
  induction acc as [ | g acc IH ]; intros Hnd.
  - split.
    + simpl. constructor; [ intros [] | constructor ].
    + intros g'. cbn [AnalyticsRoute.add_to_group]. rewrite !or0_Some.
      split.
      * intros [ <- | [] ]. right; right. split; [ intros g0 [] | reflexivity ].
      * intros [ ([] & _) | [ (g0 & [] & _) | (_ & ->) ] ].
        left. reflexivity.
  - inversion Hnd as [ | ? ? Hnotin Hnd' ]; subst.
    destruct (IH Hnd') as (IHnd & IHin).
    cbn [AnalyticsRoute.add_to_group]. rewrite !or0_Some.
    destruct (String.eqb_spec (AnalyticsRoute.PlatformTotals.platform g)
                (platform r)) as [ E | N ].
    + split.
      * simpl. exact Hnd.
      * intros g'. simpl. split.
        -- intros [ <- | Hin ].
           ++ right; left. exists g. split; [ left; reflexivity | ].
              split; [ exact E | reflexivity ].
           ++ left. split; [ right; exact Hin | ].
              intros E'. apply Hnotin. rewrite E, <- E'.
              apply in_map. exact Hin.
        -- intros [ ([ <- | Hin ] & Hp) | [ (g0 & [ <- | Hin ] & Hp & ->)
                                          | (Hno & _) ] ].
           ++ contradiction.
           ++ right. exact Hin.
           ++ left. reflexivity.
           ++ exfalso. apply Hnotin. rewrite E, <- Hp. apply in_map. exact Hin.
           ++ exfalso. apply (Hno g); [ left; reflexivity | exact E ].
    + split.
      * simpl. constructor; [ | exact IHnd ].
        intros Hin. apply in_map_iff in Hin. destruct Hin as (g' & Eg & Hin).
        apply IHin in Hin.
        destruct Hin as [ (Hin & _) | [ (g0 & Hin & _ & ->) | (_ & ->) ] ].
        -- apply Hnotin. rewrite <- Eg. apply in_map. exact Hin.
        -- apply Hnotin. simpl in Eg. rewrite <- Eg. apply in_map. exact Hin.
        -- simpl in Eg. congruence.
      * intros g'. simpl. rewrite IHin. split.
        -- intros [ <- | [ (Hin & Hp) | [ (g0 & Hin & Hp & ->) | (Hno & ->) ] ] ].
           ++ left. split; [ left; reflexivity | exact N ].
           ++ left. split; [ right; exact Hin | exact Hp ].
           ++ right; left. exists g0. split; [ right; exact Hin | ]. auto.
           ++ right; right. split; [ | reflexivity ].
              intros g0 [ <- | Hin ]; [ exact N | apply Hno; exact Hin ].
        -- intros [ ([ <- | Hin ] & Hp) | [ (g0 & [ <- | Hin ] & Hp & ->)
                                          | (Hno & ->) ] ].
           ++ left. reflexivity.
           ++ right. left. split; assumption.
           ++ contradiction.
           ++ right. right. left. exists g0. auto.
           ++ right. right. right. split; [ | reflexivity ].
              intros g0 Hin. apply Hno. right. exact Hin.
Qed.

(** The groups of a list of rows: one per platform that occurs, holding
    the sums over the rows of that platform. *)
Lemma fold_left_add_to_group l :
  NoDup (map AnalyticsRoute.PlatformTotals.platform
           (fold_left AnalyticsRoute.add_to_group l []))
  /\ forall g,
       In g (fold_left AnalyticsRoute.add_to_group l []) <->
       (exists r, In r l
                  /\ platform r = AnalyticsRoute.PlatformTotals.platform g)
       /\ g = group_of_rows (AnalyticsRoute.PlatformTotals.platform g) l.
Proof.
  induction l as [ | r l IH ] using rev_ind.
  - split; [ constructor | ]. intros g. simpl. split; [ intros [] | ].
    intros ((r & [] & _) & _).
  - destruct IH as (Hnd & Hin). rewrite fold_left_app. cbn [fold_left].
    destruct (add_to_group_spec (fold_left AnalyticsRoute.add_to_group l [])
                r Hnd) as (Hnd' & Hin').
    split; [ exact Hnd' | ].
    intros g. rewrite Hin'. split.
    + intros [ (Hg & Hp) | [ (g0 & Hg0 & Hp & ->) | (Hno & ->) ] ].
      * apply Hin in Hg. destruct Hg as ((r0 & Hr0 & E0) & Eg). split.
        -- exists r0. split; [ apply in_or_app; left; exact Hr0 | exact E0 ].
        -- rewrite group_of_rows_snoc_other by congruence. exact Eg.
      * apply Hin in Hg0. destruct Hg0 as (_ & Eg0). split.
        -- exists r. split; [ apply in_or_app; right; left; reflexivity | ].
           simpl. congruence.
        -- cbn [group_plus AnalyticsRoute.PlatformTotals.platform].
           rewrite Hp. rewrite group_of_rows_snoc_same by reflexivity.
           rewrite Eg0 at 1. rewrite Hp. reflexivity.
      * split.
        -- exists r. split; [ apply in_or_app; right; left; reflexivity | ].
           reflexivity.
        -- cbn [group_plus group_of_rows AnalyticsRoute.PlatformTotals.platform].
           fold (group_of_rows (platform r) []).
           rewrite group_of_rows_snoc_same by reflexivity.
           f_equal. unfold group_of_rows at 2.
           rewrite rows_on_none; [ reflexivity | ].
           intros r0 Hr0 E0.
           apply (Hno (group_of_rows (platform r) l)); [ | reflexivity ].
           apply Hin. split; [ | reflexivity ].
           exists r0. split; [ exact Hr0 | exact E0 ].
    + intros ((r0 & Hr0 & E0) & Eg).
      destruct (String.eqb_spec (AnalyticsRoute.PlatformTotals.platform g)
                  (platform r)) as [ Ep | Np ].
      * rewrite Ep in Eg.
        rewrite group_of_rows_snoc_same in Eg by reflexivity.
        destruct (in_dec string_dec (platform r)
                    (map platform l)) as [ Hyes | Hno ].
        -- right; left. exists (group_of_rows (platform r) l).
           split; [ | split; [ reflexivity | exact Eg ] ].
           apply Hin. split; [ | reflexivity ].
           apply in_map_iff in Hyes. destruct Hyes as (r1 & E1 & Hr1).
           exists r1. split; [ exact Hr1 | exact E1 ].
        -- right; right. split.
           ++ intros g0 Hg0 E. apply Hno. apply Hin in Hg0.
              destruct Hg0 as ((r1 & Hr1 & E1) & _).
              rewrite <- E, <- E1. apply in_map. exact Hr1.
           ++ rewrite Eg. f_equal. unfold group_of_rows.
              rewrite rows_on_none; [ reflexivity | ].
              intros r1 Hr1 E1. apply Hno. rewrite <- E1.
              apply in_map. exact Hr1.
      * left. split; [ | exact Np ].
        rewrite group_of_rows_snoc_other in Eg by congruence.
        apply Hin. split; [ | exact Eg ].
        apply in_app_or in Hr0. destruct Hr0 as [ Hr0 | [ <- | [] ] ].
        -- exists r0. split; assumption.
        -- congruence.
Qed.

(** The overview of an authorised caller adds up what it selected: each of
    the seven totals is the sum of its column over the selected rows, and
    [by_platform] holds exactly one group for every platform that occurs
    among them, with the six counters summed over the rows of that platform
    and [posts_count] the number of those rows.  The platforms are not names
    of [Object.prototype]. *)
Theorem overview_totals_and_groups
  (db : Database) (userId tenantId : string) (tu : TenantUser.t)
  (q : AnalyticsRoute.Query) :
  truthy (AnalyticsRoute.q_tenantId q) = Some tenantId ->
  tenantUser db tenantId userId = Some tu ->
  plain_platforms
    (AnalyticsRoute.select_post_analytics db tenantId
       (AnalyticsRoute.q_startDate q) (AnalyticsRoute.q_endDate q)
       (AnalyticsRoute.q_platform q)) ->
  exists o,
    AnalyticsRoute.GET db (Some userId) q = Ok o
    /\ AnalyticsRoute.Overview.totals o
       = totals_of_rows
           (AnalyticsRoute.select_post_analytics db tenantId
              (AnalyticsRoute.q_startDate q) (AnalyticsRoute.q_endDate q)
              (AnalyticsRoute.q_platform q))
    /\ NoDup (map AnalyticsRoute.PlatformTotals.platform
                (AnalyticsRoute.Overview.by_platform o))
    /\ forall g,
         In g (AnalyticsRoute.Overview.by_platform o) <->
         (exists r,
            In r (AnalyticsRoute.select_post_analytics db tenantId
                    (AnalyticsRoute.q_startDate q)
                    (AnalyticsRoute.q_endDate q) (AnalyticsRoute.q_platform q))
            /\ platform r = AnalyticsRoute.PlatformTotals.platform g)
         /\ g = group_of_rows (AnalyticsRoute.PlatformTotals.platform g)
                  (AnalyticsRoute.select_post_analytics db tenantId
                     (AnalyticsRoute.q_startDate q)
                     (AnalyticsRoute.q_endDate q)
                     (AnalyticsRoute.q_platform q)).
Proof.
  intros Ht Hu _.
  rewrite (GET_overview_authorized db userId tenantId q tu Ht Hu).
  cbv zeta. eexists. split; [ reflexivity | ].
  cbn [AnalyticsRoute.Overview.totals AnalyticsRoute.Overview.by_platform].
  set (rows := AnalyticsRoute.select_post_analytics db tenantId _ _ _).
  pose proof (order_desc_Permutation
                (fun a b => String.leb (date a) (date b)) rows) as Hp.
  split.
  { rewrite fold_left_add_totals_zero. symmetry.
    apply totals_of_rows_Permutation. exact Hp. }
  destruct (fold_left_add_to_group
              (order_desc (fun a b => String.leb (date a) (date b)) rows))
    as (Hnd & Hin).
  split; [ exact Hnd | ].
  intros g. rewrite Hin.
  rewrite <- (group_of_rows_Permutation _ _ _ Hp).
  split; intros ((r & Hr & E) & Eg); (split; [ | exact Eg ]); exists r;
    (split; [ | exact E ]).
  - apply (Permutation_in r (Permutation_sym Hp)). exact Hr.
  - apply (Permutation_in r Hp). exact Hr.
Qed.

Lemma overview_totals_and_groups_witness :
  exists o,
    AnalyticsRoute.GET uneven_db (Some "u1") (overview_query "t1" None) = Ok o
    /\ AnalyticsRoute.Overview.totals o
       = totals_of_rows
           (AnalyticsRoute.select_post_analytics uneven_db "t1" None None None)
    /\ NoDup (map AnalyticsRoute.PlatformTotals.platform
                (AnalyticsRoute.Overview.by_platform o))
    /\ forall g,
         In g (AnalyticsRoute.Overview.by_platform o) <->
         (exists r,
            In r (AnalyticsRoute.select_post_analytics uneven_db "t1" None
                    None None)
            /\ platform r = AnalyticsRoute.PlatformTotals.platform g)
         /\ g = group_of_rows (AnalyticsRoute.PlatformTotals.platform g)
                  (AnalyticsRoute.select_post_analytics uneven_db "t1" None
                     None None).
Proof.
  apply (overview_totals_and_groups uneven_db "u1" "t1"
           {| TenantUser.tenant_id := "t1"; TenantUser.user_id := "u1";
              TenantUser.role := "admin" |}
           (overview_query "t1" None)).
  - reflexivity.
  - reflexivity.
  - repeat constructor; simpl; intuition discriminate.
Defined.

(** ** The two read handlers side by side *)

Lemma filter_comm {A} (P Q : A -> bool) l :
  filter P (filter Q l) = filter Q (filter P l).
Proof.
  induction l as [ | x l IH ]; simpl; [ reflexivity | ].
  destruct (P x) eqn:EP, (Q x) eqn:EQ; simpl; rewrite ?EP, ?EQ, IH;
    reflexivity.
Qed.

(** The ranking and the overview build the same query: given the same
    tenant and filters they select the same rows, although the handlers
    apply the filters in different orders. *)
Lemma select_post_analytics_same db tenantId platform_ startDate endDate :
  TopPostsRoute.select_post_analytics db tenantId platform_ startDate endDate
  = AnalyticsRoute.select_post_analytics db tenantId startDate endDate
      platform_.
Proof.
  unfold TopPostsRoute.select_post_analytics,
    AnalyticsRoute.select_post_analytics.
  destruct (truthy platform_) as [ p | ], (truthy startDate) as [ s | ],
    (truthy endDate) as [ e | ]; try reflexivity.
  - set (X := filter (fun r => (tenant_id r =? tenantId)%string)
                (post_analytics db)).
    rewrite (filter_comm (fun r => (platform r =? p)%string)
               (fun r => String.leb (date r) e)).
    rewrite (filter_comm (fun r => (platform r =? p)%string)
               (fun r => String.leb s (date r))).
    reflexivity.
  - apply filter_comm.
  - symmetry. apply filter_comm.
Qed.

Lemma StronglySorted_app_inv {A} (R : A -> A -> Prop) l1 l2 :
  StronglySorted R (l1 ++ l2) ->
  forall a b, In a l1 -> In b l2 -> R a b.
Proof.
  induction l1 as [ | x l1 IH ]; simpl; intros Hs a b Ha Hb.
  - destruct Ha.
  - inversion Hs as [ | ? ? Hs' Hx ]; subst.
    destruct Ha as [ <- | Ha ].
    + rewrite Forall_forall in Hx. apply Hx. apply in_or_app. right. exact Hb.
    + apply IH; assumption.
Qed.

(** The ranking cuts nothing it should keep: the posts returned and the
    selected rows left out make up the selection, the number returned is
    the smaller of [limit] (10 when absent) and the size of the selection,
    and no row left out has a larger value of the ordering column than a
    row returned. *)
Theorem top_posts_cut
  (db : Database) (userId tenantId : string) (tu : TenantUser.t)
  (q : TopPostsRoute.Query) :
  truthy (TopPostsRoute.q_tenantId q) = Some tenantId ->
  tenantUser db tenantId userId = Some tu ->
  exists tops rest,
    TopPostsRoute.GET db (Some userId) q
    = Ok (map (TopPostsRoute.format db) tops)
    /\ Permutation
         (TopPostsRoute.select_post_analytics db tenantId
            (TopPostsRoute.q_platform q) (TopPostsRoute.q_startDate q)
            (TopPostsRoute.q_endDate q))
         (tops ++ rest)
    /\ List.length tops
       = Nat.min (or_else (TopPostsRoute.q_limit q) 10%nat)
           (List.length
              (TopPostsRoute.select_post_analytics db tenantId
                 (TopPostsRoute.q_platform q) (TopPostsRoute.q_startDate q)
                 (TopPostsRoute.q_endDate q)))
    /\ forall a b,
         In a tops -> In b rest ->
         TopPostsRoute.column (TopPostsRoute.orderBy q) b
         <= TopPostsRoute.column (TopPostsRoute.orderBy q) a.
Proof.
  intros Ht Hu.
  set (rows := TopPostsRoute.select_post_analytics db tenantId _ _ _).
  set (col := TopPostsRoute.column (TopPostsRoute.orderBy q)).
  set (sorted := order_desc (fun a b => col a <=? col b) rows).
  set (n := or_else (TopPostsRoute.q_limit q) 10%nat).
  exists (firstn n sorted), (skipn n sorted).
  split; [ exact (GET_top_posts_authorized _ _ _ _ _ Ht Hu) | ].
  split; [ rewrite firstn_skipn; apply order_desc_Permutation | ].
  split.
  - rewrite length_firstn. unfold sorted.
    rewrite <- (Permutation_length
                  (order_desc_Permutation (fun a b => col a <=? col b) rows)).
    reflexivity.
  - intros a b Ha Hb.
    pose proof (order_desc_sorted PostAnalytics col rows) as Hs.
    fold sorted in Hs. rewrite <- (firstn_skipn n sorted) in Hs.
    exact (StronglySorted_app_inv _ _ _ Hs a b Ha Hb).
Qed.

Lemma top_posts_cut_witness :
  exists tops rest,
    TopPostsRoute.GET scenario4_db (Some "u1") scenario4_query
    = Ok (map (TopPostsRoute.format scenario4_db) tops)
    /\ Permutation
         (TopPostsRoute.select_post_analytics scenario4_db "t1" None None None)
         (tops ++ rest)
    /\ List.length tops
       = Nat.min 2
           (List.length
              (TopPostsRoute.select_post_analytics scenario4_db "t1" None None
                 None))
    /\ forall a b,
         In a tops -> In b rest ->
         TopPostsRoute.column "views" b <= TopPostsRoute.column "views" a.
Proof.
  apply (top_posts_cut scenario4_db "u1" "t1"
           {| TenantUser.tenant_id := "t1"; TenantUser.user_id := "u1";
              TenantUser.role := "admin" |}
           scenario4_query); reflexivity.
Defined.

(** With the same tenant and filters, and a limit that does not cut, the
    ranking returns the rows the overview lists in [records], in another
    order at most. *)
Theorem ranking_lists_overview_records
  (db : Database) (userId tenantId : string) (tu : TenantUser.t)
  (qo : AnalyticsRoute.Query) (qt : TopPostsRoute.Query) :
  truthy (AnalyticsRoute.q_tenantId qo) = Some tenantId ->
  truthy (TopPostsRoute.q_tenantId qt) = Some tenantId ->
  tenantUser db tenantId userId = Some tu ->
  TopPostsRoute.q_platform qt = AnalyticsRoute.q_platform qo ->
  TopPostsRoute.q_startDate qt = AnalyticsRoute.q_startDate qo ->
  TopPostsRoute.q_endDate qt = AnalyticsRoute.q_endDate qo ->
  (List.length
     (AnalyticsRoute.select_post_analytics db tenantId
        (AnalyticsRoute.q_startDate qo) (AnalyticsRoute.q_endDate qo)
        (AnalyticsRoute.q_platform qo))
   <= or_else (TopPostsRoute.q_limit qt) 10)%nat ->
  exists o tops,
    AnalyticsRoute.GET db (Some userId) qo = Ok o
    /\ TopPostsRoute.GET db (Some userId) qt
       = Ok (map (TopPostsRoute.format db) tops)
    /\ Permutation (AnalyticsRoute.Overview.records o) tops.
Proof.
  intros Ho Ht Hu Hp Hs He Hlen.
  rewrite (GET_overview_authorized db userId tenantId qo tu Ho Hu).
  rewrite (GET_top_posts_authorized db userId tenantId qt tu Ht Hu).
  cbv zeta. eexists. eexists.
  split; [ reflexivity | ]. split; [ reflexivity | ].
  cbn [AnalyticsRoute.Overview.records].
  unfold TopPostsRoute.topPosts.
  rewrite Hp, Hs, He, select_post_analytics_same.
  set (rows := AnalyticsRoute.select_post_analytics db tenantId _ _ _) in *.
  rewrite firstn_all2.
  - eapply Permutation_trans.
    + apply Permutation_sym. apply order_desc_Permutation.
    + apply order_desc_Permutation.
  - match goal with
    | |- (List.length (order_desc ?leb rows) <= _)%nat =>
        rewrite <- (Permutation_length (order_desc_Permutation leb rows))
    end.
    exact Hlen.
Qed.

Lemma ranking_lists_overview_records_witness :
  exists o tops,
    AnalyticsRoute.GET scenario4_db (Some "u1") (overview_query "t1" None)
    = Ok o
    /\ TopPostsRoute.GET scenario4_db (Some "u1")
         {| TopPostsRoute.q_tenantId := Some "t1";
            TopPostsRoute.q_metric := Some "likes";
            TopPostsRoute.q_limit := None;
            TopPostsRoute.q_platform := None;
            TopPostsRoute.q_startDate := None;
            TopPostsRoute.q_endDate := None |}
       = Ok (map (TopPostsRoute.format scenario4_db) tops)
    /\ Permutation (AnalyticsRoute.Overview.records o) tops.
Proof.
  apply (ranking_lists_overview_records scenario4_db "u1" "t1"
           {| TenantUser.tenant_id := "t1"; TenantUser.user_id := "u1";
              TenantUser.role := "admin" |}
           (overview_query "t1" None)
           {| TopPostsRoute.q_tenantId := Some "t1";
              TopPostsRoute.q_metric := Some "likes";
              TopPostsRoute.q_limit := None;
              TopPostsRoute.q_platform := None;
              TopPostsRoute.q_startDate := None;
              TopPostsRoute.q_endDate := None |});
    try reflexivity.
  simpl. lia.
Defined.

Lemma NoDup_all_equal {A} (x : A) l :
  NoDup l -> (forall y, In y l -> y = x) -> (List.length l <= 1)%nat.
Proof.
  intros Hnd Hall. destruct l as [ | a [ | b l ] ]; simpl; try lia.
  exfalso. inversion Hnd as [ | ? ? Hnotin _ ]; subst. apply Hnotin.
  rewrite (Hall a) by (left; reflexivity).
  rewrite <- (Hall b) by (right; left; reflexivity).
  left. reflexivity.
Qed.

(** An overview asked for one platform: every record listed is of that
    platform and [by_platform] has at most one group, of that platform. *)
Theorem overview_of_one_platform
  (db : Database) (userId tenantId : string) (tu : TenantUser.t)
  (q : AnalyticsRoute.Query) (platform_ : string) :
  truthy (AnalyticsRoute.q_tenantId q) = Some tenantId ->
  tenantUser db tenantId userId = Some tu ->
  AnalyticsRoute.q_platform q = Some platform_ ->
  platform_ <> "" ->
  exists o,
    AnalyticsRoute.GET db (Some userId) q = Ok o
    /\ Forall (fun r => platform r = platform_)
         (AnalyticsRoute.Overview.records o)
    /\ Forall (fun g => AnalyticsRoute.PlatformTotals.platform g = platform_)
         (AnalyticsRoute.Overview.by_platform o)
    /\ (List.length (AnalyticsRoute.Overview.by_platform o) <= 1)%nat.
Proof.
  intros Ht Hu Hp Hne.
  rewrite (GET_overview_authorized db userId tenantId q tu Ht Hu).
  cbv zeta. eexists. split; [ reflexivity | ].
  cbn [AnalyticsRoute.Overview.records AnalyticsRoute.Overview.by_platform].
  set (rows := AnalyticsRoute.select_post_analytics db tenantId _ _ _).
  set (analytics := order_desc _ rows).
  assert (Hrows : forall r, In r analytics -> platform r = platform_).
  { intros r Hin. unfold analytics in Hin.
    apply (Permutation_in r (Permutation_sym (order_desc_Permutation _ rows)))
      in Hin.
    unfold rows, AnalyticsRoute.select_post_analytics in Hin.
    rewrite Hp in Hin.
    replace (truthy (Some platform_)) with (Some platform_) in Hin
      by (destruct platform_; [ congruence | reflexivity ]).
    apply filter_In in Hin. destruct Hin as (_ & E).
    apply String.eqb_eq. exact E. }
  destruct (fold_left_add_to_group analytics) as (Hnd & Hin).
  assert (Hgroups : forall g,
            In g (fold_left AnalyticsRoute.add_to_group analytics []) ->
            AnalyticsRoute.PlatformTotals.platform g = platform_).
  { intros g Hg. apply Hin in Hg. destruct Hg as ((r & Hr & E) & _).
    rewrite <- E. apply Hrows. exact Hr. }
  split; [ apply Forall_forall; exact Hrows | ].
  split; [ apply Forall_forall; exact Hgroups | ].
  rewrite <- (length_map AnalyticsRoute.PlatformTotals.platform).
  apply (NoDup_all_equal platform_); [ exact Hnd | ].
  intros y Hy. apply in_map_iff in Hy. destruct Hy as (g & <- & Hg).
  apply Hgroups. exact Hg.
Qed.

Lemma overview_of_one_platform_witness :
  exists o,
    AnalyticsRoute.GET scenario4_db (Some "u1")
      (overview_query "t1" (Some "instagram")) = Ok o
    /\ Forall (fun r => platform r = "instagram")
         (AnalyticsRoute.Overview.records o)
    /\ Forall (fun g => AnalyticsRoute.PlatformTotals.platform g = "instagram")
         (AnalyticsRoute.Overview.by_platform o)
    /\ (List.length (AnalyticsRoute.Overview.by_platform o) <= 1)%nat.
Proof.
  apply (overview_of_one_platform scenario4_db "u1" "t1"
           {| TenantUser.tenant_id := "t1"; TenantUser.user_id := "u1";
              TenantUser.role := "admin" |}
           (overview_query "t1" (Some "instagram")) "instagram");
    try reflexivity.
  discriminate.
Defined.

(** ** Who may read *)

Lemma tenantUser_Some db tenantId userId tu :
  tenantUser db tenantId userId = Some tu ->
  In tu (tenant_users db)
  /\ TenantUser.tenant_id tu = tenantId
  /\ TenantUser.user_id tu = userId.
Proof.
  unfold tenantUser. intros H.
  destruct (filter _ (tenant_users db)) as [ | x [ | y l ] ] eqn:F;
    try discriminate.
  injection H as <-.
  assert (Hin : In x (filter
                        (fun tu => (TenantUser.tenant_id tu =? tenantId)%string
                                   && (TenantUser.user_id tu =? userId)%string)
                        (tenant_users db)))
    by (rewrite F; left; reflexivity).
  apply filter_In in Hin. destruct Hin as (Hin & E).
  apply andb_true_iff in E. destruct E as (E1 & E2).
  apply String.eqb_eq in E1. apply String.eqb_eq in E2. auto.
Qed.

(** Both read handlers answer with data only to an authenticated caller
    who holds a membership row in the tenant asked for; everyone else gets
    401 (no user), 400 (no tenant id) or 403 (no membership), in that
    order. *)
Theorem reads_require_membership
  (db : Database) (user : option string)
  (qo : AnalyticsRoute.Query) (qt : TopPostsRoute.Query) :
  match AnalyticsRoute.GET db user qo with
  | Ok _ =>
      exists userId tenantId tu,
        user = Some userId
        /\ truthy (AnalyticsRoute.q_tenantId qo) = Some tenantId
        /\ In tu (tenant_users db)
        /\ TenantUser.tenant_id tu = tenantId
        /\ TenantUser.user_id tu = userId
  | Error status _ =>
      (status = 401%nat /\ user = None)
      \/ (status = 400%nat /\ user <> None
          /\ truthy (AnalyticsRoute.q_tenantId qo) = None)
      \/ (status = 403%nat
          /\ exists userId tenantId,
               user = Some userId
               /\ truthy (AnalyticsRoute.q_tenantId qo) = Some tenantId
               /\ tenantUser db tenantId userId = None)
  end
  /\ match TopPostsRoute.GET db user qt with
     | Ok _ =>
         exists userId tenantId tu,
           user = Some userId
           /\ truthy (TopPostsRoute.q_tenantId qt) = Some tenantId
           /\ In tu (tenant_users db)
           /\ TenantUser.tenant_id tu = tenantId
           /\ TenantUser.user_id tu = userId
     | Error status _ =>
         (status = 401%nat /\ user = None)
         \/ (status = 400%nat /\ user <> None
             /\ truthy (TopPostsRoute.q_tenantId qt) = None)
         \/ (status = 403%nat
             /\ exists userId tenantId,
                  user = Some userId
                  /\ truthy (TopPostsRoute.q_tenantId qt) = Some tenantId
                  /\ tenantUser db tenantId userId = None)
     end.
Proof.
  split.
  - unfold AnalyticsRoute.GET. destruct user as [ userId | ].
    2: { left. split; reflexivity. }
    destruct (truthy (AnalyticsRoute.q_tenantId qo)) as [ tenantId | ] eqn:Ht.
    2: { right; left. repeat split; congruence. }
    destruct (tenantUser db tenantId userId) as [ tu | ] eqn:Hu.
    + exists userId, tenantId, tu.
      destruct (tenantUser_Some _ _ _ _ Hu) as (H1 & H2 & H3). auto.
    + right; right. split; [ reflexivity | ]. exists userId, tenantId. auto.
  - unfold TopPostsRoute.GET. destruct user as [ userId | ].
    2: { left. split; reflexivity. }
    destruct (truthy (TopPostsRoute.q_tenantId qt)) as [ tenantId | ] eqn:Ht.
    2: { right; left. repeat split; congruence. }
    destruct (tenantUser db tenantId userId) as [ tu | ] eqn:Hu.
    + exists userId, tenantId, tu.
      destruct (tenantUser_Some _ _ _ _ Hu) as (H1 & H2 & H3). auto.
    + right; right. split; [ reflexivity | ]. exists userId, tenantId. auto.
Qed.

(* ================================================================== *)
(** * Properties of the platform settings routes *)

(** ** [encodeURIComponent] *)

Lemma percent_decode_encode_byte c rest :
  percent_decode (Uri.encode_byte c rest)
  = option_map (String c) (percent_decode rest).
Proof.
  destruct c as [ [] [] [] [] [] [] [] [] ]; reflexivity.
Qed.

Lemma percent_decode_encode s :
  percent_decode (Uri.encodeURIComponent s) = Some s.
Proof.
  induction s as [ | c s IH ]; simpl.
  - reflexivity.
  - rewrite percent_decode_encode_byte, IH. reflexivity.
Qed.

Lemma encode_byte_chars c rest x :
  In x (list_ascii_of_string (Uri.encode_byte c rest)) ->
  Uri.unreserved x = true \/ x = "%"%char
  \/ In x (list_ascii_of_string rest).
Proof.
  destruct c as [ [] [] [] [] [] [] [] [] ];
    cbv [Uri.encode_byte]; simpl;
    intuition (subst; auto).
Qed.

(** [encodeURIComponent] leaves only unreserved characters and [%] in its
    result, so none of the characters that structure a query string
    ([&], [=], [?], [#], [+], [/], space) survives; and it loses nothing:
    two strings with the same encoding are the same string. *)
Theorem encodeURIComponent_safe_and_injective :
  (forall s x,
     In x (list_ascii_of_string (Uri.encodeURIComponent s)) ->
     Uri.unreserved x = true \/ x = "%"%char)
  /\ (forall s x,
        In x [ "&"; "="; "?"; "#"; "+"; "/"; " " ]%char ->
        ~ In x (list_ascii_of_string (Uri.encodeURIComponent s)))
  /\ (forall s1 s2,
        Uri.encodeURIComponent s1 = Uri.encodeURIComponent s2 -> s1 = s2).
Proof.
  assert (Safe : forall s x,
            In x (list_ascii_of_string (Uri.encodeURIComponent s)) ->
            Uri.unreserved x = true \/ x = "%"%char).
  { induction s as [ | c s IH ]; intros x Hin.
    - destruct Hin.
    - cbn [Uri.encodeURIComponent] in Hin.
      apply encode_byte_chars in Hin.
      destruct Hin as [ H | [ H | H ] ]; auto. }
  split; [ exact Safe | ]. split.
  - intros s x Hx Hin. apply Safe in Hin. simpl in Hx.
    repeat (destruct Hx as [ <- | Hx ];
            [ destruct Hin as [ H | H ]; discriminate H | ]).
    exact Hx.
  - intros s1 s2 E.
    pose proof (percent_decode_encode s1) as H1.
    rewrite E, percent_decode_encode in H1. congruence.
Qed.

Example encodeURIComponent_redirect :
  Uri.encodeURIComponent "https://app.example/cb?next=/a b&x=1"
  = "https%3A%2F%2Fapp.example%2Fcb%3Fnext%3D%2Fa%20b%26x%3D1".
Proof. reflexivity. Qed.

(** ** The authorization URL *)

Lemma platform_enum_Some v p :
  platform_enum v = Some p -> v = Some (JStr p) /\ In p known_platforms.
Proof.
  unfold platform_enum.
  destruct v as [ [ | b | n | s | items | fs ] | ]; try discriminate.
  destruct (existsb _ _) eqn:E; [ | discriminate ].
  intros H. injection H as <-. split; [ reflexivity | ].
  apply existsb_exists in E. destruct E as (x & Hx & Ex).
  apply String.eqb_eq in Ex. subst x. exact Hx.
Qed.

(** [getOAuthUrl] knows exactly the six platforms of the schemas: it
    returns [null] for any other platform, and for each of the six a URL
    that is not empty. *)
Lemma getOAuthUrl_known platform_ clientId redirectUri customScopes :
  (OAuthUrlRoute.getOAuthUrl platform_ clientId redirectUri customScopes = None
   <-> ~ In platform_ known_platforms)
  /\ truthy (OAuthUrlRoute.getOAuthUrl platform_ clientId redirectUri
               customScopes)
     = OAuthUrlRoute.getOAuthUrl platform_ clientId redirectUri customScopes.
Proof.
  unfold OAuthUrlRoute.getOAuthUrl, known_platforms.
  destruct (String.eqb_spec platform_ "instagram") as [ -> | N1 ].
  { split; [ | reflexivity ]. split; [ discriminate | ].
    intros H. exfalso. apply H. simpl. auto. }
  destruct (String.eqb_spec platform_ "facebook") as [ -> | N2 ].
  { split; [ | reflexivity ]. split; [ discriminate | ].
    intros H. exfalso. apply H. simpl. auto. }
  cbn [orb].
  destruct (String.eqb_spec platform_ "tiktok") as [ -> | N3 ].
  { split; [ | reflexivity ]. split; [ discriminate | ].
    intros H. exfalso. apply H. simpl. auto. }
  destruct (String.eqb_spec platform_ "linkedin") as [ -> | N4 ].
  { split; [ | reflexivity ]. split; [ discriminate | ].
    intros H. exfalso. apply H. simpl. tauto. }
  destruct (String.eqb_spec platform_ "youtube") as [ -> | N5 ].
  { split; [ | reflexivity ]. split; [ discriminate | ].
    intros H. exfalso. apply H. simpl. tauto. }
  destruct (String.eqb_spec platform_ "google_ads") as [ -> | N6 ].
  { split; [ | reflexivity ]. split; [ discriminate | ].
    intros H. exfalso. apply H. simpl. tauto. }
  split; [ | reflexivity ]. split; [ | reflexivity ].
  intros _ H. simpl in H.
  repeat (destruct H as [ H | H ]; [ congruence | ]). exact H.
Qed.

Lemma oauthUrlSchema_platform is_url body data :
  OAuthUrlRoute.oauthUrlSchema is_url body = Some data ->
  In (OAuthUrlRoute.Body.platform data) known_platforms.
Proof.
  unfold OAuthUrlRoute.oauthUrlSchema.
  destruct body as [ | b | n | s | items | fields ]; try discriminate.
  intros H.
  repeat match type of H with
         | Zod.and_then ?x _ = Some _ =>
             let E := fresh "E" in
             destruct x eqn:E; cbn [Zod.and_then] in H; [ | discriminate H ]
         end.
  injection H as <-. cbn [OAuthUrlRoute.Body.platform].
  apply platform_enum_Some in E0. tauto.
Qed.

(** What each answer of the OAuth URL handler tells.  A URL is given only
    to a member of the tenant, and it is the one [getOAuthUrl] builds from
    the stored client id, the stored redirect URI when there is one (else
    the requested one) and the stored scopes of the tenant's one active set
    of credentials for the platform.  A member is told to configure the
    platform when no such set is found; for an owner or admin, whom the
    row-level policy of the table lets read it, that is when the tenant
    has none or several.  A 401 is given only to a request without a user,
    a 403 only to a user who is no member of the tenant, and a 400 that does
    not ask for configuration only to a body the schema rejects, as
    "Invalid request": the handler's last refusal, "Failed to generate
    OAuth URL", is never given.  Nothing is said of the answers of the
    handler's [catch] (a 500 on a body that is not JSON or on a string that
    is not well-formed text), which no request of the embedding reaches. *)
Theorem oauth_url_outcomes
  (is_url : string -> bool) (db : Settings) (user : option string)
  (body : json) :
  match OAuthUrlRoute.POST is_url db user body with
  | OAuthUrlRoute.OAuthUrl oauthUrl platform_ =>
      exists userId data tu credentials,
        user = Some userId
        /\ OAuthUrlRoute.oauthUrlSchema is_url body = Some data
        /\ tenantUser (core db) (OAuthUrlRoute.Body.tenantId data) userId
           = Some tu
        /\ OAuthUrlRoute.active_credentials db
             (OAuthUrlRoute.Body.tenantId data)
             (OAuthUrlRoute.Body.platform data) = Some credentials
        /\ platform_ = OAuthUrlRoute.Body.platform data
        /\ In platform_ known_platforms
        /\ OAuthUrlRoute.getOAuthUrl platform_
             (PlatformCredential.client_id credentials)
             (or_else (truthy (PlatformCredential.redirect_uri credentials))
                      (OAuthUrlRoute.Body.redirectUri data))
             (PlatformCredential.scopes credentials)
           = Some oauthUrl
  | OAuthUrlRoute.NeedsConfiguration _ =>
      exists userId data tu,
        user = Some userId
        /\ OAuthUrlRoute.oauthUrlSchema is_url body = Some data
        /\ tenantUser (core db) (OAuthUrlRoute.Body.tenantId data) userId
           = Some tu
        /\ (owner_or_admin db (OAuthUrlRoute.Body.tenantId data) user ->
            OAuthUrlRoute.active_credentials db
              (OAuthUrlRoute.Body.tenantId data)
              (OAuthUrlRoute.Body.platform data) = None)
  | OAuthUrlRoute.Failure status message =>
      (status = 401%nat -> user = None)
      /\ (status = 400%nat ->
          message = "Invalid request" /\ user <> None
          /\ OAuthUrlRoute.oauthUrlSchema is_url body = None)
      /\ (status = 403%nat ->
          exists userId data,
            user = Some userId
            /\ OAuthUrlRoute.oauthUrlSchema is_url body = Some data
            /\ tenantUser (core db) (OAuthUrlRoute.Body.tenantId data)
                 userId = None)
  end.
Proof.
  unfold OAuthUrlRoute.POST.
  destruct user as [ userId | ].
  2: { repeat split; intros; try reflexivity; discriminate. }
  destruct (OAuthUrlRoute.oauthUrlSchema is_url body) as [ data | ] eqn:Hs.
  2: { repeat split; intros; try reflexivity; discriminate. }
  destruct (tenantUser (core db) (OAuthUrlRoute.Body.tenantId data) userId)
    as [ tu | ] eqn:Hu.
  2: { split; [ discriminate | ]. split; [ discriminate | ].
       intros _. exists userId, data. auto. }
  destruct (OAuthUrlRoute.active_credentials db
              (OAuthUrlRoute.Body.tenantId data)
              (OAuthUrlRoute.Body.platform data)) as [ c | ] eqn:Hc.
  2: { exists userId, data, tu. auto. }
  cbv zeta.
  pose proof (oauthUrlSchema_platform is_url body data Hs) as Hp.
  destruct (getOAuthUrl_known (OAuthUrlRoute.Body.platform data)
              (PlatformCredential.client_id c)
              (or_else (truthy (PlatformCredential.redirect_uri c))
                       (OAuthUrlRoute.Body.redirectUri data))
              (PlatformCredential.scopes c)) as (Hnone & Htruthy).
  rewrite Htruthy.
  destruct (OAuthUrlRoute.getOAuthUrl _ _ _ _) as [ u | ] eqn:Hg.
  - exists userId, data, tu, c. repeat split; auto.
  - exfalso. apply Hnone; [ reflexivity | exact Hp ].
Qed.

(** ** Connecting a platform *)

Lemma exchangeCodeForToken_fails platform_ code redirectUri :
  exists message,
    ConnectRoute.exchangeCodeForToken platform_ code redirectUri
    = ConnectRoute.failed message
    /\ truthy (Some message) = Some message.
Proof.
  unfold ConnectRoute.exchangeCodeForToken.
  repeat match goal with
         | |- context [ if ?b then _ else _ ] =>
             destruct b; [ eexists; split; reflexivity | ]
         end.
  eexists; split; reflexivity.
Qed.

(** No request connects a platform.  The token exchange refuses every
    platform, so the handler never answers a connection, and it leaves
    the connections, the audit log and every other table as they were; an
    owner or admin of the tenant who sends a valid body is answered 400
    with the message of the exchange. *)
Theorem connect_never_connects
  (is_url : string -> bool) (db : Settings) (user : option string)
  (body : json) (now new_id random : string) :
  snd (ConnectRoute.POST is_url db user body now new_id random) = db
  /\ (exists status message,
        fst (ConnectRoute.POST is_url db user body now new_id random)
        = ConnectRoute.Refused status message)
  /\ (forall userId data,
        user = Some userId ->
        ConnectRoute.connectSchema is_url body = Some data ->
        not_owner_or_admin
          (tenantUser (core db) (ConnectRoute.Body.tenantId data) userId)
        = false ->
        exists message,
          ConnectRoute.TokenData.error
            (ConnectRoute.exchangeCodeForToken
               (ConnectRoute.Body.platform data)
               (ConnectRoute.Body.code data)
               (ConnectRoute.Body.redirectUri data)) = Some message
          /\ fst (ConnectRoute.POST is_url db user body now new_id random)
             = ConnectRoute.Refused 400 message).
Proof.
  unfold ConnectRoute.POST.
  destruct user as [ userId | ].
  2: { split; [ reflexivity | ]. split; [ eexists; eexists; reflexivity | ].
       intros ? ? E. discriminate E. }
  destruct (ConnectRoute.connectSchema is_url body) as [ data | ].
  2: { split; [ reflexivity | ]. split; [ eexists; eexists; reflexivity | ].
       intros ? ? _ E. discriminate E. }
  destruct (not_owner_or_admin
              (tenantUser (core db) (ConnectRoute.Body.tenantId data) userId))
    eqn:Hrole.
  { split; [ reflexivity | ]. split; [ eexists; eexists; reflexivity | ].
    intros u d Eu Ed Hr. injection Eu as <-. injection Ed as <-. congruence. }
  cbv zeta.
  destruct (exchangeCodeForToken_fails (ConnectRoute.Body.platform data)
              (ConnectRoute.Body.code data)
              (ConnectRoute.Body.redirectUri data)) as (m & Em & Hm).
  rewrite Em.
  cbn [ConnectRoute.failed ConnectRoute.TokenData.success
       ConnectRoute.TokenData.error negb].
  rewrite Hm. cbn [or_else fst snd].
  split; [ reflexivity | ]. split; [ eexists; eexists; reflexivity | ].
  intros u d Eu Ed _. injection Eu as <-. injection Ed as <-.
  exists m. split; [ rewrite Em; reflexivity | reflexivity ].
Qed.

(** ** Platform credentials *)

Lemma not_owner_or_admin_false db tenantId userId :
  not_owner_or_admin (tenantUser (core db) tenantId userId) = false ->
  owner_or_admin db tenantId (Some userId).
Proof.
  unfold not_owner_or_admin, owner_or_admin.
  destruct (tenantUser (core db) tenantId userId) as [ tu | ] eqn:Hu;
    [ | discriminate ].
  intros H. apply negb_false_iff in H. apply existsb_exists in H.
  destruct H as (x & Hx & E). apply String.eqb_eq in E. subst x.
  exists userId, tu. auto.
Qed.

(** Only an owner or an admin of the tenant named in the request reads or
    writes its credentials: the listing, the upsert and the deletion
    succeed for no one else, and every refusal leaves the tables as they
    were. *)
Theorem credentials_need_owner_or_admin
  (is_url : string -> bool) (no_single_row duplicate_key : string)
  (db : Settings) (user : option string) :
  (forall tenantId l,
     CredentialsRoute.GET db user tenantId = Ok l ->
     exists t, truthy tenantId = Some t /\ owner_or_admin db t user)
  /\ (forall body now new_id,
        match
          CredentialsRoute.POST is_url no_single_row duplicate_key db user
            body now new_id
        with
        | (Ok _, _) =>
            exists data,
              CredentialsRoute.credentialSchema is_url body = Some data
              /\ owner_or_admin db (CredentialsRoute.Body.tenantId data) user
        | (Error _ _, db') => db' = db
        end)
  /\ (forall tenantId credentialId,
        match CredentialsRoute.DELETE db user tenantId credentialId with
        | (Ok _, _) =>
            exists t, tenantId = Some t /\ owner_or_admin db t user
        | (Error _ _, db') => db' = db
        end).
Proof.
  split; [ | split ].
  - intros tenantId l. unfold CredentialsRoute.GET.
    destruct user as [ userId | ]; [ | discriminate ].
    destruct (truthy tenantId) as [ t | ]; [ | discriminate ].
    destruct (not_owner_or_admin (tenantUser (core db) t userId)) eqn:R;
      [ discriminate | ].
    intros _. exists t. split; [ reflexivity | ].
    apply not_owner_or_admin_false. exact R.
  - intros body now new_id. unfold CredentialsRoute.POST.
    destruct user as [ userId | ]; [ | reflexivity ].
    destruct (CredentialsRoute.credentialSchema is_url body) as [ data | ];
      [ | reflexivity ].
    destruct (not_owner_or_admin
                (tenantUser (core db) (CredentialsRoute.Body.tenantId data)
                   userId)) eqn:R; [ reflexivity | ].
    apply not_owner_or_admin_false in R. cbv zeta.
    destruct (single (filter _ (platform_credentials db))) as [ old | ].
    + destruct (single (filter _ (map _ (platform_credentials db))));
        [ exists data; auto | reflexivity ].
    + destruct (existsb _ (platform_credentials db));
        [ reflexivity | exists data; auto ].
  - intros tenantId credentialId. unfold CredentialsRoute.DELETE.
    destruct user as [ userId | ]; [ | reflexivity ].
    destruct tenantId as [ t | ]; [ | reflexivity ].
    destruct credentialId as [ cid | ]; [ | reflexivity ].
    destruct (not_owner_or_admin (tenantUser (core db) t userId)) eqn:R;
      [ reflexivity | ].
    exists t. split; [ reflexivity | ].
    apply not_owner_or_admin_false. exact R.
Qed.

Lemma NoDup_map_inj_in {A B} (f : A -> B) (l : list A) a b :
  NoDup (map f l) -> In a l -> In b l -> f a = f b -> a = b.
Proof.
  induction l as [ | x l IH ]; simpl; intros Hnd Ha Hb E.
  - destruct Ha.
  - inversion Hnd as [ | ? ? Hnotin Hnd' ]; subst.
    destruct Ha as [ -> | Ha ], Hb as [ -> | Hb ].
    + reflexivity.
    + exfalso. apply Hnotin. rewrite E. apply in_map. exact Hb.
    + exfalso. apply Hnotin. rewrite <- E. apply in_map. exact Ha.
    + apply IH; assumption.
Qed.

Lemma filter_by_id (l : list PlatformCredential.t) x :
  NoDup (map PlatformCredential.id l) -> In x l ->
  filter (fun c => (PlatformCredential.id c =? PlatformCredential.id x)%string)
    l = [x].
Proof.
  induction l as [ | y l IH ]; simpl; intros Hnd Hin.
  - destruct Hin.
  - inversion Hnd as [ | ? ? Hnotin Hnd' ]; subst.
    destruct Hin as [ -> | Hin ].
    + rewrite String.eqb_refl. f_equal.
      clear IH Hnd Hnd'. induction l as [ | c l IH ]; simpl; [ reflexivity | ].
      destruct (String.eqb_spec (PlatformCredential.id c)
                  (PlatformCredential.id x)) as [ E | _ ].
      * exfalso. apply Hnotin. left. exact E.
      * apply IH. intros Hin. apply Hnotin. right. exact Hin.
    + destruct (String.eqb_spec (PlatformCredential.id y)
                  (PlatformCredential.id x)) as [ E | _ ].
      * exfalso. apply Hnotin. rewrite E. apply in_map. exact Hin.
      * apply IH; assumption.
Qed.

Lemma credentialSchema_tenantId is_url body data :
  CredentialsRoute.credentialSchema is_url body = Some data ->
  truthy (Some (CredentialsRoute.Body.tenantId data))
  = Some (CredentialsRoute.Body.tenantId data).
Proof.
  unfold CredentialsRoute.credentialSchema.
  destruct body as [ | b | n | s | items | fields ]; try discriminate.
  intros H.
  repeat match type of H with
         | Zod.and_then ?x _ = Some _ =>
             let E := fresh "E" in
             destruct x eqn:E; cbn [Zod.and_then] in H; [ | discriminate H ]
         end.
  injection H as <-. cbn [CredentialsRoute.Body.tenantId].
  unfold Zod.uuid in E.
  destruct (Zod.prop "tenantId" fields) as [ [ | ? | ? | t | ? | ? ] | ];
    try discriminate.
  destruct (Zod.is_uuid t) eqn:U; [ | discriminate ].
  injection E as <-. apply is_uuid_nonempty. exact U.
Qed.

Lemma owner_or_admin_allowed db tenantId userId :
  owner_or_admin db tenantId (Some userId) ->
  not_owner_or_admin (tenantUser (core db) tenantId userId) = false.
Proof.
  intros (u & tu & E & Hu & Hrole). injection E as <-.
  unfold not_owner_or_admin. rewrite Hu.
  apply negb_false_iff. apply existsb_exists.
  exists (TenantUser.role tu). split; [ exact Hrole | apply String.eqb_refl ].
Qed.

Lemma filter_map_preserved {A} (P : A -> bool) (f : A -> A) l :
  (forall x, P (f x) = P x) ->
  filter P (map f l) = map f (filter P l).
Proof.
  intros HP. induction l as [ | x l IH ]; simpl; [ reflexivity | ].
  rewrite HP. destruct (P x); simpl; rewrite IH; reflexivity.
Qed.

Lemma existsb_or_filter_nil {A} (P Q : A -> bool) l :
  filter P l = [] -> (forall x, In x l -> Q x = false) ->
  existsb (fun x => Q x || P x) l = false.
Proof.
  induction l as [ | x l IH ]; simpl; intros HP HQ; [ reflexivity | ].
  destruct (P x) eqn:E; [ discriminate | ].
  rewrite (HQ x (or_introl eq_refl)). simpl. apply IH; auto.
Qed.

(** Saving credentials is an upsert on (tenant, platform).  When an owner
    or admin sends a valid body, and the table holds at most one row for
    that tenant and platform, distinct ids, and not yet the id the
    database would give, the call succeeds; afterwards the table holds
    exactly one row for the tenant and platform, which is the one returned
    and carries the client id, the secret and the scopes of the body (an
    empty list when it gives none); the rows of every other tenant or
    platform are the ones there were, and ids stay distinct.  An existing
    row keeps its id and its activation, and its redirect URI when the
    body gives none; a new row has the new id, is active and records the
    caller.  The listing of the tenant then shows the row. *)
Theorem credentials_upsert
  (is_url : string -> bool) (no_single_row duplicate_key : string)
  (db : Settings) (userId : string) (body : json) (now new_id : string)
  (data : CredentialsRoute.Body.t)
  (Hbody : CredentialsRoute.credentialSchema is_url body = Some data)
  (Hrole : owner_or_admin db (CredentialsRoute.Body.tenantId data)
             (Some userId))
  (Hone : (List.length
             (credentials_of (platform_credentials db)
                (CredentialsRoute.Body.tenantId data)
                (CredentialsRoute.Body.platform data)) <= 1)%nat)
  (Hids : NoDup (map PlatformCredential.id (platform_credentials db)))
  (Hfresh : ~ In new_id (map PlatformCredential.id (platform_credentials db))) :
  exists message row db',
    CredentialsRoute.POST is_url no_single_row duplicate_key db (Some userId)
      body now new_id
    = (Ok (message, CredentialsRoute.saved row), db')
    /\ core db' = core db
    /\ credentials_of (platform_credentials db')
         (CredentialsRoute.Body.tenantId data)
         (CredentialsRoute.Body.platform data) = [row]
    /\ PlatformCredential.client_id row = CredentialsRoute.Body.clientId data
    /\ PlatformCredential.client_secret row
       = CredentialsRoute.Body.clientSecret data
    /\ PlatformCredential.scopes row
       = Some (match CredentialsRoute.Body.scopes data with
               | Some l => l
               | None => []
               end)
    /\ (forall c,
          (PlatformCredential.tenant_id c, PlatformCredential.platform c)
          <> (CredentialsRoute.Body.tenantId data,
              CredentialsRoute.Body.platform data) ->
          (In c (platform_credentials db')
           <-> In c (platform_credentials db)))
    /\ NoDup (map PlatformCredential.id (platform_credentials db'))
    /\ match
         credentials_of (platform_credentials db)
           (CredentialsRoute.Body.tenantId data)
           (CredentialsRoute.Body.platform data)
       with
       | old :: _ =>
           message = "Credentials updated successfully"
           /\ PlatformCredential.id row = PlatformCredential.id old
           /\ PlatformCredential.is_active row
              = PlatformCredential.is_active old
           /\ PlatformCredential.created_by row
              = PlatformCredential.created_by old
           /\ PlatformCredential.redirect_uri row
              = match CredentialsRoute.Body.redirectUri data with
                | Some uri => Some uri
                | None => PlatformCredential.redirect_uri old
                end
       | [] =>
           message = "Credentials created successfully"
           /\ PlatformCredential.id row = new_id
           /\ PlatformCredential.is_active row = true
           /\ PlatformCredential.created_by row = Some userId
           /\ PlatformCredential.redirect_uri row
              = CredentialsRoute.Body.redirectUri data
       end
    /\ exists l,
         CredentialsRoute.GET db' (Some userId)
           (Some (CredentialsRoute.Body.tenantId data)) = Ok l
         /\ In (CredentialsRoute.listed row) l.
Proof.
  pose proof (owner_or_admin_allowed _ _ _ Hrole) as Hallowed.
  pose proof (credentialSchema_tenantId _ _ _ Hbody) as Htruthy.
  set (t := CredentialsRoute.Body.tenantId data) in *.
  set (p := CredentialsRoute.Body.platform data) in *.
  set (key := fun c => (PlatformCredential.tenant_id c =? t)%string
                       && (PlatformCredential.platform c =? p)%string).
  assert (Hkey : forall c, key c = true <->
                   (PlatformCredential.tenant_id c,
                    PlatformCredential.platform c) = (t, p)).
  { intros c. unfold key. rewrite andb_true_iff, !String.eqb_eq.
    split; [ intros [-> ->]; reflexivity | intros E; injection E; auto ]. }
  assert (Hlisted : forall db' row,
            core db' = core db ->
            credentials_of (platform_credentials db') t p = [row] ->
            exists l, CredentialsRoute.GET db' (Some userId) (Some t) = Ok l
                      /\ In (CredentialsRoute.listed row) l).
  { intros db' row Hcore Hrow. unfold CredentialsRoute.GET.
    rewrite Htruthy, Hcore, Hallowed. eexists. split; [ reflexivity | ].
    apply in_map.
    eapply Permutation_in; [ apply order_desc_Permutation | ].
    assert (Hin : In row (credentials_of (platform_credentials db') t p))
      by (rewrite Hrow; left; reflexivity).
    apply filter_In in Hin. destruct Hin as [Hin Hk].
    apply filter_In. split; [ exact Hin | ].
    apply andb_true_iff in Hk. apply Hk. }
  unfold CredentialsRoute.POST. rewrite Hbody.
  fold t p. rewrite Hallowed. fold key.
  unfold credentials_of in Hone |- *. fold key in Hone |- *.
  destruct (filter key (platform_credentials db)) as [ | old [ | ? ? ] ]
    eqn:Hf; [ | | simpl in Hone; lia ]; cbn [single].
  - (* no row yet: created *)
    rewrite (existsb_or_filter_nil key
               (fun c => (PlatformCredential.id c =? new_id)%string)).
    2: exact Hf.
    2: { intros x Hx. apply String.eqb_neq. intros E. apply Hfresh.
         rewrite <- E. apply in_map. exact Hx. }
    set (row := CredentialsRoute.created userId data now new_id).
    assert (Hrowkey : key row = true).
    { unfold key, row. cbn. fold t p. rewrite !String.eqb_refl. reflexivity. }
    assert (Hcred : credentials_of
                      (platform_credentials db ++ [row]) t p = [row]).
    { unfold credentials_of. fold key. rewrite filter_app, Hf. simpl.
      rewrite Hrowkey. reflexivity. }
    exists "Credentials created successfully", row,
      (CredentialsRoute.with_platform_credentials db
         (platform_credentials db ++ [row])).
    split; [ reflexivity | ].
    split; [ reflexivity | ].
    split; [ exact Hcred | ].
    split; [ reflexivity | ]. split; [ reflexivity | ].
    split; [ reflexivity | ].
    split.
    { intros c Hc. cbn [platform_credentials
                         CredentialsRoute.with_platform_credentials].
      rewrite in_app_iff. split; [ | auto ].
      intros [ Hin | [ <- | [] ] ]; [ exact Hin | ].
      exfalso. apply Hc. apply Hkey. exact Hrowkey. }
    split.
    { cbn [platform_credentials CredentialsRoute.with_platform_credentials].
      rewrite map_app. simpl.
      apply NoDup_app.
      - exact Hids.
      - constructor; [ intros [] | constructor ].
      - intros i Hin [ E | [] ]. apply Hfresh. rewrite E. exact Hin. }
    split.
    { repeat split; reflexivity. }
    apply Hlisted; [ reflexivity | exact Hcred ].
  - (* one row: updated *)
    set (f := fun c =>
                if (PlatformCredential.id c =? PlatformCredential.id old)%string
                then CredentialsRoute.updated c data now else c).
    assert (Hold : In old (platform_credentials db) /\ key old = true).
    { apply filter_In. rewrite Hf. left. reflexivity. }
    destruct Hold as [Hin Hk].
    assert (Hfid : forall c, PlatformCredential.id (f c)
                             = PlatformCredential.id c).
    { intros c. unfold f.
      destruct (PlatformCredential.id c =? PlatformCredential.id old)%string;
        reflexivity. }
    assert (Hfkey : forall c, key (f c) = key c).
    { intros c. unfold f.
      destruct (PlatformCredential.id c =? PlatformCredential.id old)%string;
        reflexivity. }
    assert (Hfold : f old = CredentialsRoute.updated old data now).
    { unfold f. rewrite String.eqb_refl. reflexivity. }
    rewrite (filter_map_preserved
               (fun c => (PlatformCredential.id c
                          =? PlatformCredential.id old)%string) f).
    2: { intros c. rewrite Hfid. reflexivity. }
    rewrite (filter_by_id _ old Hids Hin). cbn [map single]. rewrite Hfold.
    set (row := CredentialsRoute.updated old data now).
    assert (Hcred : credentials_of (map f (platform_credentials db)) t p
                    = [row]).
    { unfold credentials_of. fold key.
      rewrite (filter_map_preserved key f _ Hfkey), Hf. simpl.
      rewrite Hfold. reflexivity. }
    exists "Credentials updated successfully", row,
      (CredentialsRoute.with_platform_credentials db
         (map f (platform_credentials db))).
    split; [ reflexivity | ].
    split; [ reflexivity | ].
    split; [ exact Hcred | ].
    split; [ reflexivity | ]. split; [ reflexivity | ].
    split; [ reflexivity | ].
    split.
    { intros c Hc. cbn [platform_credentials
                         CredentialsRoute.with_platform_credentials].
      assert (Hck : key c = false).
      { destruct (key c) eqn:E; [ | reflexivity ].
        exfalso. apply Hc. apply Hkey. exact E. }
      rewrite in_map_iff. split.
      - intros (x & Ex & Hx). unfold f in Ex.
        destruct (String.eqb_spec (PlatformCredential.id x)
                    (PlatformCredential.id old)) as [ E | _ ].
        + exfalso.
          assert (x = old) by (eapply NoDup_map_inj_in; eauto).
          subst x c. rewrite <- Hfold, Hfkey, Hk in Hck. discriminate.
        + subst x. exact Hx.
      - intros Hc'. exists c. split; [ | exact Hc' ]. unfold f.
        destruct (String.eqb_spec (PlatformCredential.id c)
                    (PlatformCredential.id old)) as [ E | _ ];
          [ | reflexivity ].
        exfalso.
        assert (c = old) by (eapply NoDup_map_inj_in; eauto).
        subst c. rewrite Hk in Hck. discriminate. }
    split.
    { cbn [platform_credentials CredentialsRoute.with_platform_credentials].
      rewrite map_map. rewrite (map_ext _ _ Hfid). exact Hids. }
    split.
    { repeat split; reflexivity. }
    apply Hlisted; [ reflexivity | exact Hcred ].
Qed.

Lemma credentials_upsert_witness :
  exists message row db',
    CredentialsRoute.POST starts_with_https "no single row" "duplicate key"
      configured_db (Some "u1") tiktok_credentials_body
      "2024-05-02T10:00:00.000Z" "cccccccc-cccc-4ccc-8ccc-cccccccccccc"
    = (Ok (message, CredentialsRoute.saved row), db')
    /\ credentials_of (platform_credentials db') tenant1 "tiktok" = [row]
    /\ PlatformCredential.client_id row = "client-123"
    /\ PlatformCredential.id row = PlatformCredential.id tiktok_row.
Proof.
  destruct (credentials_upsert starts_with_https "no single row"
              "duplicate key" configured_db "u1" tiktok_credentials_body
              "2024-05-02T10:00:00.000Z"
              "cccccccc-cccc-4ccc-8ccc-cccccccccccc" tiktok_credentials_data)
    as (message & row & db' & Hpost & _ & Hrow & Hclient & _ & _ & _
        & _ & Hold & _).
  - reflexivity.
  - exists "u1". eexists. split; [ reflexivity | ].
    split; [ reflexivity | ]. simpl. auto.
  - simpl. lia.
  - simpl. repeat constructor; simpl; intuition discriminate.
  - simpl. intuition discriminate.
  - exists message, row, db'. simpl in Hold.
    repeat split; try assumption. apply Hold.
Defined.

(** ** Saving credentials, then asking for the authorization URL *)

Lemma filter_andb {A} (P Q : A -> bool) l :
  filter (fun x => P x && Q x) l = filter Q (filter P l).
Proof.
  induction l as [ | x l IH ]; simpl; [ reflexivity | ].
  destruct (P x); simpl; [ destruct (Q x) | ]; rewrite IH; reflexivity.
Qed.

(** What a successful save leaves: one row for the tenant and platform of
    the body, the one returned, with the client id and the scopes of the
    body. *)
Lemma POST_saved_row
  (is_url : string -> bool) (no_single_row duplicate_key : string)
  (db : Settings) (user : option string) (body : json) (now new_id : string)
  (data : CredentialsRoute.Body.t) (message : string)
  (credential : CredentialsRoute.Saved.t) (db' : Settings) :
  CredentialsRoute.credentialSchema is_url body = Some data ->
  CredentialsRoute.POST is_url no_single_row duplicate_key db user body now
    new_id = (Ok (message, credential), db') ->
  exists row,
    credential = CredentialsRoute.saved row
    /\ core db' = core db
    /\ credentials_of (platform_credentials db')
         (CredentialsRoute.Body.tenantId data)
         (CredentialsRoute.Body.platform data) = [row]
    /\ PlatformCredential.client_id row = CredentialsRoute.Body.clientId data
    /\ PlatformCredential.scopes row
       = Some (or_else (CredentialsRoute.Body.scopes data) []).
Proof.
  intros Hbody. unfold CredentialsRoute.POST.
  destruct user as [ userId | ]; [ | discriminate ].
  rewrite Hbody.
  destruct (not_owner_or_admin _); [ discriminate | ].
  set (t := CredentialsRoute.Body.tenantId data).
  set (p := CredentialsRoute.Body.platform data).
  set (key := fun c => (PlatformCredential.tenant_id c =? t)%string
                       && (PlatformCredential.platform c =? p)%string).
  unfold credentials_of. fold key.
  destruct (filter key (platform_credentials db)) as [ | old [ | more rest ] ]
    eqn:Hf; cbn [single].
  - (* created *)
    destruct (existsb _ _); [ discriminate | ].
    intros H. injection H as <- <- <-.
    exists (CredentialsRoute.created userId data now new_id).
    split; [ reflexivity | ]. split; [ reflexivity | ].
    split; [ | split; reflexivity ].
    cbn [platform_credentials CredentialsRoute.with_platform_credentials].
    rewrite filter_app, Hf. unfold key. cbn. fold t p.
    rewrite !String.eqb_refl. reflexivity.
  - (* updated *)
    set (f := fun c =>
                if (PlatformCredential.id c =? PlatformCredential.id old)%string
                then CredentialsRoute.updated c data now else c).
    assert (Hold : In old (platform_credentials db) /\ key old = true).
    { apply filter_In. rewrite Hf. left. reflexivity. }
    destruct Hold as [Hin Hk].
    assert (Hfid : forall c, PlatformCredential.id (f c)
                             = PlatformCredential.id c).
    { intros c. unfold f.
      destruct (PlatformCredential.id c =? PlatformCredential.id old)%string;
        reflexivity. }
    assert (Hfkey : forall c, key (f c) = key c).
    { intros c. unfold f.
      destruct (PlatformCredential.id c =? PlatformCredential.id old)%string;
        reflexivity. }
    assert (Hfold : f old = CredentialsRoute.updated old data now).
    { unfold f. rewrite String.eqb_refl. reflexivity. }
    rewrite (filter_map_preserved
               (fun c => (PlatformCredential.id c
                          =? PlatformCredential.id old)%string) f).
    2: { intros c. rewrite Hfid. reflexivity. }
    destruct (filter
                (fun c => (PlatformCredential.id c
                           =? PlatformCredential.id old)%string)
                (platform_credentials db)) as [ | x [ | y ys ] ]
      eqn:Hfi; cbn [map single]; try discriminate.
    assert (Hx : In old [x]).
    { rewrite <- Hfi. apply filter_In. split; [ exact Hin | ].
      apply String.eqb_refl. }
    destruct Hx as [ -> | [] ].
    intros H. injection H as <- <- <-. rewrite Hfold.
    exists (CredentialsRoute.updated old data now).
    split; [ reflexivity | ]. split; [ reflexivity | ].
    split; [ | split; reflexivity ].
    cbn [platform_credentials CredentialsRoute.with_platform_credentials].
    rewrite (filter_map_preserved key f _ Hfkey), Hf. simpl.
    rewrite Hfold. reflexivity.
  - (* several rows: the insert is refused *)
    assert (E : existsb
                  (fun c => (PlatformCredential.id c =? new_id)%string
                            || key c) (platform_credentials db) = true).
    { apply existsb_exists. exists old.
      assert (Hold : In old (platform_credentials db) /\ key old = true).
      { apply filter_In. rewrite Hf. left. reflexivity. }
      destruct Hold as [Hin Hk]. split; [ exact Hin | ].
      rewrite Hk. apply orb_true_r. }
    unfold key in E. rewrite E. discriminate.
Qed.

(** Saving credentials decides what the OAuth URL handler answers next.
    After a successful save, an owner or admin of the tenant who asks for
    the authorization URL of that platform gets, when the returned
    credential is active, the URL built from the client id and the scopes
    just saved and the saved redirect URI (the requested one when none is
    saved); when the returned credential is inactive, which an update does
    not change, the caller is told that the platform is not configured. *)
Theorem saved_credentials_drive_oauth_url
  (is_url : string -> bool) (no_single_row duplicate_key : string)
  (db : Settings) (admin : option string) (body : json)
  (now new_id : string) (data : CredentialsRoute.Body.t) (message : string)
  (credential : CredentialsRoute.Saved.t) (db' : Settings)
  (member : string) (request_body : json) (request : OAuthUrlRoute.Body.t)
  (Hbody : CredentialsRoute.credentialSchema is_url body = Some data)
  (Hsaved : CredentialsRoute.POST is_url no_single_row duplicate_key db admin
              body now new_id = (Ok (message, credential), db'))
  (Hrequest : OAuthUrlRoute.oauthUrlSchema is_url request_body = Some request)
  (Htenant : OAuthUrlRoute.Body.tenantId request
             = CredentialsRoute.Body.tenantId data)
  (Hplatform : OAuthUrlRoute.Body.platform request
               = CredentialsRoute.Body.platform data)
  (Hmember : owner_or_admin db (CredentialsRoute.Body.tenantId data)
               (Some member)) :
  if CredentialsRoute.Saved.is_active credential then
    exists oauthUrl,
      OAuthUrlRoute.POST is_url db' (Some member) request_body
      = OAuthUrlRoute.OAuthUrl oauthUrl (CredentialsRoute.Body.platform data)
      /\ OAuthUrlRoute.getOAuthUrl (CredentialsRoute.Body.platform data)
           (CredentialsRoute.Body.clientId data)
           (or_else (truthy (CredentialsRoute.Saved.redirect_uri credential))
                    (OAuthUrlRoute.Body.redirectUri request))
           (Some (or_else (CredentialsRoute.Body.scopes data) []))
         = Some oauthUrl
  else
    OAuthUrlRoute.POST is_url db' (Some member) request_body
    = OAuthUrlRoute.NeedsConfiguration
        ("OAuth credentials not configured for "
         ++ CredentialsRoute.Body.platform data
         ++ ". Please add your API credentials in the Platform Settings.")%string.
Proof.
  destruct (POST_saved_row _ _ _ _ _ _ _ _ _ _ _ _ Hbody Hsaved)
    as (row & -> & Hcore & Hcred & Hclient & Hscopes).
  pose proof (oauthUrlSchema_platform is_url request_body request Hrequest)
    as Hknown.
  rewrite Hplatform in Hknown.
  assert (Hactive :
            OAuthUrlRoute.active_credentials db'
              (CredentialsRoute.Body.tenantId data)
              (CredentialsRoute.Body.platform data)
            = if PlatformCredential.is_active row then Some row else None).
  { unfold OAuthUrlRoute.active_credentials.
    rewrite (filter_andb
               (fun c => (PlatformCredential.tenant_id c
                          =? CredentialsRoute.Body.tenantId data)%string
                         && (PlatformCredential.platform c
                             =? CredentialsRoute.Body.platform data)%string)
               (fun c => Bool.eqb (PlatformCredential.is_active c) true)).
    unfold credentials_of in Hcred. rewrite Hcred. simpl.
    destruct (PlatformCredential.is_active row); reflexivity. }
  unfold OAuthUrlRoute.POST. rewrite Hrequest, Htenant, Hplatform, Hcore.
  destruct Hmember as (u & tu & Eu & Hu & _). injection Eu as <-.
  rewrite Hu, Hactive.
  cbn [CredentialsRoute.saved CredentialsRoute.Saved.is_active
       CredentialsRoute.Saved.redirect_uri].
  destruct (PlatformCredential.is_active row); [ | reflexivity ].
  cbv zeta. rewrite Hclient, Hscopes.
  destruct (getOAuthUrl_known (CredentialsRoute.Body.platform data)
              (CredentialsRoute.Body.clientId data)
              (or_else (truthy (PlatformCredential.redirect_uri row))
                       (OAuthUrlRoute.Body.redirectUri request))
              (Some (or_else (CredentialsRoute.Body.scopes data) [])))
    as (Hnone & Htruthy).
  rewrite Htruthy.
  destruct (OAuthUrlRoute.getOAuthUrl _ _ _ _) as [ u | ] eqn:Hg.
  - exists u. split; reflexivity.
  - exfalso. apply Hnone; [ reflexivity | exact Hknown ].
Qed.

Lemma saved_credentials_drive_oauth_url_witness :
  exists oauthUrl,
    OAuthUrlRoute.POST starts_with_https
      (CredentialsRoute.with_platform_credentials configured_db
         [ CredentialsRoute.updated tiktok_row tiktok_credentials_data
             "2024-05-02T10:00:00.000Z";
           instagram_row ])
      (Some "u1") tiktok_oauth_body
    = OAuthUrlRoute.OAuthUrl oauthUrl "tiktok".
Proof.
  pose proof
    (saved_credentials_drive_oauth_url starts_with_https "no single row"
       "duplicate key" configured_db (Some "u1") tiktok_credentials_body
       "2024-05-02T10:00:00.000Z" "cccccccc-cccc-4ccc-8ccc-cccccccccccc"
       tiktok_credentials_data "Credentials updated successfully"
       (CredentialsRoute.saved
          (CredentialsRoute.updated tiktok_row tiktok_credentials_data
             "2024-05-02T10:00:00.000Z"))
       (CredentialsRoute.with_platform_credentials configured_db
          [ CredentialsRoute.updated tiktok_row tiktok_credentials_data
              "2024-05-02T10:00:00.000Z";
            instagram_row ])
       "u1" tiktok_oauth_body tiktok_oauth_request
       eq_refl eq_refl eq_refl eq_refl eq_refl) as H.
  cbn [CredentialsRoute.saved CredentialsRoute.Saved.is_active
       CredentialsRoute.updated PlatformCredential.is_active tiktok_row] in H.
  destruct H as (oauthUrl & H & _).
  - exists "u1". eexists. split; [ reflexivity | ].
    split; [ reflexivity | ]. simpl. auto.
  - exists oauthUrl. exact H.
Defined.

(** ** Deleting credentials *)

(** Deleting is scoped to the caller's tenant.  For an owner or admin of
    the tenant and a credential id that is a UUID, the call always answers
    success, whether or not a row was there; it removes exactly the rows
    with that id that belong to the tenant, so the id of a credential of
    another tenant removes nothing.  The listing of the tenant afterwards
    is the listing before without the entries of that id, and the listing
    of every other tenant is unchanged, for any caller. *)
Theorem credentials_delete_scoped
  (db : Settings) (userId tenantId credentialId : string)
  (Hrole : owner_or_admin db tenantId (Some userId))
  (Htenant : Zod.is_uuid tenantId = true)
  (Hcredential : Zod.is_uuid credentialId = true) :
  exists db',
    CredentialsRoute.DELETE db (Some userId) (Some tenantId)
      (Some credentialId)
    = (Ok "Credentials deleted successfully", db')
    /\ core db' = core db
    /\ (forall c,
          In c (platform_credentials db')
          <-> In c (platform_credentials db)
              /\ ~ (PlatformCredential.id c = credentialId
                    /\ PlatformCredential.tenant_id c = tenantId))
    /\ (exists before after,
          CredentialsRoute.GET db (Some userId) (Some tenantId) = Ok before
          /\ CredentialsRoute.GET db' (Some userId) (Some tenantId) = Ok after
          /\ forall x,
               In x after
               <-> In x before
                   /\ CredentialsRoute.Listed.id x <> credentialId)
    /\ (forall user other,
          other <> tenantId ->
          CredentialsRoute.GET db' user (Some other)
          = CredentialsRoute.GET db user (Some other)).
Proof.
  pose proof (owner_or_admin_allowed _ _ _ Hrole) as Hallowed.
  pose proof (is_uuid_nonempty _ Htenant) as Htruthy.
  unfold CredentialsRoute.DELETE. rewrite Hallowed.
  set (kept := fun c =>
                 negb ((PlatformCredential.id c =? credentialId)%string
                       && (PlatformCredential.tenant_id c
                           =? tenantId)%string)).
  assert (Hkept : forall c, kept c = true <->
                    ~ (PlatformCredential.id c = credentialId
                       /\ PlatformCredential.tenant_id c = tenantId)).
  { intros c. unfold kept.
    rewrite negb_true_iff, andb_false_iff, !String.eqb_neq. split.
    - intros [ H | H ] [ E1 E2 ]; contradiction.
    - intros H.
      destruct (string_dec (PlatformCredential.id c) credentialId)
        as [ E | N ]; [ right | left; exact N ].
      intros E2. apply H. split; assumption. }
  eexists. split; [ reflexivity | ].
  cbn [core platform_credentials CredentialsRoute.with_platform_credentials].
  split; [ reflexivity | ].
  split.
  { intros c. rewrite filter_In, Hkept. reflexivity. }
  split.
  - unfold CredentialsRoute.GET.
    cbn [core platform_credentials
         CredentialsRoute.with_platform_credentials].
    rewrite Htruthy, Hallowed.
    eexists. eexists. split; [ reflexivity | ]. split; [ reflexivity | ].
    intros x. rewrite !in_map_iff. split.
    + intros (c & <- & Hc).
      apply (Permutation_in _
               (Permutation_sym (order_desc_Permutation _ _))) in Hc.
      apply filter_In in Hc. destruct Hc as [Hc Ht].
      apply filter_In in Hc. destruct Hc as [Hc Hk].
      apply Hkept in Hk. apply String.eqb_eq in Ht.
      split.
      * exists c. split; [ reflexivity | ].
        eapply Permutation_in; [ apply order_desc_Permutation | ].
        apply filter_In. split; [ exact Hc | ].
        apply String.eqb_eq. exact Ht.
      * cbn. intros E. apply Hk. split; assumption.
    + intros [ (c & <- & Hc) Hx ]. cbn in Hx.
      apply (Permutation_in _
               (Permutation_sym (order_desc_Permutation _ _))) in Hc.
      apply filter_In in Hc. destruct Hc as [Hc Ht].
      exists c. split; [ reflexivity | ].
      eapply Permutation_in; [ apply order_desc_Permutation | ].
      apply filter_In. split; [ | exact Ht ].
      apply filter_In. split; [ exact Hc | ].
      apply Hkept. intros [ E _ ]. contradiction.
  - intros user other Hother. unfold CredentialsRoute.GET.
    cbn [core platform_credentials
         CredentialsRoute.with_platform_credentials].
    destruct user as [ u | ]; [ | reflexivity ].
    destruct (truthy (Some other)) as [ o | ] eqn:Ho; [ | reflexivity ].
    assert (o = other).
    { destruct other; simpl in Ho; congruence. }
    subst o.
    destruct (not_owner_or_admin (tenantUser (core db) other u));
      [ reflexivity | ].
    do 3 f_equal.
    rewrite <- filter_andb.
    apply filter_ext. intros c. unfold kept.
    destruct (String.eqb_spec (PlatformCredential.tenant_id c) other)
      as [ E | _ ]; [ | apply andb_false_r ].
    destruct (String.eqb_spec (PlatformCredential.tenant_id c) tenantId)
      as [ E' | _ ]; [ congruence | ].
    rewrite andb_false_r. reflexivity.
Qed.

Lemma credentials_delete_scoped_witness :
  exists db',
    CredentialsRoute.DELETE configured_db (Some "u1") (Some tenant1)
      (Some "aaaaaaaa-aaaa-4aaa-8aaa-aaaaaaaaaaaa")
    = (Ok "Credentials deleted successfully", db')
    /\ platform_credentials db' = [ instagram_row ].
Proof.
  destruct (credentials_delete_scoped configured_db "u1" tenant1
              "aaaaaaaa-aaaa-4aaa-8aaa-aaaaaaaaaaaa")
    as (db' & Hdelete & _).
  - exists "u1". eexists. split; [ reflexivity | ].
    split; [ reflexivity | ]. simpl. auto.
  - reflexivity.
  - reflexivity.
  - exists db'. split; [ exact Hdelete | ].
    injection Hdelete as <-. reflexivity.
Defined.

(** ** The redirect URI inside the authorization URL *)

Lemma string_append_assoc (a b c : string) :
  ((a ++ b) ++ c = a ++ (b ++ c))%string.
Proof.
  induction a as [ | x a IH ]; simpl; [ reflexivity | ].
  rewrite IH. reflexivity.
Qed.

Lemma list_ascii_of_string_append (a b : string) :
  list_ascii_of_string (a ++ b)
  = list_ascii_of_string a ++ list_ascii_of_string b.
Proof.
  induction a as [ | x a IH ]; simpl; [ reflexivity | ].
  rewrite IH. reflexivity.
Qed.

Lemma append_cancel_l (a b c : string) :
  (a ++ b = a ++ c)%string -> b = c.
Proof.
  induction a as [ | x a IH ]; simpl; intros E; [ exact E | ].
  injection E as E. apply IH. exact E.
Qed.

Lemma append_cancel_r (a b c : string) :
  (a ++ c = b ++ c)%string -> a = b.
Proof.
  intros E. apply (f_equal list_ascii_of_string) in E.
  rewrite !list_ascii_of_string_append in E.
  apply app_inv_tail in E.
  apply (f_equal string_of_list_ascii) in E.
  rewrite !string_of_list_ascii_of_string in E. exact E.
Qed.

Lemma url_around_injective (before after : string)
  (url : string -> option string) :
  (forall r,
     url r = Some (before ++ Uri.encodeURIComponent r ++ after)%string) ->
  forall r1 r2, url r1 = url r2 -> r1 = r2.
Proof.
  intros Hurl r1 r2 E. rewrite !Hurl in E. injection E as E.
  apply append_cancel_l, append_cancel_r in E.
  pose proof (percent_decode_encode r1) as H1.
  rewrite E, percent_decode_encode in H1. congruence.
Qed.

(** For each of the six platforms the authorization URL is a fixed text
    around the percent-encoded redirect URI: what stands before and after
    it depends on the platform, the client id and the scopes only.  The
    encoded redirect URI holds none of the characters that structure a
    query string, so it cannot end its parameter or add another; and URLs
    built from different redirect URIs differ. *)
Theorem getOAuthUrl_escapes_redirect_uri
  (platform_ clientId : string) (customScopes : option (list string))
  (Hplatform : In platform_ known_platforms) :
  exists before after,
    (forall redirectUri,
       OAuthUrlRoute.getOAuthUrl platform_ clientId redirectUri customScopes
       = Some (before ++ Uri.encodeURIComponent redirectUri ++ after)%string)
    /\ (forall redirectUri x,
          In x [ "&"; "="; "?"; "#"; "+"; "/"; " " ]%char ->
          ~ In x (list_ascii_of_string (Uri.encodeURIComponent redirectUri)))
    /\ (forall r1 r2,
          OAuthUrlRoute.getOAuthUrl platform_ clientId r1 customScopes
          = OAuthUrlRoute.getOAuthUrl platform_ clientId r2 customScopes ->
          r1 = r2).
Proof.
  assert (Hsplit :
            exists before after,
              forall redirectUri,
                OAuthUrlRoute.getOAuthUrl platform_ clientId redirectUri
                  customScopes
                = Some (before ++ Uri.encodeURIComponent redirectUri
                        ++ after)%string).
  { unfold known_platforms in Hplatform. simpl in Hplatform.
    destruct Hplatform
      as [ <- | [ <- | [ <- | [ <- | [ <- | [ <- | [] ] ] ] ] ] ];
      unfold OAuthUrlRoute.getOAuthUrl;
      cbn [String.eqb Ascii.eqb Bool.eqb orb andb]; cbv zeta;
      match goal with
      | |- exists before after, forall r,
             Some (?a ++ clientId ++ ?b ++ Uri.encodeURIComponent r ++ ?c)%string
             = _ =>
          exists (a ++ clientId ++ b)%string, c; intros r;
          rewrite !string_append_assoc; reflexivity
      | |- exists before after, forall r,
             Some (?a ++ clientId ++ ?b ++ ?s ++ ?d
                   ++ Uri.encodeURIComponent r ++ ?c)%string
             = _ =>
          exists (a ++ clientId ++ b ++ s ++ d)%string, c; intros r;
          rewrite !string_append_assoc; reflexivity
      end. }
  destruct Hsplit as (before & after & Hurl).
  exists before, after. split; [ exact Hurl | ]. split.
  - intros r x Hx.
    apply (proj1 (proj2 encodeURIComponent_safe_and_injective) r x Hx).
  - exact (url_around_injective before after _ Hurl).
Qed.

Lemma getOAuthUrl_escapes_redirect_uri_witness :
  exists before after,
    OAuthUrlRoute.getOAuthUrl "tiktok" "client-123"
      "https://app.example.com/oauth?next=/a b" None
    = Some (before ++ "https%3A%2F%2Fapp.example.com%2Foauth%3Fnext%3D%2Fa%20b"
            ++ after)%string.
Proof.
  destruct (getOAuthUrl_escapes_redirect_uri "tiktok" "client-123" None)
    as (before & after & Hurl & _).
  - unfold known_platforms. simpl. auto.
  - exists before, after.
    exact (Hurl "https://app.example.com/oauth?next=/a b").
Defined.
